(** * GeoStar energy ingest: session handling, vendor client and jobs

    A shallow embedding of the worker's TypeScript sources
    ([auth.ts], [geostar-client.ts], [db.ts], [cron.ts]) and the
    properties of its specification that were checked against it.

    The sources hold two versions of [cron.ts]; the later one is
    embedded, with the [db.ts] and [geostar-client.ts] that stand next
    to it.  That [cron.ts] imports [getTimezoneOffsetMs] from [db.ts],
    which declares the function without exporting it: the embedding
    has the imported binding as the sources leave it, [undefined].

    Conventions of the embedding.
    - A value obtained from [JSON.parse] is a [value]; numbers are
      modelled by [Z] (the properties below only ask whether a number
      is zero and compare integral millisecond timestamps).  The text
      of a number is its decimal digits for a safe integer, and is
      left to the platform beyond.
    - Asynchronous code is sequential state passing over a [World]:
      every [fetch], every D1 statement and every [Date.now()] consumes
      the next answer of an oracle held in [Env]; a rejected promise
      or a thrown exception is the [Throw] outcome.
    - [console.log] has no effect on the program and is left out,
      except where evaluating its argument can throw. *)

From Stdlib Require Import ZArith List String Ascii Bool Lia DecimalString.
Import ListNotations.
Open Scope string_scope.
Open Scope Z_scope.
Set Warnings "-register-all".

(** ** JavaScript values *)

Module JS.

Inductive value : Type :=
| VUndef
| VNull
| VBool (b : bool)
| VNum (n : Z)
| VStr (s : string)
| VArr (items : list value)
| VObj (entries : list (string * value)).

(** Induction principle that reaches the values nested in arrays and
    objects. *)
Section ValueInd.
Variable P : value -> Prop.
Hypothesis Hundef : P VUndef.
Hypothesis Hnull : P VNull.
Hypothesis Hbool : forall b, P (VBool b).
Hypothesis Hnum : forall n, P (VNum n).
Hypothesis Hstr : forall s, P (VStr s).
Hypothesis Harr : forall items, Forall P items -> P (VArr items).
Hypothesis Hobj : forall entries,
    Forall (fun kv => P (snd kv)) entries -> P (VObj entries).

Fixpoint value_nested_ind (v : value) : P v :=
  match v with
  | VUndef => Hundef
  | VNull => Hnull
  | VBool b => Hbool b
  | VNum n => Hnum n
  | VStr s => Hstr s
  | VArr items =>
      Harr items
        ((fix go (l : list value) : Forall P l :=
            match l with
            | [] => Forall_nil _
            | x :: l' => Forall_cons _ (value_nested_ind x) (go l')
            end) items)
  | VObj entries =>
      Hobj entries
        ((fix go (l : list (string * value))
            : Forall (fun kv => P (snd kv)) l :=
            match l with
            | [] => Forall_nil _
            | kv :: l' =>
                Forall_cons (P := fun kv => P (snd kv)) kv
                  (value_nested_ind (snd kv)) (go l')
            end) entries)
  end.
End ValueInd.

(** Truthiness ([ToBoolean]). *)
Definition truthy (v : value) : bool :=
  match v with
  | VUndef | VNull => false
  | VBool b => b
  | VNum n => negb (n =? 0)
  | VStr s => negb (String.eqb s "")
  | VArr _ | VObj _ => true
  end.

(** [a || b]. *)
Definition or_else (a b : value) : value := if truthy a then a else b.

(** [a ?? b]. *)
Definition nullish (v : value) : bool :=
  match v with VUndef | VNull => true | _ => false end.
Definition coalesce (a b : value) : value := if nullish a then b else a.

Definition is_array (v : value) : bool :=
  match v with VArr _ => true | _ => false end.

Definition is_string (v : value) : bool :=
  match v with VStr _ => true | _ => false end.

(** [typeof v === 'object' && v !== null] *)
Definition is_object (v : value) : bool :=
  match v with VArr _ | VObj _ => true | _ => false end.

Fixpoint assoc (k : string) (l : list (string * value)) : option value :=
  match l with
  | [] => None
  | (k', v) :: l' => if String.eqb k k' then Some v else assoc k l'
  end.

(** [v.k] for a value that is neither [null] nor [undefined].  The
    property names the program reads are not properties of the
    prototypes of arrays, strings, numbers or booleans, so on those the
    result is [undefined]. *)
Definition field (k : string) (v : value) : value :=
  match v with
  | VObj entries => match assoc k entries with Some x => x | None => VUndef end
  | _ => VUndef
  end.

(** [k in v] for an object or array [v]. *)
Definition has_key (k : string) (v : value) : bool :=
  match v with
  | VObj entries => match assoc k entries with Some _ => true | None => false end
  | _ => false
  end.

Definition nat_to_string (n : nat) : string :=
  NilZero.string_of_uint (Nat.to_uint n).

Definition Z_to_string (z : Z) : string :=
  NilZero.string_of_int (Z.to_int z).

(** [Object.keys(v)] of a value that is not [null]. *)
Definition keys (v : value) : list string :=
  match v with
  | VObj entries => map fst entries
  | VArr items => map nat_to_string (seq 0 (List.length items))
  | VStr s => map nat_to_string (seq 0 (String.length s))
  | _ => []
  end.

(** [xs.join(sep)] on strings. *)
Definition join (sep : string) (xs : list string) : string :=
  String.concat sep xs.

(** [Number.MAX_SAFE_INTEGER] *)
Definition MAX_SAFE_INTEGER : Z := 9007199254740991.

(** [String(n)] for a number: the decimal digits of a safe integer.
    Beyond, the digits are those of the shortest decimal that reads
    back as the same double, in exponent notation from 1e21 on: that
    text is [big n]. *)
Definition number_to_string (big : Z -> string) (n : Z) : string :=
  if Z.abs n <=? MAX_SAFE_INTEGER then Z_to_string n else big n.

(** [String(v)]. *)
Fixpoint to_string (big : Z -> string) (v : value) : string :=
  match v with
  | VUndef => "undefined"
  | VNull => "null"
  | VBool true => "true"
  | VBool false => "false"
  | VNum n => number_to_string big n
  | VStr s => s
  | VArr items =>
      String.concat ","
        ((fix go (l : list value) : list string :=
            match l with
            | [] => []
            | x :: l' => (if nullish x then "" else to_string big x) :: go l'
            end) items)
  | VObj _ => "[object Object]"
  end.

(** [row[i]] for a number [i] that is a non-negative integer. *)
Definition at_index (row : value) (i : nat) : value :=
  match row with
  | VArr items => nth i items VUndef
  | VStr s => match String.get i s with
              | Some c => VStr (String c EmptyString)
              | None => VUndef
              end
  | VObj entries =>
      match assoc (nat_to_string i) entries with Some x => x | None => VUndef end
  | _ => VUndef
  end.

(** Structural comparison of two values. *)
Fixpoint value_eqb (a b : value) : bool :=
  match a, b with
  | VUndef, VUndef => true
  | VNull, VNull => true
  | VBool x, VBool y => Bool.eqb x y
  | VNum x, VNum y => x =? y
  | VStr x, VStr y => String.eqb x y
  | VArr xs, VArr ys =>
      (fix go (l : list value) (r : list value) : bool :=
         match l, r with
         | [], [] => true
         | x :: l', y :: r' => value_eqb x y && go l' r'
         | _, _ => false
         end) xs ys
  | VObj xs, VObj ys =>
      (fix go (l : list (string * value)) (r : list (string * value)) : bool :=
         match l, r with
         | [], [] => true
         | (k, x) :: l', (k', y) :: r' =>
             String.eqb k k' && value_eqb x y && go l' r'
         | _, _ => false
         end) xs ys
  | _, _ => false
  end.

End JS.
Import JS.

(** ** The two regular expressions of the program *)

Module Pattern.

(** [strip_prefix p s] is the rest of [s] after its prefix [p]. *)
Fixpoint strip_prefix (p s : string) : option string :=
  match p with
  | EmptyString => Some s
  | String c p' =>
      match s with
      | EmptyString => None
      | String d s' => if Ascii.eqb c d then strip_prefix p' s' else None
      end
  end.

(** The longest prefix matched by [[^;]*]. *)
Fixpoint not_semicolon (s : string) : string :=
  match s with
  | EmptyString => EmptyString
  | String c s' =>
      if Ascii.eqb c ";" then EmptyString else String c (not_semicolon s')
  end.

(** First capture of [/sessionid=([^;]+)/] in [s], leftmost match. *)
Fixpoint match_sessionid (s : string) : option string :=
  let here :=
    match strip_prefix "sessionid=" s with
    | Some rest =>
        match not_semicolon rest with
        | EmptyString => None
        | cap => Some cap
        end
    | None => None
    end in
  match here with
  | Some cap => Some cap
  | None =>
      match s with
      | EmptyString => None
      | String _ s' => match_sessionid s'
      end
  end.

(** [\d] *)
Definition digit (c : ascii) : option Z :=
  let n := Z.of_nat (nat_of_ascii c) in
  if (48 <=? n) && (n <=? 57) then Some (n - 48) else None.

(** The captures of [/GMT([+-])(\d{2}):(\d{2})/] at the start of [s]:
    the sign character and the two numbers read by [parseInt]. *)
Definition gmt_offset_here (s : string) : option (ascii * Z * Z) :=
  match strip_prefix "GMT" s with
  | Some (String sg (String h1 (String h2 (String col (String m1 (String m2 _)))))) =>
      if (Ascii.eqb sg "+" || Ascii.eqb sg "-") && Ascii.eqb col ":" then
        match digit h1, digit h2, digit m1, digit m2 with
        | Some a, Some b, Some c, Some d => Some (sg, 10 * a + b, 10 * c + d)
        | _, _, _, _ => None
        end
      else None
  | _ => None
  end.

Fixpoint match_gmt_offset (s : string) : option (ascii * Z * Z) :=
  match gmt_offset_here s with
  | Some m => Some m
  | None =>
      match s with
      | EmptyString => None
      | String _ s' => match_gmt_offset s'
      end
  end.

End Pattern.

(** ** Errors, outcomes and the world *)

(** A thrown [Error]; [is_auth] tells an [AuthError] from the rest.
    Every exception of the program is an [Error] object, so
    [error instanceof Error ? error.message : 'Unknown error'] is
    [message]. *)
Record Err : Type := mkErr { is_auth : bool; message : string }.

Definition Error (msg : string) : Err := mkErr false msg.
Definition AuthError (msg : string) : Err := mkErr true msg.

Inductive Outcome (A : Type) : Type :=
| Return (a : A)
| Throw (e : Err).
Arguments Return {A} a.
Arguments Throw {A} e.

(** auth.ts, [interface Session] *)
Record Session : Type := mkSession {
  sessionId : string;
  userKey : string;
  createdAt : Z
}.

(** geostar-client.ts, [interface Gateway]: the fields hold whatever
    the vendor sent. *)
Record Gateway : Type := mkGateway {
  gwid : value;
  name : value;
  location : value
}.

(** geostar-client.ts, [interface EnergyReading] *)
Record EnergyReading : Type := mkReading {
  timestamp : value;
  total_heat_1 : value;
  total_heat_2 : value;
  total_cool_1 : value;
  total_cool_2 : value;
  total_electric_heat : value;
  total_fan_only : value;
  total_loop_pump : value;
  total_dehumidification : value;
  runtime_heat_1 : value;
  runtime_heat_2 : value;
  runtime_cool_1 : value;
  runtime_cool_2 : value;
  runtime_electric_heat : value;
  runtime_fan_only : value;
  runtime_dehumidification : value;
  total_power : value
}.

(** A row of the table [energy_readings] of schema.sql (the
    autoincremented [id] is left out). *)
Record StoredRow : Type := mkRow {
  gateway_id : value;
  stored : EnergyReading
}.

(** The body of an HTTP response: [response.text()] can reject;
    otherwise it gives the text, together with what [JSON.parse]
    makes of it ([None]: a [SyntaxError]). *)
Inductive Body : Type :=
| BodyError (msg : string)
| BodyText (text : string) (parsed : option value).

Record Response : Type := mkResponse {
  status : Z;
  set_cookie : option string;
  body : Body
}.

(** [response.ok] *)
Definition ok (r : Response) : bool :=
  (200 <=? status r) && (status r <=? 299).

(** What a call of [fetch] gives: a rejection or a response. *)
Inductive FetchOutcome : Type :=
| NetworkFailure (msg : string)
| Responded (r : Response).

(** The requests the program sends, by endpoint. *)
Inductive Request : Type :=
| ReqLogin (email password : string)
| ReqUser (sid : string) (auk : option string)
| ReqLocations (s : Session)
| ReqEnergy (s : Session) (gw : value) (startDate endDate freq tz : string).

(** What lies outside the program: the vendor, the failures of D1,
    the clock and the [Intl] and [Date] functions of the platform. *)
Record Env : Type := mkEnv {
  (** the answer to the [n]-th [fetch] of the run *)
  net : nat -> FetchOutcome;
  (** whether the [n]-th D1 statement or batch fails, and how *)
  d1_failure : nat -> option string;
  (** the [n]-th reading of [Date.now()] *)
  clock : nat -> Z;
  (** [new Intl.DateTimeFormat('en-CA', {timeZone}).format(t)];
      [None] is the [RangeError] of an unknown time zone *)
  format_date : string -> Z -> option string;
  (** [new Intl.DateTimeFormat('en-GB', {timeZone, timeZoneName:
      'longOffset'}).format(new Date(date + 'T12:00:00Z'))] *)
  format_offset : string -> string -> option string;
  (** [new Date(date + 'T00:00:00Z').getTime()]; [None] is [NaN] *)
  utc_midnight : string -> option Z;
  (** [ToNumber] on strings, arrays and objects *)
  to_number_other : value -> option Z;
  (** [String(n)] for a number that is not a safe integer *)
  number_text : Z -> string;
  (** the message of the [TypeError] thrown by a call of a binding,
      given by name, whose value is [undefined] *)
  not_a_function : string -> string
}.

Record World : Type := mkWorld {
  fetches : nat;
  statements : nat;
  ticks : nat;
  (** the single row of the table [sessions] *)
  session_row : option Session;
  (** the table [energy_readings] *)
  energy_readings : list StoredRow;
  (** the requests sent so far, the latest first *)
  sent : list Request
}.

(** Computations: state passing with exceptions, over a state [S]. *)
Definition ST (S A : Type) : Type := S -> Outcome A * S.

(** The computations of the library functions run on the world. *)
Definition M (A : Type) : Type := ST World A.

Definition ret {S A} (a : A) : ST S A := fun w => (Return a, w).
Definition throw {S A} (e : Err) : ST S A := fun w => (Throw e, w).
Definition bind {S A B} (m : ST S A) (k : A -> ST S B) : ST S B :=
  fun w =>
    match m w with
    | (Return a, w') => k a w'
    | (Throw e, w') => (Throw e, w')
    end.
(** [try { m } catch (e) { h e }] *)
Definition try_catch {S A} (m : ST S A) (h : Err -> ST S A) : ST S A :=
  fun w =>
    match m w with
    | (Return a, w') => (Return a, w')
    | (Throw e, w') => h e w'
    end.

Declare Scope js_scope.
Delimit Scope js_scope with js.
Notation "x <- m ;; k" := (bind m (fun x => k))
  (at level 61, m at next level, right associativity) : js_scope.
Notation "m ;;; k" := (bind m (fun _ => k))
  (at level 61, right associativity) : js_scope.
Open Scope js_scope.

Section Program.

Variable env : Env.

(** ** Primitives of the platform *)

(** [await fetch(...)]: the request is sent and the next answer of the
    network is consumed; a rejection is a thrown [TypeError]. *)
Definition fetch (req : Request) : M Response :=
  fun w =>
    let w' := mkWorld (S (fetches w)) (statements w) (ticks w)
                (session_row w) (energy_readings w) (req :: sent w) in
    match net env (fetches w) with
    | NetworkFailure msg => (Throw (Error msg), w')
    | Responded r => (Return r, w')
    end.

(** [await response.text()], paired with the result of [JSON.parse]
    on that text. *)
Definition text (r : Response) : M (string * option value) :=
  match body r with
  | BodyError msg => throw (Error msg)
  | BodyText t parsed => ret (t, parsed)
  end.

(** [Date.now()] *)
Definition Date_now : M Z :=
  fun w =>
    (Return (clock env (ticks w)),
     mkWorld (fetches w) (statements w) (S (ticks w))
       (session_row w) (energy_readings w) (sent w)).

(** One round trip to D1 ([first], [run] or [batch]): it fails when
    the oracle says so, before any row is changed. *)
Definition d1_round_trip : M unit :=
  fun w =>
    let w' := mkWorld (fetches w) (S (statements w)) (ticks w)
                (session_row w) (energy_readings w) (sent w) in
    match d1_failure env (statements w) with
    | Some msg => (Throw (Error msg), w')
    | None => (Return tt, w')
    end.

(** [v.k]: a [TypeError] on [null] and [undefined], which the message
    names. *)
Definition read (k : string) (v : value) : M value :=
  if nullish v then
    throw (Error ("Cannot read properties of "
                  ++ (match v with VNull => "null" | _ => "undefined" end)
                  ++ " (reading '" ++ k ++ "')"))
  else ret (field k v).

(** [Object.keys(v)]: a [TypeError] on [null] and [undefined]. *)
Definition Object_keys (v : value) : M (list string) :=
  if nullish v then
    throw (Error "Cannot convert undefined or null to object")
  else ret (keys v).

(** ** auth.ts *)

Definition SESSION_MAX_AGE_MS : Z := 12 * 60 * 60 * 1000.

(** [data.awlUserKey || data.awluserkey || data.auk || data.id ||
    data.user_id || data.userId] *)
Definition user_key_candidate (data : value) : M value :=
  a <- read "awlUserKey" data;;
  b <- (if truthy a then ret a else read "awluserkey" data);;
  c <- (if truthy b then ret b else read "auk" data);;
  d <- (if truthy c then ret c else read "id" data);;
  e <- (if truthy d then ret d else read "user_id" data);;
  (if truthy e then ret e else read "userId" data).

Definition getUserKey (sid : string) : M string :=
  response <- fetch (ReqUser sid None);;
  if negb (ok response) then
    text response;;;
    throw (Error ("Failed to get user info: " ++ Z_to_string (status response)))
  else
    tp <- text response;;
    match snd tp with
    | None =>
        throw (Error ("Failed to parse user API response as JSON: "
                      ++ substring 0 200 (fst tp)))
    | Some data =>
        uk <- user_key_candidate data;;
        if negb (truthy uk) then
          throw (Error ("Failed to get user key from user data. Available fields: "
                        ++ join ", " (keys data)))
        else ret (to_string (number_text env) uk)
    end.

Definition login (email password : string) : M Session :=
  response <- fetch (ReqLogin email password);;
  if negb (status response =? 302) then
    text response;;;
    throw (Error ("Login failed: expected 302, got "
                  ++ Z_to_string (status response)))
  else
    match set_cookie response with
    | None => throw (Error "Login failed: no Set-Cookie header")
    | Some setCookie =>
        if String.eqb setCookie "" then
          throw (Error "Login failed: no Set-Cookie header")
        else
          match Pattern.match_sessionid setCookie with
          | None =>
              throw (Error ("Login failed: no sessionid in Set-Cookie. Header was: "
                            ++ setCookie))
          | Some sid =>
              uk <- getUserKey sid;;
              t <- Date_now;;
              ret (mkSession sid uk t)
          end
    end.

Definition getStoredSession : M (option Session) :=
  d1_round_trip;;;
  fun w => (Return (session_row w), w).

(** [INSERT OR REPLACE INTO sessions (id, ...) VALUES (1, ...)] *)
Definition storeSession (s : Session) : M unit :=
  d1_round_trip;;;
  fun w =>
    (Return tt,
     mkWorld (fetches w) (statements w) (ticks w) (Some s)
       (energy_readings w) (sent w)).

(** The comparison of [isSessionExpired], at a given reading of the
    clock. *)
Definition expired_at (now : Z) (s : Session) : bool :=
  now - createdAt s >? SESSION_MAX_AGE_MS.

Definition isSessionExpired (s : Session) : M bool :=
  t <- Date_now;;
  ret (expired_at t s).

(** [validateSession(session)]: the whole body is inside [try], and
    the [catch] returns false. *)
Definition validateSession (s : Session) : M bool :=
  try_catch
    (response <- fetch (ReqUser (sessionId s) (Some (userKey s)));;
     if negb (ok response) then ret false
     else
       tp <- text response;;
       match snd tp with
       | None => ret false
       | Some data =>
           err <- read "err" data;;
           if truthy err
              && negb (match err with VStr s => String.eqb s "" | _ => false end)
           then ret false
           else
             uk <- user_key_candidate data;;
             if negb (truthy uk) then ret false else ret true
       end)
    (fun _ => ret false).

(** [new Date(t).toISOString()] throws a [RangeError] outside the
    range of time values; its result is only logged. *)
Definition toISOString_check (t : Z) : M unit :=
  if (Z.abs t <=? 8640000000000000) then ret tt
  else throw (Error "Invalid time value").

(** [interface AuthResult] *)
Record AuthResult : Type := mkAuthResult {
  session : Session;
  fresh : bool
}.

(** The end of [getValidSession]: a login, the new session stored,
    and the result with [fresh: true]. *)
Definition fresh_login (email password : string) : M AuthResult :=
  newSession <- login email password;;
  storeSession newSession;;;
  ret (mkAuthResult newSession true).

Definition getValidSession (email password : string) : M AuthResult :=
  storedSession <- getStoredSession;;
  match storedSession with
  | Some stored_session =>
      toISOString_check (createdAt stored_session);;;
      expired <- isSessionExpired stored_session;;
      if negb expired then
        isValid <- validateSession stored_session;;
        if isValid then ret (mkAuthResult stored_session false)
        else fresh_login email password
      else fresh_login email password
  | None => fresh_login email password
  end.

(** ** geostar-client.ts *)

(** The gateway built from an element of the [gateways] array. *)
Definition gateway_of_listed (gw : value) : M Gateway :=
  g <- read "gwid" gw;;
  ret (mkGateway g
         (or_else (field "description" gw) (field "gwid" gw))
         (field "location" gw)).

(** The gateway pushed by [findGateways] for an object with a [gwid]. *)
Definition gateway_of_found (gw : value) : Gateway :=
  mkGateway (field "gwid" gw)
    (or_else (or_else (field "description" gw) (field "name" gw))
       (field "gwid" gw))
    (field "location" gw).

(** ['gwid' in obj && typeof obj.gwid === 'string'] *)
Definition exposes_gwid (obj : value) : bool :=
  has_key "gwid" obj && is_string (field "gwid" obj).

(** [findGateways]: the gateways pushed while [obj] is walked, in the
    order of the pushes.  [Object.entries] of an array lists its
    elements, that of an object its entries. *)
Fixpoint findGateways (obj : value) : list Gateway :=
  match obj with
  | VArr items => flat_map findGateways items
  | VObj entries =>
      (if exposes_gwid obj then [gateway_of_found obj] else [])
        ++ flat_map (fun kv => findGateways (snd kv)) entries
  | _ => []
  end.

(** [xs.map(f)] for an [f] that can throw. *)
Fixpoint map_M {A B} (f : A -> M B) (xs : list A) : M (list B) :=
  match xs with
  | [] => ret []
  | x :: xs' =>
      y <- f x;;
      ys <- map_M f xs';;
      ret (y :: ys)
  end.

(** [getGateways(session)].  [Object_keys data] is the logging of the
    keys; [data.gateways && Array.isArray(data.gateways)] asks whether
    [data.gateways] is an array. *)
Definition getGateways (s : Session) : M (list Gateway) :=
  response <- fetch (ReqLocations s);;
  if negb (ok response) then
    text response;;;
    if (status response =? 401) || (status response =? 403) then
      throw (AuthError "Session expired")
    else
      throw (Error ("Failed to get location data: "
                    ++ Z_to_string (status response)))
  else
    tp <- text response;;
    match snd tp with
    | None =>
        throw (Error ("Failed to parse location data as JSON: "
                      ++ substring 0 200 (fst tp)))
    | Some data =>
        Object_keys data;;;
        listed <- read "gateways" data;;
        match listed with
        | VArr items => map_M gateway_of_listed items
        | _ =>
            let gateways := findGateways data in
            if (0 <? List.length gateways)%nat then ret gateways
            else
              throw (Error ("No gateways found in location data. Keys: "
                            ++ join ", " (keys data)))
        end
    end.

(** [colIndex.get(colName)] after [columns.forEach((col, i) =>
    colIndex.set(col, i))]: the last position that holds the string
    [colName]. *)
Fixpoint colIndex_from (i : nat) (columns : list value) (colName : string)
  : option nat :=
  match columns with
  | [] => None
  | col :: rest =>
      match colIndex_from (S i) rest colName with
      | Some j => Some j
      | None =>
          match col with
          | VStr s => if String.eqb s colName then Some i else None
          | _ => None
          end
      end
  end.

Definition colIndex (columns : list value) (colName : string) : option nat :=
  colIndex_from 0 columns colName.

Definition getVal (columns : list value) (row : value) (colName : string)
  : value :=
  match colIndex columns colName with
  | Some idx => coalesce (at_index row idx) (VNum 0)
  | None => VNum 0
  end.

(** The body of the [index.map] callback. *)
Definition reading_at (columns rows : list value) (ts : value) (i : nat)
  : EnergyReading :=
  let row := or_else (nth i rows VUndef) (VArr []) in
  let g := getVal columns row in
  mkReading ts
    (g "total_heat_1") (g "total_heat_2") (g "total_cool_1") (g "total_cool_2")
    (g "total_electric_heat") (g "total_fan_only") (g "total_loop_pump")
    (g "total_dehumidification")
    (g "runtime_heat_1") (g "runtime_heat_2") (g "runtime_cool_1")
    (g "runtime_cool_2") (g "runtime_electric_heat") (g "runtime_fan_only")
    (g "runtime_dehumidification") (g "total_power").

(** [xs.map((x, i) => f x i)], counting from [i]. *)
Fixpoint mapi_from {A B} (i : nat) (f : A -> nat -> B) (xs : list A) : list B :=
  match xs with
  | [] => []
  | x :: xs' => f x i :: mapi_from (S i) f xs'
  end.

(** [parseEnergyResponse(data)].  The destructuring reads the three
    fields, and throws on [null].  An array is truthy, so each guard
    [!x || !Array.isArray(x)] asks whether [x] is not an array. *)
Definition parseEnergyResponse (data : value) : M (list EnergyReading) :=
  columns <- read "columns" data;;
  index <- read "index" data;;
  rows <- read "data" data;;
  match columns with
  | VArr cols =>
      match index with
      | VArr idx =>
          match rows with
          | VArr rws => ret (mapi_from 0 (reading_at cols rws) idx)
          | _ => ret []
          end
      | _ => ret []
      end
  | _ => ret []
  end.

(** [getEnergyData(session, gwid, startDate, endDate, freq, timezone)];
    [Object_keys data] is the logging of the keys. *)
Definition getEnergyData (s : Session) (gw : value)
    (startDate endDate freq timezone : string) : M (list EnergyReading) :=
  response <- fetch (ReqEnergy s gw startDate endDate freq timezone);;
  if negb (ok response) then
    text response;;;
    if (status response =? 401) || (status response =? 403) then
      throw (AuthError "Session expired")
    else
      throw (Error ("Failed to get energy data: "
                    ++ Z_to_string (status response)))
  else
    tp <- text response;;
    match snd tp with
    | None =>
        throw (Error ("Failed to parse energy data as JSON: "
                      ++ substring 0 200 (fst tp)))
    | Some data =>
        Object_keys data;;;
        parseEnergyResponse data
    end.

(** ** db.ts *)

(** [getTimezoneOffsetMs(timezone, dateStr)]: the offset is read off
    the text that [Intl] prints for noon of the date, and is 0 when
    that text has no [GMT+hh:mm].  (cron.ts imports this function from
    db.ts.) *)
Definition getTimezoneOffsetMs (timezone dateStr : string) : M Z :=
  match format_offset env timezone dateStr with
  | None => throw (Error ("Invalid time zone specified: " ++ timezone))
  | Some formatted =>
      match Pattern.match_gmt_offset formatted with
      | None => ret 0
      | Some (sg, hours, minutes) =>
          let sign := if Ascii.eqb sg "+" then 1 else -1 in
          ret (sign * (hours * 3600000 + minutes * 60000))
      end
  end.

(** Whether a stored row has the key [(gw, ts)] of the constraint
    [UNIQUE(gateway_id, timestamp)].  Bound values are compared as
    they are: the conversions of SQLite's column affinities are not
    modelled. *)
Definition same_key (gw ts : value) (row : StoredRow) : bool :=
  value_eqb (gateway_id row) gw && value_eqb (timestamp (stored row)) ts.

(** [INSERT OR IGNORE INTO energy_readings (...) VALUES (...)] for one
    bound statement: the new table and [meta.changes].  A row that
    breaks [NOT NULL] or [UNIQUE] is skipped.  (That D1 refuses to
    bind some values, [undefined] among them, is one of the failures
    of [d1_failure].) *)
Definition insert_or_ignore (gw : value) (r : EnergyReading)
    (table : list StoredRow) : list StoredRow * Z :=
  if nullish gw || nullish (timestamp r) then (table, 0)
  else if existsb (same_key gw (timestamp r)) table then (table, 0)
  else ((table ++ [mkRow gw r])%list, 1).

(** [db.batch(statements)]: the statements in order, each with its
    [meta.changes]. *)
Fixpoint run_batch (gw : value) (readings : list EnergyReading)
    (table : list StoredRow) : list StoredRow * list Z :=
  match readings with
  | [] => (table, [])
  | r :: rest =>
      let '(table1, c) := insert_or_ignore gw r table in
      let '(table2, cs) := run_batch gw rest table1 in
      (table2, c :: cs)
  end.

Definition batch (gw : value) (readings : list EnergyReading) : M (list Z) :=
  d1_round_trip;;;
  fun w =>
    let '(table, changes) := run_batch gw readings (energy_readings w) in
    (Return changes,
     mkWorld (fetches w) (statements w) (ticks w) (session_row w)
       table (sent w)).

(** The result of [insertEnergyReadings]. *)
Record InsertResult : Type := mkInsertResult {
  inserted : Z;
  skipped : Z
}.

(** [for (const result of results) if (result.meta.changes > 0)
    inserted++] *)
Definition count_inserted (changes : list Z) : Z :=
  fold_left (fun acc c => if c >? 0 then acc + 1 else acc) changes 0.

(** [insertEnergyReadings(db, gatewayId, readings)]: the function has
    these three parameters and one statement, [INSERT OR IGNORE]. *)
Definition insertEnergyReadings (gatewayId : value)
    (readings : list EnergyReading) : M InsertResult :=
  match readings with
  | [] => ret (mkInsertResult 0 0)
  | _ =>
      results <- batch gatewayId readings;;
      let n := count_inserted results in
      ret (mkInsertResult n (Z.of_nat (List.length readings) - n))
  end.

(** A call that passes one argument more than the callee has
    parameters: JavaScript evaluates the extra argument and drops it. *)
Definition call_with_extra {A B} (callee : A) (extra : B) : A := callee.

(** ** cron.ts

    The jobs as they are in the later of the two versions of the
    file: [runDailyFetch] splits the readings at midnight of the end
    date, and [backfillData] takes an [override] flag. *)

Record GatewayResult : Type := mkGatewayResult {
  gr_gwid : value;
  gr_inserted : Z;
  gr_skipped : Z;
  gr_error : option string
}.

Record CronResult : Type := mkCronResult {
  success : bool;
  gateways : list GatewayResult;
  error : option string;
  loginRefreshed : bool
}.

(** A job runs on the world together with its local [result] object,
    which it updates in place. *)
Definition Job (A : Type) : Type := ST (CronResult * World) A.

Definition lift {A} (m : M A) : Job A :=
  fun rw =>
    match m (snd rw) with
    | (o, w') => (o, (fst rw, w'))
    end.

Definition update (f : CronResult -> CronResult) : Job unit :=
  fun rw => (Return tt, (f (fst rw), snd rw)).

Definition set_loginRefreshed (b : bool) (r : CronResult) : CronResult :=
  mkCronResult (success r) (gateways r) (error r) b.
Definition set_success (b : bool) (r : CronResult) : CronResult :=
  mkCronResult b (gateways r) (error r) (loginRefreshed r).
Definition set_error (msg : string) (r : CronResult) : CronResult :=
  mkCronResult (success r) (gateways r) (Some msg) (loginRefreshed r).
(** [result.gateways.push(gwResult)] *)
Definition push_gateway (g : GatewayResult) (r : CronResult) : CronResult :=
  mkCronResult (success r) (gateways r ++ [g])%list (error r) (loginRefreshed r).

(** [{success: true, gateways: [], loginRefreshed: false}] *)
Definition initial_result : CronResult := mkCronResult true [] None false.

(** [const result = {success: true, gateways: [], loginRefreshed:
    false}; try { body } catch (error) { ... } return result] *)
Definition run_job (body : Job unit) : M CronResult :=
  fun w =>
    let job :=
      try_catch body
        (fun e => update (set_success false);;; update (set_error (message e)));;;
      (fun rw => (Return (fst rw), rw)) in
    match job (initial_result, w) with
    | (o, rw) => (o, snd rw)
    end.

(** [for (const x of xs) { f x }] *)
Fixpoint for_each {A} (f : A -> Job unit) (xs : list A) : Job unit :=
  match xs with
  | [] => ret tt
  | x :: xs' => f x;;; for_each f xs'
  end.

(** [getYesterdayDateRange(timezone)]: [(start, end)] *)
Definition getYesterdayDateRange (timezone : string) : M (string * string) :=
  now <- Date_now;;
  match format_date env timezone now,
        format_date env timezone (now - 24 * 60 * 60 * 1000) with
  | Some today, Some yesterday => ret (yesterday, today)
  | _, _ => throw (Error ("Invalid time zone specified: " ++ timezone))
  end.

(** [ToNumber], [None] standing for [NaN]. *)
Definition to_number (v : value) : option Z :=
  match v with
  | VUndef => None
  | VNull => Some 0
  | VBool b => Some (if b then 1 else 0)
  | VNum n => Some n
  | _ => to_number_other env v
  end.

(** [v < bound] and [v >= bound] for a number [bound]; a comparison
    with [NaN] is false. *)
Definition js_lt (v : value) (bound : option Z) : bool :=
  match to_number v, bound with
  | Some a, Some b => a <? b
  | _, _ => false
  end.
Definition js_ge (v : value) (bound : option Z) : bool :=
  match to_number v, bound with
  | Some a, Some b => a >=? b
  | _, _ => false
  end.

(** Listing the gateways, with the re-login on an [AuthError]; the
    session in use afterwards is returned with the gateways. *)
Definition list_gateways_with_relogin (email password : string)
    (s : Session) : Job (Session * list Gateway) :=
  try_catch
    (gws <- lift (getGateways s);; ret (s, gws))
    (fun e =>
       if is_auth e then
         s' <- lift (login email password);;
         lift (storeSession s');;;
         update (set_loginRefreshed true);;;
         gws <- lift (getGateways s');;
         ret (s', gws)
       else throw e).

(** The start of both jobs: a valid session, then the gateways. *)
Definition acquire_gateways (email password : string)
  : Job (Session * list Gateway) :=
  authResult <- lift (getValidSession email password);;
  update (set_loginRefreshed (fresh authResult));;;
  list_gateways_with_relogin email password (session authResult).

(** [getTimezoneOffsetMs] as cron.ts has it.  The file imports the
    name from db.ts, which declares the function without [export]:
    the imported binding is [undefined], and calling it throws a
    [TypeError]. *)
Definition imported_getTimezoneOffsetMs (timezone dateStr : string) : M Z :=
  throw (Error (not_a_function env "getTimezoneOffsetMs")).

(** The [try] block of the loop of [runDailyFetch], for one gateway:
    it ends with the counts written to [gwResult]. *)
Definition daily_gateway_try (s : Session) (startDate endDate timezone : string)
    (gateway : Gateway) : Job GatewayResult :=
  readings <- lift (getEnergyData s (gwid gateway) startDate endDate
                      "15min" timezone);;
  if (0 <? List.length readings)%nat then
    offsetMs <- lift (imported_getTimezoneOffsetMs timezone endDate);;
    let midnightToday :=
      option_map (fun t => t - offsetMs) (utc_midnight env endDate) in
    let yesterdayReadings :=
      filter (fun r => js_lt (timestamp r) midnightToday) readings in
    let todayReadings :=
      filter (fun r => js_ge (timestamp r) midnightToday) readings in
    yesterdayResult <-
      lift (call_with_extra
              (insertEnergyReadings (gwid gateway) yesterdayReadings) false);;
    todayResult <-
      lift (call_with_extra
              (insertEnergyReadings (gwid gateway) todayReadings) true);;
    ret (mkGatewayResult (gwid gateway)
           (inserted yesterdayResult + inserted todayResult)
           (skipped yesterdayResult + skipped todayResult) None)
  else ret (mkGatewayResult (gwid gateway) 0 0 None).

(** The [catch] block of the loops of both jobs. *)
Definition gateway_failed (gateway : Gateway) (e : Err) : Job GatewayResult :=
  update (set_success false);;;
  ret (mkGatewayResult (gwid gateway) 0 0 (Some (message e))).

(** The body of the loop of [runDailyFetch] for one gateway. *)
Definition daily_gateway (s : Session) (startDate endDate timezone : string)
    (gateway : Gateway) : Job unit :=
  gwResult <-
    try_catch (daily_gateway_try s startDate endDate timezone gateway)
      (gateway_failed gateway);;
  update (push_gateway gwResult).

Definition runDailyFetch (email password timezone : string) : M CronResult :=
  run_job
    (sg <- acquire_gateways email password;;
     match snd sg with
     | [] =>
         update (set_error "No gateways found");;;
         update (set_success false)
     | _ =>
         range <- lift (getYesterdayDateRange timezone);;
         for_each (daily_gateway (fst sg) (fst range) (snd range) timezone)
           (snd sg)
     end).

(** The [try] block of the loop of [backfillData], for one gateway. *)
Definition backfill_gateway_try (s : Session)
    (startDate endDate timezone : string) (override : bool)
    (gateway : Gateway) : Job GatewayResult :=
  readings <- lift (getEnergyData s (gwid gateway) startDate endDate
                      "15min" timezone);;
  if (0 <? List.length readings)%nat then
    insertResult <-
      lift (call_with_extra
              (insertEnergyReadings (gwid gateway) readings) override);;
    ret (mkGatewayResult (gwid gateway)
           (inserted insertResult) (skipped insertResult) None)
  else ret (mkGatewayResult (gwid gateway) 0 0 None).

(** The body of the loop of [backfillData] for one gateway. *)
Definition backfill_gateway (s : Session) (startDate endDate timezone : string)
    (override : bool) (gateway : Gateway) : Job unit :=
  gwResult <-
    try_catch (backfill_gateway_try s startDate endDate timezone override gateway)
      (gateway_failed gateway);;
  update (push_gateway gwResult).

Definition backfillData (email password startDate endDate timezone : string)
    (override : bool) : M CronResult :=
  run_job
    (sg <- acquire_gateways email password;;
     match snd sg with
     | [] =>
         update (set_error "No gateways found");;;
         update (set_success false)
     | _ =>
         for_each (backfill_gateway (fst sg) startDate endDate timezone override)
           (snd sg)
     end).

End Program.

(** ** index.ts: the HTTP surface of the worker *)

Module Worker.

(** What the router reads of a request: the method, and the path and
    query of [new URL(request.url)]. *)
Record HttpRequest : Type := mkRequest {
  method : string;
  pathname : string;
  searchParams : list (string * string)
}.

(** [interface Env], but for the database: a secret or variable that
    is not set is [None]. *)
Record Bindings : Type := mkBindings {
  GEOSTAR_EMAIL : option string;
  GEOSTAR_PASSWORD : option string;
  TIMEZONE : option string
}.

(** The object that [jsonResponse] serializes. *)
Inductive Payload : Type :=
| NoBody
| ErrorPayload (msg : string)
| DataPayload (data : list value)
| DataCountPayload (data : list value) (count : nat)
| GatewaysPayload (ids : list string)
| JobPayload (result : CronResult)
| StatusPage.

Record HttpResponse : Type := mkHttpResponse {
  code : Z;
  headers : list (string * string);
  payload : Payload
}.

Definition corsHeaders : list (string * string) :=
  [("Access-Control-Allow-Origin", "*");
   ("Access-Control-Allow-Methods", "GET, POST, OPTIONS");
   ("Access-Control-Allow-Headers", "Content-Type")].

Definition jsonResponse (data : Payload) (status : Z) : HttpResponse :=
  mkHttpResponse status (("Content-Type", "application/json") :: corsHeaders)
    data.

Definition errorResponse (msg : string) (status : Z) : HttpResponse :=
  jsonResponse (ErrorPayload msg) status.

(** [params.get(name)]: the first value of that name, or [null]. *)
Fixpoint get (name : string) (params : list (string * string))
  : option string :=
  match params with
  | [] => None
  | (k, v) :: rest => if String.eqb k name then Some v else get name rest
  end.

(** A string that is set and not empty: [present x] is [None] exactly
    when [!x] holds. *)
Definition present (x : option string) : option string :=
  match x with
  | None => None
  | Some s => if String.eqb s "" then None else Some s
  end.

(** [x || d] *)
Definition or_default (x : option string) (d : string) : string :=
  match present x with
  | None => d
  | Some s => s
  end.

Section Router.

Variable env : Env.

(** The queries of db.ts, with the parameters they are called with
    (the last one is the time zone, which the router leaves to its
    default).  They are SQL aggregations over the table; here they are
    any computations. *)
Variable getDailyTotals : string -> string -> string -> M (list value).
Variable getHourlyTotals : string -> string -> M (list value).
Variable getRawReadings :
  string -> string -> option string -> string -> M (list value).
Variable getKnownGateways : M (list string).

(** The default of the [timezone] parameter in db.ts and cron.ts. *)
Definition default_timezone : string := "America/Los_Angeles".

Definition handleApiRoute (path : string) (params : list (string * string))
  : M HttpResponse :=
  if String.eqb path "/api/energy/daily" then
    match present (get "start" params), present (get "end" params) with
    | Some start, Some end_ =>
        try_catch
          (data <- getDailyTotals start end_ default_timezone;;
           ret (jsonResponse (DataPayload data) 200))
          (fun e => ret (errorResponse (message e) 500))
    | _, _ => ret (errorResponse "Missing start or end parameter" 400)
    end
  else if String.eqb path "/api/energy/hourly" then
    match present (get "date" params) with
    | Some date =>
        try_catch
          (data <- getHourlyTotals date default_timezone;;
           ret (jsonResponse (DataPayload data) 200))
          (fun e => ret (errorResponse (message e) 500))
    | None => ret (errorResponse "Missing date parameter" 400)
    end
  else if String.eqb path "/api/energy/raw" then
    let gateway := present (get "gateway" params) in
    match present (get "start" params), present (get "end" params) with
    | Some start, Some end_ =>
        try_catch
          (data <- getRawReadings start end_ gateway default_timezone;;
           ret (jsonResponse (DataCountPayload data (List.length data)) 200))
          (fun e => ret (errorResponse (message e) 500))
    | _, _ => ret (errorResponse "Missing start or end parameter" 400)
    end
  else if String.eqb path "/api/gateways" then
    try_catch
      (gateways <- getKnownGateways;;
       ret (jsonResponse (GatewaysPayload gateways) 200))
      (fun e => ret (errorResponse (message e) 500))
  else ret (errorResponse "API endpoint not found" 404).

Definition handleManualCron (b : Bindings) : M HttpResponse :=
  match present (GEOSTAR_EMAIL b), present (GEOSTAR_PASSWORD b) with
  | Some email, Some password =>
      try_catch
        (result <- runDailyFetch env email password
                     (or_default (TIMEZONE b) default_timezone);;
         ret (jsonResponse (JobPayload result) 200))
        (fun e => ret (errorResponse (message e) 500))
  | _, _ =>
      ret (errorResponse "Missing GEOSTAR_EMAIL or GEOSTAR_PASSWORD secrets"
             500)
  end.

(** [backfillData] is called with six arguments: [override] takes its
    default, [false]. *)
Definition handleBackfill (b : Bindings) (start end_ : string)
  : M HttpResponse :=
  match present (GEOSTAR_EMAIL b), present (GEOSTAR_PASSWORD b) with
  | Some email, Some password =>
      try_catch
        (result <- backfillData env email password start end_
                     (or_default (TIMEZONE b) default_timezone) false;;
         ret (jsonResponse (JobPayload result) 200))
        (fun e => ret (errorResponse (message e) 500))
  | _, _ =>
      ret (errorResponse "Missing GEOSTAR_EMAIL or GEOSTAR_PASSWORD secrets"
             500)
  end.

Definition handleRequest (request : HttpRequest) (b : Bindings)
  : M HttpResponse :=
  let path := pathname request in
  if String.eqb (method request) "OPTIONS" then
    ret (mkHttpResponse 200 corsHeaders NoBody)
  else if String.prefix "/api/" path then
    handleApiRoute path (searchParams request)
  else if String.eqb path "/__scheduled" || String.eqb path "/cron" then
    handleManualCron b
  else if String.eqb path "/backfill" then
    match present (get "start" (searchParams request)),
          present (get "end" (searchParams request)) with
    | Some start, Some end_ => handleBackfill b start end_
    | _, _ =>
        ret (errorResponse "Missing start or end parameter (YYYY-MM-DD)" 400)
    end
  else if String.eqb path "/" then ret (jsonResponse StatusPage 200)
  else ret (errorResponse "Not found" 404).

(** [handleScheduled]: the trigger of the daily job. *)
Definition handleScheduled (b : Bindings) : M unit :=
  match present (GEOSTAR_EMAIL b), present (GEOSTAR_PASSWORD b) with
  | Some email, Some password =>
      try_catch
        (runDailyFetch env email password
           (or_default (TIMEZONE b) default_timezone);;;
         ret tt)
        (fun _ => ret tt)
  | _, _ => ret tt
  end.

End Router.

End Worker.

(** ** Notions used to state the properties *)

(** The candidate names of the user key, in the order they are tried. *)
Definition user_key_fields : list string :=
  ["awlUserKey"; "awluserkey"; "auk"; "id"; "user_id"; "userId"].

(** The outcomes of the probe of [validateSession] that the
    specification lists as failures. *)
Inductive failed_probe : FetchOutcome -> Prop :=
| probe_network_failure : forall msg,
    failed_probe (NetworkFailure msg)
| probe_not_ok : forall r,
    ok r = false -> failed_probe (Responded r)
| probe_body_unreadable : forall r msg,
    body r = BodyError msg -> failed_probe (Responded r)
| probe_not_json : forall r t,
    body r = BodyText t None -> failed_probe (Responded r)
| probe_err_field : forall r t data,
    body r = BodyText t (Some data) ->
    truthy (field "err" data) = true ->
    failed_probe (Responded r)
| probe_no_user_key : forall r t data,
    body r = BodyText t (Some data) ->
    (forall k, In k user_key_fields -> has_key k data = false) ->
    failed_probe (Responded r).

(** The sixteen metric fields of a reading, by column name. *)
Definition metric_fields : list (string * (EnergyReading -> value)) :=
  [("total_heat_1", total_heat_1); ("total_heat_2", total_heat_2);
   ("total_cool_1", total_cool_1); ("total_cool_2", total_cool_2);
   ("total_electric_heat", total_electric_heat);
   ("total_fan_only", total_fan_only);
   ("total_loop_pump", total_loop_pump);
   ("total_dehumidification", total_dehumidification);
   ("runtime_heat_1", runtime_heat_1); ("runtime_heat_2", runtime_heat_2);
   ("runtime_cool_1", runtime_cool_1); ("runtime_cool_2", runtime_cool_2);
   ("runtime_electric_heat", runtime_electric_heat);
   ("runtime_fan_only", runtime_fan_only);
   ("runtime_dehumidification", runtime_dehumidification);
   ("total_power", total_power)].

(** A reading all of whose metric fields are the number 0. *)
Definition all_zero (r : EnergyReading) : Prop :=
  forall nm proj, In (nm, proj) metric_fields -> proj r = VNum 0.

(** [v] occurs in [d], at any depth. *)
Inductive nested_in (v : value) : value -> Prop :=
| nested_here : nested_in v v
| nested_item : forall items x,
    In x items -> nested_in v x -> nested_in v (VArr items)
| nested_entry : forall entries k x,
    In (k, x) entries -> nested_in v x -> nested_in v (VObj entries).

(** An object with a string-valued [gwid] field. *)
Definition gwid_object (v : value) : Prop :=
  exists entries g, v = VObj entries /\ assoc "gwid" entries = Some (VStr g).

(** The values that occur in [d], parents before children, in the
    order of the entries. *)
Fixpoint subvalues (d : value) : list value :=
  d :: match d with
       | VArr items => flat_map subvalues items
       | VObj entries => flat_map (fun kv => subvalues (snd kv)) entries
       | _ => []
       end.

Definition is_login (r : Request) : bool :=
  match r with ReqLogin _ _ => true | _ => false end.
Definition is_listing (r : Request) : bool :=
  match r with ReqLocations _ => true | _ => false end.
Definition is_energy (r : Request) : bool :=
  match r with ReqEnergy _ _ _ _ _ _ => true | _ => false end.

(** How many of the requests sent between [w] and [w'] satisfy [p]. *)
Definition count_sent (p : Request -> bool) (l : list Request) : nat :=
  List.length (filter p l).

(** [m] relates every state it starts from to the state it ends in,
    whether it returns or throws. *)
Definition preserves {S A} (R : S -> S -> Prop) (m : ST S A) : Prop :=
  forall w, R w (snd (m w)).

(** A relation on worlds, for jobs. *)
Definition on_world (R : World -> World -> Prop)
    (rw rw' : CronResult * World) : Prop :=
  R (snd rw) (snd rw').

(** Both tables are as they were. *)
Definition same_store (w w' : World) : Prop :=
  session_row w' = session_row w /\ energy_readings w' = energy_readings w.

(** [c] has a match of [/sessionid=([^;]+)/]: the text [sessionid=]
    followed by a character other than a semicolon. *)
Definition has_sessionid_pattern (c : string) : Prop :=
  exists pre c0 rest,
    c = pre ++ "sessionid=" ++ String c0 rest /\ c0 <> ";"%char.

(** The messages of the failures of [login] and of [getUserKey]. *)
Definition not_redirect_message (code : Z) : string :=
  "Login failed: expected 302, got " ++ Z_to_string code.
Definition no_cookie_message : string :=
  "Login failed: no Set-Cookie header".
Definition no_sessionid_message (header : string) : string :=
  "Login failed: no sessionid in Set-Cookie. Header was: " ++ header.
Definition user_info_message (code : Z) : string :=
  "Failed to get user info: " ++ Z_to_string code.
Definition user_parse_message (body_text : string) : string :=
  "Failed to parse user API response as JSON: " ++ substring 0 200 body_text.
Definition user_key_message (data : value) : string :=
  "Failed to get user key from user data. Available fields: "
  ++ join ", " (keys data).

(** [j] is the last position of [columns] that holds the name [nm]. *)
Definition last_position (columns : list value) (nm : string) (j : nat)
  : Prop :=
  nth_error columns j = Some (VStr nm)
  /\ forall k, (j < k)%nat -> nth_error columns k <> Some (VStr nm).

(** The row that [parseEnergyResponse] reads for the [i]-th entry of
    [index]: [rows[i] || []]. *)
Definition row_for (rows : list value) (i : nat) : value :=
  or_else (nth i rows VUndef) (VArr []).

(** The three top-level fields of an energy response are arrays. *)
Definition well_shaped (data : value) : bool :=
  is_array (field "columns" data) && is_array (field "index" data)
  && is_array (field "data" data).

(** The readings [parseEnergyResponse] makes of a value that is not
    [null]. *)
Definition parsed_readings (data : value) : list EnergyReading :=
  match field "columns" data, field "index" data, field "data" data with
  | VArr cols, VArr idx, VArr rws => mapi_from 0 (reading_at cols rws) idx
  | _, _, _ => []
  end.

(** The job's [result] is as it was. *)
Definition same_result (rw rw' : CronResult * World) : Prop :=
  fst rw' = fst rw.

(** The job's [result] is as it was, but for [loginRefreshed]. *)
Definition same_slots (rw rw' : CronResult * World) : Prop :=
  success (fst rw') = success (fst rw)
  /\ gateways (fst rw') = gateways (fst rw)
  /\ error (fst rw') = error (fst rw).

(** A result slot without an error. *)
Definition no_error (g : GatewayResult) : bool :=
  match gr_error g with None => true | Some _ => false end.

(** What [run_job] returns for a body that ended in [o] with the
    result [r]. *)
Definition job_result (o : Outcome unit) (r : CronResult) : CronResult :=
  match o with
  | Return _ => r
  | Throw e => set_error (message e) (set_success false r)
  end.

(** A request that is neither a login, nor a listing, nor a fetch of
    readings: a request for the user record. *)
Definition is_user (r : Request) : bool :=
  match r with ReqUser _ _ => true | _ => false end.

(** Between [w] and [w'] only requests for the user record were sent. *)
Definition quiet (w w' : World) : Prop :=
  exists extra,
    sent w' = (extra ++ sent w)%list /\ forallb is_user extra = true.

(** Between [w] and [w'] the request [req] was sent, and after it only
    requests for the user record. *)
Definition sent_one (req : Request) (w w' : World) : Prop :=
  exists extra,
    sent w' = (extra ++ req :: sent w)%list /\ forallb is_user extra = true.

(** Between two states of a job no login and no listing was sent and
    [loginRefreshed] was not touched. *)
Definition steady (rw rw' : CronResult * World) : Prop :=
  count_sent is_login (sent (snd rw')) = count_sent is_login (sent (snd rw))
  /\ count_sent is_listing (sent (snd rw'))
     = count_sent is_listing (sent (snd rw))
  /\ loginRefreshed (fst rw') = loginRefreshed (fst rw).

(** The request for the readings of a gateway in a daily fetch. *)
Definition energy_request (s : Session) (sd ed tz : string) (g : Gateway)
  : Request :=
  ReqEnergy s (gwid g) sd ed "15min" tz.

(** Every row of [energy_readings] in [w] is still there in [w'],
    unchanged and at its place; rows may have been added after them. *)
Definition grows (w w' : World) : Prop :=
  exists added, energy_readings w' = (energy_readings w ++ added)%list.

(** The key of a stored row under [UNIQUE(gateway_id, timestamp)]. *)
Definition row_key (row : StoredRow) : value * value :=
  (gateway_id row, timestamp (stored row)).

(** [INSERT OR IGNORE] would skip the reading [r] of gateway [gw]:
    its key is [NULL] in part, or it is the key of a stored row. *)
Definition would_skip (gw : value) (table : list StoredRow)
    (r : EnergyReading) : bool :=
  nullish gw || nullish (timestamp r)
  || existsb (same_key gw (timestamp r)) table.

(** [m] never throws an [AuthError]. *)
Definition no_auth_error {A} (m : M A) : Prop :=
  forall w e w', m w = (Throw e, w') -> is_auth e = false.

(** The gateway that [getGateways] makes of an element of the
    [gateways] array that is not [null]. *)
Definition listed_gateway (gw : value) : Gateway :=
  mkGateway (field "gwid" gw)
    (or_else (field "description" gw) (field "gwid" gw))
    (field "location" gw).

(** The clock was not read between [w] and [w']. *)
Definition same_ticks (w w' : World) : Prop := ticks w' = ticks w.

(** The character of the decimal digit [n]. *)
Definition digit_char (n : nat) : ascii := ascii_of_nat (48 + n).

(** The letter G does not occur in [s]. *)
Fixpoint no_G (s : string) : bool :=
  match s with
  | EmptyString => true
  | String c s' => negb (Ascii.eqb c "G") && no_G s'
  end.

(** The text [GMT+hh:mm] or [GMT-hh:mm], for the sign character [sg]
    and the digits [a b : c d]. *)
Definition gmt_text (sg : ascii) (a b c d : nat) : string :=
  "GMT" ++ String sg (String (digit_char a) (String (digit_char b)
    (String ":" (String (digit_char c) (String (digit_char d) ""))))).

(** The table [energy_readings] is in [w'] what it was in [w]. *)
Definition same_table (w w' : World) : Prop :=
  energy_readings w' = energy_readings w.

(** The slot that the loop of [runDailyFetch] pushes for a gateway,
    by the outcome of the request for its readings: the error of a
    request that failed, no error and no counts after an empty answer,
    and the [TypeError] of the call of [getTimezoneOffsetMs] as soon
    as there is a reading. *)
Definition daily_slot (env : Env) (g : Gateway)
    (o : Outcome (list EnergyReading)) : GatewayResult :=
  match o with
  | Throw e => mkGatewayResult (gwid g) 0 0 (Some (message e))
  | Return [] => mkGatewayResult (gwid g) 0 0 None
  | Return (_ :: _) =>
      mkGatewayResult (gwid g) 0 0
        (Some (not_a_function env "getTimezoneOffsetMs"))
  end.

(** The slots of the gateways in turn, each made of the outcome of
    its own request and of nothing else, with the world after the
    last request. *)
Fixpoint daily_slots (env : Env) (s : Session) (sd ed tz : string)
    (gws : list Gateway) (w : World) : list GatewayResult * World :=
  match gws with
  | [] => ([], w)
  | g :: rest =>
      let ow := getEnergyData env s (gwid g) sd ed "15min" tz w in
      let sw := daily_slots env s sd ed tz rest (snd ow) in
      (daily_slot env g (fst ow) :: fst sw, snd sw)
  end.

(** ** Sample data *)

Module Sample.

Definition dquote : string := String (ascii_of_nat 34) EmptyString.

(** The JSON text of a value whose strings need no escaping. *)
Fixpoint stringify (v : value) : string :=
  match v with
  | VUndef | VNull => "null"
  | VBool true => "true"
  | VBool false => "false"
  | VNum n => Z_to_string n
  | VStr s => dquote ++ s ++ dquote
  | VArr items =>
      "[" ++ String.concat ","
               ((fix go (l : list value) : list string :=
                   match l with
                   | [] => []
                   | x :: l' => stringify x :: go l'
                   end) items) ++ "]"
  | VObj entries =>
      "{" ++ String.concat ","
               ((fix go (l : list (string * value)) : list string :=
                   match l with
                   | [] => []
                   | (k, x) :: l' =>
                       (dquote ++ k ++ dquote ++ ":" ++ stringify x) :: go l'
                   end) entries) ++ "}"
  end.

Definition json_response (code : Z) (v : value) : FetchOutcome :=
  Responded (mkResponse code None (BodyText (stringify v) (Some v))).

Definition html_response (code : Z) (cookie : option string) : FetchOutcome :=
  Responded (mkResponse code cookie (BodyText "<html></html>" None)).

(** A vendor that gives the listed answers in order and is then
    unreachable. *)
Definition script (answers : list FetchOutcome) (n : nat) : FetchOutcome :=
  nth n answers (NetworkFailure "fetch failed").

(** 2025-01-02T20:00:00Z, which is noon of 2 January in Los Angeles. *)
Definition now : Z := 1735848000000.
(** 2025-01-02T00:00:00Z *)
Definition midnight_utc : Z := 1735776000000.
(** Midnight of 2 January 2025 in Los Angeles, as a UTC instant. *)
Definition midnight_today : Z := 1735804800000.

Definition env_of (answers : list FetchOutcome) : Env :=
  mkEnv (script answers)
    (fun _ => None)
    (fun _ => now)
    (fun _ t => Some (if t =? now then "2025-01-02" else "2025-01-01"))
    (fun _ _ => Some "02/01/2025, GMT-08:00")
    (fun d => if String.eqb d "2025-01-02" then Some midnight_utc else None)
    (fun _ => None)
    (fun _ => "1e+21")
    (fun f => f ++ " is not a function").

Definition empty_world : World := mkWorld 0 0 0 None [] [].

Definition login_redirect : FetchOutcome :=
  html_response 302 (Some "sessionid=abc123; Path=/; HttpOnly").
Definition user_info : FetchOutcome :=
  json_response 200 (VObj [("awlUserKey", VStr "u1")]).
Definition one_gateway : FetchOutcome :=
  json_response 200 (VObj [("gateways", VArr [VObj [("gwid", VStr "GW1")]])]).
Definition two_gateways : FetchOutcome :=
  json_response 200
    (VObj [("gateways", VArr [VObj [("gwid", VStr "A")];
                              VObj [("gwid", VStr "B")]])]).

(** A reading that only reports [total_power]. *)
Definition power_reading (ts power : Z) : EnergyReading :=
  mkReading (VNum ts) (VNum 0) (VNum 0) (VNum 0) (VNum 0) (VNum 0) (VNum 0)
    (VNum 0) (VNum 0) (VNum 0) (VNum 0) (VNum 0) (VNum 0) (VNum 0) (VNum 0)
    (VNum 0) (VNum power).

(** An energy response with one column, [total_power]. *)
Definition power_response (rows : list (Z * Z)) : FetchOutcome :=
  json_response 200
    (VObj [("columns", VArr [VStr "total_power"]);
           ("index", VArr (map (fun r => VNum (fst r)) rows));
           ("data", VArr (map (fun r => VArr [VNum (snd r)]) rows))]).

(** The store before the run: for gateway GW1, a settled row of
    yesterday evening and a row of today fetched earlier in the day. *)
Definition stale_world : World :=
  mkWorld 0 0 0 None
    [mkRow (VStr "GW1") (power_reading (midnight_today - 900000) 1);
     mkRow (VStr "GW1") (power_reading midnight_today 3)]
    [].

(** The run: login, user key, gateway GW1, and readings for the same
    two instants with other values. *)
Definition refetch_env : Env :=
  env_of [login_redirect; user_info; one_gateway;
          power_response [(midnight_today - 900000, 2); (midnight_today, 7)]].

Definition a_session : Session := mkSession "abc123" "u1" now.

(** An energy response whose only row is shorter than its columns. *)
Definition short_row_data : value :=
  VObj [("columns", VArr [VStr "total_heat_1"; VStr "total_heat_2"]);
        ("index", VArr [VNum 1000]);
        ("data", VArr [VArr [VNum 5]])].

(** An energy response with three index entries and no columns. *)
Definition no_columns_data : value :=
  VObj [("index", VArr [VNum 1000; VNum 2000; VNum 3000]);
        ("data", VArr [])].

(** An energy response with no [data] field. *)
Definition no_data_field : value :=
  VObj [("columns", VArr [VStr "total_power"]);
        ("index", VArr [VNum 1000])].

(** A listing without a [gateways] array: the gateway sits two levels
    down. *)
Definition nested_gateway : value :=
  VObj [("gwid", VStr "GW9"); ("description", VStr "Basement")].
Definition nested_listing : value :=
  VObj [("locations",
         VArr [VObj [("name", VStr "Home"); ("device", nested_gateway)]])].

(** A run with two gateways: the readings of A arrive, the fetch for
    B fails on the network. *)
Definition second_fails_env : Env :=
  env_of [login_redirect; user_info; two_gateways;
          power_response [(midnight_today - 900000, 2); (midnight_today, 7)]].

(** A run with two gateways: the vendor has no reading for A, the
    fetch for B fails on the network. *)
Definition first_empty_second_fails_env : Env :=
  env_of [login_redirect; user_info; two_gateways; power_response []].

(** A run in which the first listing is refused with 401, the forced
    login succeeds and the second listing gives one gateway. *)
Definition relogin_env : Env :=
  env_of [login_redirect; user_info; html_response 401 None;
          html_response 302 (Some "sessionid=def456; Path=/"); user_info;
          one_gateway; power_response [(midnight_today, 7)]].

(** Two readings for GW1: one for an instant that [stale_world]
    stores, one for the quarter of an hour after it. *)
Definition two_readings : list EnergyReading :=
  [power_reading midnight_today 7; power_reading (midnight_today + 900000) 9].

(** A listing whose [gateways] array is empty. *)
Definition no_gateways_env : Env :=
  env_of [login_redirect; user_info;
          json_response 200 (VObj [("gateways", VArr [])])].

(** A listing with a [gateways] array and, beside it, an object with a
    [gwid] that only the structural search would find. *)
Definition listed_and_nested : value :=
  VObj [("gateways",
         VArr [VObj [("gwid", VStr "GW1"); ("description", VStr "Heat pump")];
               VObj [("gwid", VStr "GW2")]]);
        ("extra", nested_gateway)].

(** The secrets and variables of a deployed worker. *)
Definition bindings : Worker.Bindings :=
  Worker.mkBindings (Some "me@example.com") (Some "pw") None.

(** A worker whose secrets are not set. *)
Definition no_secrets : Worker.Bindings :=
  Worker.mkBindings None None (Some "America/Los_Angeles").

(** Queries that find nothing. *)
Definition no_rows3 (a b c : string) : M (list value) := ret [].
Definition no_rows2 (a b : string) : M (list value) := ret [].
Definition no_rows4 (a b : string) (g : option string) (c : string)
  : M (list value) := ret [].
Definition no_ids : M (list string) := ret [].

(** A query that fails. *)
Definition failing_query (a b c : string) : M (list value) :=
  throw (Error "D1_ERROR: no such table: energy_readings").

End Sample.

(** * Properties *)

(** ** Session expiry *)


(** C4, as the code has it: a session is expired exactly when its age
    exceeds 12 hours.  At an age of 12 hours minus 1 ms and at an age
    of exactly 12 hours [isSessionExpired] answers false; the first age
    at which it answers true is 12 hours plus 1 ms. *)
Theorem isSessionExpired_strictly_after_12h (env : Env) (s : Session) (w : World) :
  expired_at (createdAt s + SESSION_MAX_AGE_MS - 1) s = false
  /\ expired_at (createdAt s + SESSION_MAX_AGE_MS) s = false
  /\ expired_at (createdAt s + SESSION_MAX_AGE_MS + 1) s = true
  /\ (forall now, expired_at now s = (now - createdAt s >? SESSION_MAX_AGE_MS))
  /\ fst (isSessionExpired env s w) = Return (expired_at (clock env (ticks w)) s).
Proof.
  unfold expired_at, SESSION_MAX_AGE_MS.
  repeat split; rewrite Z.gtb_ltb.
  - apply Z.ltb_ge. lia.
  - apply Z.ltb_ge. lia.
  - apply Z.ltb_lt. lia.
Qed.

(** C4 as stated fails: a session examined exactly 12 hours after it
    was created is not reported as expired. *)
Lemma isSessionExpired_at_12h_counterexample :
  let s := mkSession "abc123" "u1" (Sample.now - 12 * 60 * 60 * 1000) in
  let env := Sample.env_of [] in
  clock env (ticks Sample.empty_world) - createdAt s = 12 * 60 * 60 * 1000
  /\ fst (isSessionExpired env s Sample.empty_world) = Return false
  /\ fst (isSessionExpired env s Sample.empty_world) <> Return true.
Proof.
  repeat split. discriminate.
Qed.

(** ** Reading the user key *)

(** Evaluates the left-hand side of an equation between closed
    terms, then compares. *)
Ltac run_lhs :=
  match goal with
  | |- ?lhs = _ =>
      let v := eval vm_compute in lhs in
      replace lhs with v by (vm_compute; reflexivity)
  end;
  reflexivity.

Ltac unfold_monad :=
  unfold bind, ret, throw, try_catch, lift, update in *.

Lemma read_not_nullish (k : string) (v : value) (w : World) :
  nullish v = false -> read k v w = (Return (field k v), w).
Proof. intros H. unfold read. rewrite H. reflexivity. Qed.

Lemma read_nullish (k : string) (v : value) (w : World) :
  nullish v = true -> exists e, read k v w = (Throw e, w) /\ is_auth e = false.
Proof. intros H. unfold read. rewrite H. eexists. split; reflexivity. Qed.

Lemma field_without_key (k : string) (v : value) :
  has_key k v = false -> field k v = VUndef.
Proof.
  destruct v; try reflexivity.
  simpl. destruct (assoc k entries); [discriminate | reflexivity].
Qed.

(** On a value that is not [null] the chain of [||] is the first
    truthy candidate, or else the last one. *)
Lemma user_key_candidate_value (data : value) (w : World) :
  nullish data = false ->
  user_key_candidate data w =
    (Return (fold_left (fun acc k => or_else acc (field k data))
               (tl user_key_fields) (field "awlUserKey" data)), w).
Proof.
  intros H. unfold user_key_candidate, or_else. unfold_monad.
  rewrite (read_not_nullish _ _ _ H). simpl.
  repeat match goal with
         | |- context [if truthy ?x then _ else _] => destruct (truthy x) eqn:?
         | |- context [read ?k data ?w] => rewrite (read_not_nullish k data w H)
         end; try reflexivity; try congruence.
Qed.

Lemma user_key_candidate_absent (data : value) (w : World) :
  nullish data = false ->
  (forall k, In k user_key_fields -> has_key k data = false) ->
  user_key_candidate data w = (Return VUndef, w).
Proof.
  intros H Hk. rewrite (user_key_candidate_value _ _ H).
  assert (F : forall k, In k user_key_fields -> field k data = VUndef)
    by (intros k Hin; apply field_without_key, Hk, Hin).
  simpl. rewrite !F by (simpl; tauto). reflexivity.
Qed.


(** ** Session validation *)

Lemma validateSession_total (env : Env) (s : Session) (w : World) :
  exists b w', validateSession env s w = (Return b, w').
Proof.
  unfold validateSession, fetch, text. unfold_monad.
  destruct (net env (fetches w)) as [msg | r]; [eauto |].
  destruct (ok r); simpl; [| eauto].
  destruct (body r) as [msg | t [data |]]; simpl; [eauto | | eauto].
  destruct (nullish data) eqn:Hn.
  - destruct (read_nullish "err" data (mkWorld (S (fetches w)) (statements w)
      (ticks w) (session_row w) (energy_readings w)
      (ReqUser (sessionId s) (Some (userKey s)) :: sent w)) Hn) as [e [He _]].
    rewrite He. eauto.
  - rewrite (read_not_nullish _ _ _ Hn).
    match goal with |- context [if ?c then _ else _] => destruct c end;
      [eauto |].
    rewrite (user_key_candidate_value _ _ Hn).
    match goal with |- context [if ?c then _ else _] => destruct c end; eauto.
Qed.

(** C3: [validateSession] never throws, and it answers false when the
    probe fails on the network, gives a status that is not OK, a body
    that is not JSON, a JSON body with a non-empty [err], or a JSON
    body with none of the user-key fields; in particular on HTTP 200
    with the body [{err: "session expired"}]. *)
Theorem validateSession_false_without_throwing
    (env : Env) (s : Session) (w : World) :
  (exists b w', validateSession env s w = (Return b, w'))
  /\ (failed_probe (net env (fetches w)) ->
      exists w', validateSession env s w = (Return false, w'))
  /\ (forall t,
         net env (fetches w) =
           Responded (mkResponse 200 None
             (BodyText t (Some (VObj [("err", VStr "session expired")])))) ->
         exists w', validateSession env s w = (Return false, w')).
Proof.
  assert (P : failed_probe (net env (fetches w)) ->
              exists w', validateSession env s w = (Return false, w')).
  { intros H. unfold validateSession, fetch, text. unfold_monad.
    inversion H as [msg E | r Hok E | r msg Hb E | r t Hb E
                   | r t data Hb Herr E | r t data Hb Hk E]; clear H.
    - eauto.
    - rewrite Hok. simpl. eauto.
    - destruct (ok r); simpl; [| eauto]. rewrite Hb. simpl. eauto.
    - destruct (ok r); simpl; [| eauto]. rewrite Hb. simpl. eauto.
    - destruct (ok r); simpl; [| eauto]. rewrite Hb. simpl.
      assert (Hn : nullish data = false)
        by (destruct data; try reflexivity; discriminate).
      rewrite (read_not_nullish _ _ _ Hn). rewrite Herr.
      destruct (field "err" data) as [| | | | e | |]; try discriminate;
        simpl; eauto.
      simpl in Herr. destruct (String.eqb e ""); [discriminate | simpl; eauto].
    - destruct (ok r); simpl; [| eauto]. rewrite Hb. simpl.
      destruct (nullish data) eqn:Hn.
      + destruct (read_nullish "err" data (mkWorld (S (fetches w)) (statements w)
          (ticks w) (session_row w) (energy_readings w)
          (ReqUser (sessionId s) (Some (userKey s)) :: sent w)) Hn)
          as [e [He _]].
        rewrite He. eauto.
      + rewrite (read_not_nullish _ _ _ Hn).
        match goal with |- context [if ?c then _ else _] => destruct c end;
          [eauto |].
        rewrite (user_key_candidate_absent _ _ Hn Hk). simpl. eauto. }
  split; [apply validateSession_total |].
  split; [exact P |].
  intros t Hnet. apply P. rewrite Hnet.
  eapply probe_err_field; reflexivity.
Qed.

Lemma validateSession_false_without_throwing_witness :
  exists w',
    validateSession
      (Sample.env_of
         [Sample.json_response 200 (VObj [("err", VStr "session expired")])])
      (mkSession "abc123" "u1" 0) Sample.empty_world = (Return false, w').
Proof.
  apply (proj1 (proj2 (validateSession_false_without_throwing
    (Sample.env_of
       [Sample.json_response 200 (VObj [("err", VStr "session expired")])])
    (mkSession "abc123" "u1" 0) Sample.empty_world))).
  eapply probe_err_field; reflexivity.
Defined.

(** ** What a computation leaves unchanged *)

Section Preserves.
Context {S : Type} (R : S -> S -> Prop).
Hypothesis R_refl : forall w, R w w.
Hypothesis R_trans : forall a b c, R a b -> R b c -> R a c.

Lemma preserves_ret {A} (a : A) : preserves R (ret a).
Proof. intros w. apply R_refl. Qed.

Lemma preserves_throw {A} (e : Err) : preserves R (@throw S A e).
Proof. intros w. apply R_refl. Qed.

Lemma preserves_bind {A B} (m : ST S A) (k : A -> ST S B) :
  preserves R m -> (forall a, preserves R (k a)) -> preserves R (bind m k).
Proof.
  intros Hm Hk w. unfold bind. specialize (Hm w).
  destruct (m w) as [[a | e] w1]; simpl in *.
  - eapply R_trans; [exact Hm | apply Hk].
  - exact Hm.
Qed.

Lemma preserves_try_catch {A} (m : ST S A) (h : Err -> ST S A) :
  preserves R m -> (forall e, preserves R (h e)) ->
  preserves R (try_catch m h).
Proof.
  intros Hm Hh w. unfold try_catch. specialize (Hm w).
  destruct (m w) as [[a | e] w1]; simpl in *.
  - exact Hm.
  - eapply R_trans; [exact Hm | apply Hh].
Qed.
End Preserves.

Lemma preserves_lift (R : World -> World -> Prop) {A} (m : M A) :
  preserves R m -> preserves (on_world R) (lift m).
Proof.
  intros H [r w]. unfold lift, on_world. simpl. specialize (H w).
  destruct (m w). exact H.
Qed.

Lemma preserves_update (R : World -> World -> Prop) f :
  (forall w, R w w) -> preserves (on_world R) (update f).
Proof. intros H [r w]. apply H. Qed.

Lemma preserves_for_each (R : CronResult * World -> CronResult * World -> Prop)
    {A} (f : A -> Job unit) (xs : list A) :
  (forall w, R w w) -> (forall a b c, R a b -> R b c -> R a c) ->
  (forall x, preserves R (f x)) ->
  preserves R (for_each f xs).
Proof.
  intros Hr Ht Hf. induction xs as [| x xs IH]; simpl.
  - apply preserves_ret. exact Hr.
  - apply preserves_bind; [exact Ht | apply Hf | intros _; exact IH].
Qed.

Lemma same_store_refl w : same_store w w.
Proof. split; reflexivity. Qed.

Lemma same_store_trans a b c : same_store a b -> same_store b c -> same_store a c.
Proof. intros [H1 H2] [H3 H4]. split; congruence. Qed.

#[local] Hint Resolve same_store_refl same_store_trans : core.

(** Steps through a computation built from [bind], [try_catch],
    conditionals and matches, leaving the calls to named functions. *)
Ltac preserve_step R_refl R_trans :=
  first
    [ apply (preserves_ret _ R_refl)
    | apply (preserves_throw _ R_refl)
    | apply (preserves_bind _ R_trans); [| intros ?]
    | apply (preserves_try_catch _ R_trans); [| intros ?]
    | match goal with
      | |- preserves _ (if ?c then _ else _) => destruct c
      | |- preserves _ (match ?x with _ => _ end) => destruct x
      end ].

Ltac same_store_tac :=
  repeat first [ preserve_step same_store_refl same_store_trans
               | solve [auto with same_store] ].

Create HintDb same_store.

Lemma fetch_same_store env req : preserves same_store (fetch env req).
Proof.
  intros w. unfold fetch. destruct (net env (fetches w)); split; reflexivity.
Qed.

Lemma text_same_store r : preserves same_store (text r).
Proof. unfold text. same_store_tac. Qed.

Lemma Date_now_same_store env : preserves same_store (Date_now env).
Proof. intros w. split; reflexivity. Qed.

Lemma d1_round_trip_same_store env : preserves same_store (d1_round_trip env).
Proof.
  intros w. unfold d1_round_trip.
  destruct (d1_failure env (statements w)); split; reflexivity.
Qed.

Lemma read_same_store k v : preserves same_store (read k v).
Proof. unfold read. same_store_tac. Qed.

Lemma Object_keys_same_store v : preserves same_store (Object_keys v).
Proof. unfold Object_keys. same_store_tac. Qed.

#[local] Hint Resolve fetch_same_store text_same_store Date_now_same_store
  d1_round_trip_same_store read_same_store Object_keys_same_store : same_store.

Lemma user_key_candidate_same_store data :
  preserves same_store (user_key_candidate data).
Proof. unfold user_key_candidate. same_store_tac. Qed.
#[local] Hint Resolve user_key_candidate_same_store : same_store.

Lemma getUserKey_same_store env sid : preserves same_store (getUserKey env sid).
Proof. unfold getUserKey. same_store_tac. Qed.
#[local] Hint Resolve getUserKey_same_store : same_store.

Lemma login_same_store env email password :
  preserves same_store (login env email password).
Proof. unfold login. same_store_tac. Qed.
#[local] Hint Resolve login_same_store : same_store.

Lemma validateSession_same_store env s :
  preserves same_store (validateSession env s).
Proof. unfold validateSession. same_store_tac. Qed.
#[local] Hint Resolve validateSession_same_store : same_store.

Lemma getStoredSession_same_store env :
  preserves same_store (getStoredSession env).
Proof.
  unfold getStoredSession. same_store_tac. intros w. apply same_store_refl.
Qed.
#[local] Hint Resolve getStoredSession_same_store : same_store.

(** ** The session-id pattern *)

Lemma strip_prefix_Some (p s rest : string) :
  Pattern.strip_prefix p s = Some rest <-> s = p ++ rest.
Proof.
  revert s rest. induction p as [| a p IH]; intros s rest; simpl.
  - split; [intros [= ->] | intros ->]; reflexivity.
  - destruct s as [| b s]; [split; discriminate |].
    destruct (Ascii.eqb a b) eqn:E.
    + apply Ascii.eqb_eq in E. subst b. rewrite IH.
      split; [intros -> | intros [= ->]]; reflexivity.
    + split; [discriminate |]. intros [= -> _].
      rewrite Ascii.eqb_refl in E. discriminate.
Qed.

Lemma not_semicolon_empty (s : string) :
  Pattern.not_semicolon s = "" <->
  s = "" \/ exists rest, s = String ";" rest.
Proof.
  destruct s as [| c s]; simpl.
  - split; [left; reflexivity | reflexivity].
  - destruct (Ascii.eqb c ";") eqn:E.
    + apply Ascii.eqb_eq in E. subst c.
      split; [right; eexists; reflexivity | reflexivity].
    + split; [discriminate |].
      intros [H | [rest [= -> _]]]; [discriminate |].
      rewrite Ascii.eqb_refl in E. discriminate.
Qed.

Lemma match_sessionid_None (s : string) :
  Pattern.match_sessionid s = None <-> ~ has_sessionid_pattern s.
Proof.
  unfold has_sessionid_pattern. induction s as [| a s IH].
  - simpl. split; [| reflexivity].
    intros _ [pre [c0 [rest [H _]]]].
    destruct pre; discriminate.
  - cbn [Pattern.match_sessionid].
    destruct (Pattern.strip_prefix "sessionid=" (String a s)) as [tl |] eqn:Hp.
    + apply strip_prefix_Some in Hp.
      destruct (Pattern.not_semicolon tl) as [| x cap] eqn:Hc.
      * rewrite IH. apply not_semicolon_empty in Hc.
        split.
        -- intros Hno [pre [c0 [rest [H Hne]]]].
           destruct pre as [| b pre].
           ++ simpl in H. rewrite Hp in H. simpl in H.
              injection H as H.
              destruct Hc as [-> | [r' ->]]; [discriminate |].
              injection H as H _. congruence.
           ++ simpl in H. injection H as _ H.
              apply Hno. exists pre, c0, rest. split; assumption.
        -- intros Hno [pre [c0 [rest [H Hne]]]]. apply Hno.
           exists (String a pre), c0, rest. split; [| assumption].
           simpl. rewrite H. reflexivity.
      * split; [discriminate |]. intros Hno. exfalso. apply Hno.
        destruct tl as [| c0 rest]; [discriminate |].
        exists "", c0, rest. split; [exact Hp |].
        simpl in Hc. destruct (Ascii.eqb c0 ";") eqn:E; [discriminate |].
        intros ->. rewrite Ascii.eqb_refl in E. discriminate.
    + rewrite IH. split.
      * intros Hno [pre [c0 [rest [H Hne]]]].
        destruct pre as [| b pre].
        -- assert (Pattern.strip_prefix "sessionid=" (String a s)
                   = Some (String c0 rest)) as E
             by (apply strip_prefix_Some; exact H).
           rewrite E in Hp. discriminate.
        -- simpl in H. injection H as _ H.
           apply Hno. exists pre, c0, rest. split; assumption.
      * intros Hno [pre [c0 [rest [H Hne]]]]. apply Hno.
        exists (String a pre), c0, rest. split; [| assumption].
        simpl. rewrite H. reflexivity.
Qed.

(** ** Login *)

Lemma storeSession_throw_keeps_session env s w e w' :
  storeSession env s w = (Throw e, w') -> session_row w' = session_row w.
Proof.
  unfold storeSession, d1_round_trip. unfold_monad.
  destruct (d1_failure env (statements w)); intros [= _ <-]; reflexivity.
Qed.

Lemma fresh_login_throw_keeps_session env email password w e w' :
  fresh_login env email password w = (Throw e, w') ->
  session_row w' = session_row w.
Proof.
  unfold fresh_login. unfold_monad.
  pose proof (login_same_store env email password w) as [Hs _].
  destruct (login env email password w) as [[s | e1] w1]; simpl in Hs.
  - destruct (storeSession env s w1) as [[[] | e2] w2] eqn:Est.
    + discriminate.
    + intros [= _ <-].
      apply storeSession_throw_keeps_session in Est. congruence.
  - intros [= _ <-]. exact Hs.
Qed.

Lemma getValidSession_throw_keeps_session env email password w e w' :
  getValidSession env email password w = (Throw e, w') ->
  session_row w' = session_row w.
Proof.
  unfold getValidSession. unfold_monad.
  pose proof (getStoredSession_same_store env w) as [H0 _].
  destruct (getStoredSession env w) as [[[st |] | e0] w0]; simpl in H0.
  - unfold toISOString_check, isSessionExpired, Date_now. unfold_monad.
    destruct (Z.abs (createdAt st) <=? 8640000000000000);
      [| intros [= _ <-]; exact H0].
    destruct (negb (expired_at _ st)).
    + match goal with
      | |- context [validateSession env st ?w1] =>
          pose proof (validateSession_same_store env st w1) as [H1 _];
          destruct (validateSession env st w1) as [[[|] | e1] w2];
          simpl in H1
      end.
      * discriminate.
      * intros H. apply fresh_login_throw_keeps_session in H. congruence.
      * intros [= _ <-]. congruence.
    + intros H. apply fresh_login_throw_keeps_session in H.
      simpl in H. congruence.
  - intros H. apply fresh_login_throw_keeps_session in H. congruence.
  - intros [= _ <-]. exact H0.
Qed.

Lemma login_messages_distinct code header code' body_text data :
  NoDup [not_redirect_message code; no_cookie_message;
         no_sessionid_message header; user_info_message code';
         user_parse_message body_text; user_key_message data].
Proof.
  unfold not_redirect_message, no_cookie_message, no_sessionid_message,
    user_info_message, user_parse_message, user_key_message.
  repeat constructor; simpl; intuition discriminate.
Qed.

(** C7: [login] throws when the credential POST is not answered by a
    302, when the answer has no [Set-Cookie] header, when the header
    has no session-id pattern, and when the user key cannot be
    resolved; each cause has its own message; and a failed login
    leaves the stored session as it was, in [login] itself and in
    [getValidSession], which stores a session only after [login]
    returned. *)
Theorem login_failure_is_reported_and_nothing_stored
    (env : Env) (email password : string) (w : World) (r : Response) :
  net env (fetches w) = Responded r ->
  let w1 := snd (fetch env (ReqLogin email password) w) in
  (status r <> 302 ->
   exists e w',
     login env email password w = (Throw e, w')
     /\ (forall t p, body r = BodyText t p ->
                     e = Error (not_redirect_message (status r))))
  /\ (status r = 302 -> set_cookie r = None ->
      login env email password w = (Throw (Error no_cookie_message), w1))
  /\ (status r = 302 ->
      forall c, set_cookie r = Some c -> ~ has_sessionid_pattern c ->
      login env email password w =
        (Throw (Error (if String.eqb c "" then no_cookie_message
                       else no_sessionid_message c)), w1))
  /\ (status r = 302 ->
      forall c sid e w2,
        set_cookie r = Some c -> Pattern.match_sessionid c = Some sid ->
        getUserKey env sid w1 = (Throw e, w2) ->
        login env email password w = (Throw e, w2))
  /\ (forall e w',
         login env email password w = (Throw e, w') ->
         session_row w' = session_row w
         /\ fresh_login env email password w = (Throw e, w'))
  /\ (forall e w',
         getValidSession env email password w = (Throw e, w') ->
         session_row w' = session_row w)
  /\ (forall code header code' body_text data,
         NoDup [not_redirect_message code; no_cookie_message;
                no_sessionid_message header; user_info_message code';
                user_parse_message body_text; user_key_message data]).
Proof.
  intros Hnet w1.
  assert (Hw1 : w1 = mkWorld (S (fetches w)) (statements w) (ticks w)
                       (session_row w) (energy_readings w)
                       (ReqLogin email password :: sent w)).
  { unfold w1, fetch. rewrite Hnet. reflexivity. }
  clearbody w1. subst w1.
  split; [| split; [| split; [| split; [| split; [| split]]]]].
  - intros Hst. unfold login, fetch, text. unfold_monad. rewrite Hnet.
    destruct (status r =? 302) eqn:E;
      [apply Z.eqb_eq in E; contradiction |].
    simpl. destruct (body r) as [msg | t p]; simpl.
    + do 2 eexists. split; [reflexivity | discriminate].
    + do 2 eexists. split; [reflexivity | reflexivity].
  - intros Hst Hc. unfold login, fetch. unfold_monad. rewrite Hnet.
    rewrite Hst, Hc. reflexivity.
  - intros Hst c Hc Hno. unfold login, fetch. unfold_monad. rewrite Hnet.
    rewrite Hst, Hc. simpl.
    apply match_sessionid_None in Hno. rewrite Hno.
    destruct (String.eqb c ""); reflexivity.
  - intros Hst c sid e w2 Hc Hsid Hk. unfold login, fetch. unfold_monad.
    rewrite Hnet, Hst, Hc. simpl.
    destruct (String.eqb c "") eqn:E.
    + apply String.eqb_eq in E. subst c. discriminate.
    + rewrite Hsid, Hk. reflexivity.
  - intros e w' H. split.
    + pose proof (login_same_store env email password w) as [Hs _].
      rewrite H in Hs. exact Hs.
    + unfold fresh_login. unfold_monad. rewrite H. reflexivity.
  - intros e w'. apply getValidSession_throw_keeps_session.
  - apply login_messages_distinct.
Qed.

(** The scenario of the specification: the login POST is answered by
    200 instead of 302. *)
Lemma login_failure_is_reported_and_nothing_stored_witness :
  let env := Sample.env_of [Sample.html_response 200 None] in
  exists e w',
    login env "me@example.com" "pw" Sample.stale_world = (Throw e, w')
    /\ (forall t p,
           BodyText "<html></html>" None = BodyText t p ->
           e = Error "Login failed: expected 302, got 200").
Proof.
  intros env.
  refine (proj1 (login_failure_is_reported_and_nothing_stored
            env "me@example.com" "pw" Sample.stale_world
            (mkResponse 200 None (BodyText "<html></html>" None))
            eq_refl) _).
  simpl. discriminate.
Defined.

(** ** Parsing the energy response *)

Lemma colIndex_from_spec (columns : list value) (nm : string) :
  forall i,
    match colIndex_from i columns nm with
    | Some j => (i <= j)%nat /\ last_position columns nm (j - i)
    | None => ~ In (VStr nm) columns
    end.
Proof.
  induction columns as [| col rest IH]; intros i; simpl.
  - tauto.
  - specialize (IH (S i)).
    destruct (colIndex_from (S i) rest nm) as [j |].
    + destruct IH as [Hle [Hn Hlast]]. split; [lia |].
      replace (j - i)%nat with (S (j - S i)) by lia.
      split; [exact Hn |].
      intros k Hk. destruct k as [| k]; [lia |].
      simpl. apply Hlast. lia.
    + assert (Hcol : col = VStr nm ->
                     (i <= i)%nat /\ last_position (col :: rest) nm (i - i)).
      { intros ->. split; [lia |]. rewrite Nat.sub_diag.
        split; [reflexivity |].
        intros k Hk. destruct k as [| k]; [lia |]. simpl.
        intros Hin. apply IH. eapply nth_error_In. exact Hin. }
      destruct col as [| | | | s | |];
        try (intros [H | H]; [discriminate | exact (IH H)]).
      destruct (String.eqb s nm) eqn:E.
      * apply String.eqb_eq in E. subst s. apply Hcol. reflexivity.
      * intros [[= H] | H]; [| exact (IH H)].
        subst s. rewrite String.eqb_refl in E. discriminate.
Qed.

Lemma last_position_unique columns nm j k :
  last_position columns nm j -> last_position columns nm k -> j = k.
Proof.
  intros [Hj Lj] [Hk Lk].
  destruct (Nat.lt_trichotomy j k) as [H | [H | H]]; [| exact H |].
  - exfalso. exact (Lj k H Hk).
  - exfalso. exact (Lk j H Hj).
Qed.

Lemma getVal_absent columns row nm :
  ~ In (VStr nm) columns -> getVal columns row nm = VNum 0.
Proof.
  intros Hno. unfold getVal, colIndex.
  pose proof (colIndex_from_spec columns nm 0) as H.
  destruct (colIndex_from 0 columns nm) as [j |]; [| reflexivity].
  destruct H as [_ [Hn _]]. exfalso. apply Hno.
  eapply nth_error_In. exact Hn.
Qed.

Lemma getVal_by_name columns row nm j :
  last_position columns nm j ->
  getVal columns row nm = coalesce (at_index row j) (VNum 0).
Proof.
  intros Hj. unfold getVal, colIndex.
  pose proof (colIndex_from_spec columns nm 0) as H.
  destruct (colIndex_from 0 columns nm) as [k |].
  - destruct H as [_ Hk]. rewrite Nat.sub_0_r in Hk.
    rewrite (last_position_unique columns nm j k Hj Hk). reflexivity.
  - exfalso. apply H. destruct Hj as [Hn _].
    eapply nth_error_In. exact Hn.
Qed.

Lemma reading_at_metric columns rows ts i nm proj :
  In (nm, proj) metric_fields ->
  proj (reading_at columns rows ts i) = getVal columns (row_for rows i) nm.
Proof.
  intros H. simpl in H.
  repeat (destruct H as [[= <- <-] | H]; [reflexivity |]).
  contradiction.
Qed.


Lemma mapi_from_length {A B} (f : A -> nat -> B) (xs : list A) :
  forall i, List.length (mapi_from i f xs) = List.length xs.
Proof.
  induction xs as [| x xs IH]; intros i; simpl; [| rewrite IH]; reflexivity.
Qed.

Lemma mapi_from_nth_error {A B} (f : A -> nat -> B) (xs : list A) :
  forall i k,
    nth_error (mapi_from i f xs) k =
      option_map (fun x => f x (i + k)%nat) (nth_error xs k).
Proof.
  induction xs as [| x xs IH]; intros i k; destruct k as [| k]; simpl;
    try reflexivity.
  - rewrite Nat.add_0_r. reflexivity.
  - rewrite IH. replace (S i + k)%nat with (i + S k)%nat by lia. reflexivity.
Qed.

Lemma mapi_from_In {A B} (f : A -> nat -> B) (xs : list A) (y : B) :
  forall i, In y (mapi_from i f xs) -> exists x k, y = f x k.
Proof.
  induction xs as [| x xs IH]; intros i; simpl; [tauto |].
  intros [<- | H]; [eauto | eapply IH; exact H].
Qed.

Lemma parseEnergyResponse_value (data : value) (w : World) :
  nullish data = false ->
  parseEnergyResponse data w = (Return (parsed_readings data), w).
Proof.
  intros H. unfold parseEnergyResponse, parsed_readings. unfold_monad.
  rewrite !(read_not_nullish _ _ _ H).
  destruct (field "columns" data), (field "index" data),
    (field "data" data); reflexivity.
Qed.

Lemma parsed_readings_ill_shaped (data : value) :
  well_shaped data = false -> parsed_readings data = [].
Proof.
  unfold well_shaped, parsed_readings.
  destruct (field "columns" data), (field "index" data),
    (field "data" data); simpl; try reflexivity; discriminate.
Qed.

Lemma getEnergyData_json env s gw sd ed fq tz w {r t data} :
  net env (fetches w) = Responded r -> ok r = true ->
  body r = BodyText t (Some data) -> nullish data = false ->
  getEnergyData env s gw sd ed fq tz w =
    (Return (parsed_readings data),
     snd (fetch env (ReqEnergy s gw sd ed fq tz) w)).
Proof.
  intros Hnet Hok Hb Hn.
  unfold getEnergyData, fetch, text, Object_keys. unfold_monad.
  rewrite Hnet, Hok. simpl. rewrite Hb. simpl. rewrite Hn.
  rewrite (parseEnergyResponse_value _ _ Hn). reflexivity.
Qed.

Lemma field_array_not_nullish k data items :
  field k data = VArr items -> nullish data = false.
Proof. destruct data; simpl; try discriminate; reflexivity. Qed.

Lemma parsed_readings_shaped {data cols idx rws} :
  field "columns" data = VArr cols -> field "index" data = VArr idx ->
  field "data" data = VArr rws ->
  parsed_readings data = mapi_from 0 (reading_at cols rws) idx.
Proof. intros Hc Hi Hd. unfold parsed_readings. rewrite Hc, Hi, Hd. reflexivity. Qed.

Lemma parsed_readings_nth {data cols idx rws i rd} :
  field "columns" data = VArr cols -> field "index" data = VArr idx ->
  field "data" data = VArr rws ->
  nth_error (parsed_readings data) i = Some rd ->
  exists ts, nth_error idx i = Some ts /\ rd = reading_at cols rws ts i.
Proof.
  intros Hc Hi Hd. rewrite (parsed_readings_shaped Hc Hi Hd).
  rewrite mapi_from_nth_error. simpl.
  destruct (nth_error idx i) as [ts |]; [| discriminate].
  intros [= <-]. eauto.
Qed.




Lemma getVal_of_empty_row columns nm :
  getVal columns (VArr []) nm = VNum 0.
Proof.
  unfold getVal. destruct (colIndex columns nm) as [j |]; [| reflexivity].
  simpl. destruct j; reflexivity.
Qed.

Lemma mapi_from_timestamps cols rws idx :
  forall n, map timestamp (mapi_from n (reading_at cols rws) idx) = idx.
Proof.
  induction idx as [| ts idx' IH]; intros n; simpl;
    [reflexivity | rewrite IH; reflexivity].
Qed.

(** C10, as the code has it: when [columns], [index] and [data] are
    arrays, [parseEnergyResponse] returns one reading per entry of
    [index], in order and with that entry as timestamp, also when
    [data] has fewer rows.  A row that is missing (or falsy) gives a
    reading whose metrics are all 0.  A row that is too short gives 0
    for the metrics whose column lies beyond its end, and for the
    other metrics the value the row has there. *)
Theorem parseEnergyResponse_one_reading_per_index
    (data : value) (cols idx rws : list value) (w : World) :
  field "columns" data = VArr cols ->
  field "index" data = VArr idx ->
  field "data" data = VArr rws ->
  exists readings,
    parseEnergyResponse data w = (Return readings, w)
    /\ List.length readings = List.length idx
    /\ map timestamp readings = idx
    /\ (forall i rd,
           nth_error readings i = Some rd ->
           (truthy (nth i rws VUndef) = false -> all_zero rd)
           /\ ((List.length rws <= i)%nat -> all_zero rd)
           /\ (forall nm proj j items,
                  In (nm, proj) metric_fields ->
                  last_position cols nm j ->
                  nth_error rws i = Some (VArr items) ->
                  ((List.length items <= j)%nat -> proj rd = VNum 0)
                  /\ (forall x, nth_error items j = Some x ->
                                proj rd = coalesce x (VNum 0)))).
Proof.
  intros Hc Hi Hd.
  exists (parsed_readings data).
  split; [apply parseEnergyResponse_value;
          exact (field_array_not_nullish _ _ _ Hc) |].
  rewrite (parsed_readings_shaped Hc Hi Hd).
  split; [apply mapi_from_length |].
  split.
  { apply mapi_from_timestamps. }
  intros i rd Hrd.
  rewrite mapi_from_nth_error in Hrd.
  destruct (nth_error idx i) as [ts |]; [| discriminate].
  simpl in Hrd. injection Hrd as <-.
  assert (Hfalsy : truthy (nth i rws VUndef) = false ->
                   all_zero (reading_at cols rws ts i)).
  { intros Hrow nm proj Hin.
    rewrite (reading_at_metric _ _ _ _ _ _ Hin).
    unfold row_for, or_else. rewrite Hrow. apply getVal_of_empty_row. }
  split; [exact Hfalsy |]. split.
  - intros Hlen. apply Hfalsy. rewrite nth_overflow by exact Hlen. reflexivity.
  - intros nm proj j items Hin Hj Hrow.
    rewrite (reading_at_metric _ _ _ _ _ _ Hin).
    rewrite (getVal_by_name _ _ _ _ Hj).
    unfold row_for, or_else.
    rewrite (nth_error_nth _ _ VUndef Hrow). simpl.
    split.
    + intros Hlen. rewrite nth_overflow by exact Hlen. reflexivity.
    + intros x Hx. rewrite (nth_error_nth _ _ VUndef Hx). reflexivity.
Qed.

Lemma parseEnergyResponse_one_reading_per_index_witness :
  exists readings,
    parseEnergyResponse Sample.short_row_data Sample.empty_world
      = (Return readings, Sample.empty_world)
    /\ List.length readings = 1%nat.
Proof.
  destruct (parseEnergyResponse_one_reading_per_index
              Sample.short_row_data
              [VStr "total_heat_1"; VStr "total_heat_2"]
              [VNum 1000] [VArr [VNum 5]] Sample.empty_world
              eq_refl eq_refl eq_refl)
    as [readings [Hrun [Hlen _]]].
  exists readings. split; [exact Hrun | exact Hlen].
Defined.

(** C10 as stated fails twice.  A row shorter than the columns keeps
    the values it has: here [total_heat_1] is 5, not 0.  And without a
    [columns] array there is no reading at all for the three entries
    of [index]. *)
Lemma parseEnergyResponse_short_row_counterexample :
  (exists rd,
      fst (parseEnergyResponse Sample.short_row_data Sample.empty_world)
        = Return [rd]
      /\ total_heat_1 rd = VNum 5
      /\ ~ all_zero rd)
  /\ fst (parseEnergyResponse Sample.no_columns_data Sample.empty_world)
     = Return [].
Proof.
  split; [| reflexivity].
  eexists. split; [reflexivity |]. split; [reflexivity |].
  intros H. specialize (H "total_heat_1" total_heat_1 (or_introl eq_refl)).
  discriminate.
Qed.

(** ** The structural search for gateways *)

Lemma exposes_gwid_spec (v : value) :
  exposes_gwid v = true <-> gwid_object v.
Proof.
  unfold exposes_gwid, gwid_object. split.
  - destruct v as [| | | | | | entries]; try discriminate.
    unfold has_key, field.
    destruct (assoc "gwid" entries) as [x |] eqn:E; [| discriminate].
    destruct x; try discriminate. intros _.
    do 2 eexists. split; [reflexivity | exact E].
  - intros [entries [g [-> Hg]]]. unfold has_key, field.
    rewrite Hg. reflexivity.
Qed.

Lemma subvalues_nested (v d : value) :
  In v (subvalues d) <-> nested_in v d.
Proof.
  split.
  - revert v. induction d as [| | | | | items IH | entries IH]
      using value_nested_ind; intros v; simpl;
      try (intros [<- | []]; constructor).
    + intros [<- | H]; [constructor |].
      apply in_flat_map in H. destruct H as [x [Hx Hv]].
      rewrite Forall_forall in IH.
      eapply nested_item; [exact Hx | apply IH; assumption].
    + intros [<- | H]; [constructor |].
      apply in_flat_map in H. destruct H as [[k x] [Hx Hv]].
      rewrite Forall_forall in IH.
      eapply nested_entry; [exact Hx | apply (IH (k, x)); assumption].
  - intros H. induction H as [| items x Hx _ IH | entries k x Hx _ IH].
    + destruct v; simpl; left; reflexivity.
    + simpl. right. apply in_flat_map. exists x. split; assumption.
    + simpl. right. apply in_flat_map. exists (k, x). split; assumption.
Qed.

Lemma map_filter_flat_map {A B C} (f : B -> C) (p : B -> bool)
    (g : A -> list B) (l : list A) :
  map f (filter p (flat_map g l)) =
  flat_map (fun x => map f (filter p (g x))) l.
Proof.
  induction l as [| x l IH]; simpl; [reflexivity |].
  rewrite filter_app, map_app, IH. reflexivity.
Qed.

Lemma flat_map_ext_Forall {A B} (f g : A -> list B) {l : list A} :
  Forall (fun x => f x = g x) l -> flat_map f l = flat_map g l.
Proof.
  induction 1 as [| x l Hx _ IH]; simpl; [reflexivity |].
  rewrite Hx, IH. reflexivity.
Qed.

(** [findGateways] pushes one gateway for every object with a string
    [gwid] that occurs in the value, in the order of the walk. *)
Lemma findGateways_collects (d : value) :
  findGateways d = map gateway_of_found (filter exposes_gwid (subvalues d)).
Proof.
  induction d as [| | | | | items IH | entries IH] using value_nested_ind;
    try reflexivity.
  - cbn [findGateways subvalues filter].
    replace (exposes_gwid (VArr items)) with false by reflexivity.
    rewrite map_filter_flat_map.
    apply flat_map_ext_Forall. exact IH.
  - cbn [findGateways subvalues filter].
    rewrite (flat_map_ext_Forall (fun kv => findGateways (snd kv))
               (fun kv => map gateway_of_found
                            (filter exposes_gwid (subvalues (snd kv))))
               IH).
    rewrite <- (map_filter_flat_map gateway_of_found exposes_gwid
                  (fun kv => subvalues (snd kv)) entries).
    destruct (exposes_gwid (VObj entries)); reflexivity.
Qed.

(** C9: when the body of the listing parses as JSON and has no
    top-level [gateways] array, [getGateways] returns one gateway for
    every object with a string [gwid] that occurs anywhere in the
    body, and it throws, with an error that is not an [AuthError],
    exactly when no such object occurs. *)
Theorem getGateways_structural_fallback
    (env : Env) (s : Session) (w : World) (r : Response) (t : string)
    (data : value) :
  net env (fetches w) = Responded r ->
  ok r = true ->
  body r = BodyText t (Some data) ->
  is_array (field "gateways" data) = false ->
  let found := filter exposes_gwid (subvalues data) in
  (forall v, In v found <-> nested_in v data /\ gwid_object v)
  /\ (found <> [] ->
      exists w',
        getGateways env s w = (Return (map gateway_of_found found), w'))
  /\ (found = [] ->
      exists e w', getGateways env s w = (Throw e, w') /\ is_auth e = false)
  /\ (forall e w',
         getGateways env s w = (Throw e, w') ->
         is_auth e = false /\ found = [])
  /\ (forall v, In v found -> exists g, gwid (gateway_of_found v) = VStr g).
Proof.
  intros Hnet Hok Hb Hnoarr found.
  assert (Hrun :
    getGateways env s w =
      (if nullish data
       then Throw (Error "Cannot convert undefined or null to object")
       else match found with
            | [] => Throw (Error ("No gateways found in location data. Keys: "
                                  ++ join ", " (keys data)))
            | _ => Return (map gateway_of_found found)
            end,
       snd (fetch env (ReqLocations s) w))).
  { unfold getGateways, fetch, text, Object_keys. unfold_monad.
    rewrite Hnet, Hok. simpl. rewrite Hb. simpl.
    destruct (nullish data) eqn:Hn; [reflexivity |].
    rewrite (read_not_nullish _ _ _ Hn).
    destruct (field "gateways" data) eqn:Hg; try discriminate;
      rewrite findGateways_collects; fold found;
      destruct found; reflexivity. }
  assert (Hnull : nullish data = true -> found = []).
  { intros Hn. unfold found. destruct data; try discriminate; reflexivity. }
  split; [| split; [| split; [| split]]].
  - intros v. unfold found. rewrite filter_In, subvalues_nested,
      exposes_gwid_spec. reflexivity.
  - intros Hne. rewrite Hrun. destruct (nullish data) eqn:Hn.
    + exfalso. apply Hne, Hnull. reflexivity.
    + destruct found; [contradiction | eauto].
  - intros He. rewrite Hrun, He.
    destruct (nullish data); do 2 eexists; split; reflexivity.
  - intros e w' H. rewrite Hrun in H.
    destruct (nullish data) eqn:Hn.
    + injection H as <- _. split; [reflexivity | apply Hnull; reflexivity].
    + destruct found; [| discriminate].
      injection H as <- _. split; reflexivity.
  - intros v Hv. unfold found in Hv. apply filter_In in Hv.
    destruct Hv as [_ Hv]. apply exposes_gwid_spec in Hv.
    destruct Hv as [entries [g [-> Hg]]].
    exists g. simpl. rewrite Hg. reflexivity.
Qed.

Lemma getGateways_structural_fallback_witness :
  let env := Sample.env_of [Sample.json_response 200 Sample.nested_listing] in
  exists w',
    getGateways env Sample.a_session Sample.empty_world =
      (Return [mkGateway (VStr "GW9") (VStr "Basement") VUndef], w').
Proof.
  intros env.
  refine (proj1 (proj2 (getGateways_structural_fallback
            env Sample.a_session Sample.empty_world
            (mkResponse 200 None
               (BodyText (Sample.stringify Sample.nested_listing)
                  (Some Sample.nested_listing)))
            (Sample.stringify Sample.nested_listing) Sample.nested_listing
            eq_refl eq_refl eq_refl eq_refl)) _).
  simpl. discriminate.
Defined.

(** ** Jobs *)

Lemma run_job_returns (body : Job unit) (w : World) :
  run_job body w =
    (Return (job_result (fst (body (initial_result, w)))
               (fst (snd (body (initial_result, w))))),
     snd (snd (body (initial_result, w)))).
Proof.
  unfold run_job. unfold_monad.
  destruct (body (initial_result, w)) as [[[] | e] [r w']]; reflexivity.
Qed.

Lemma same_result_refl rw : same_result rw rw.
Proof. reflexivity. Qed.
Lemma same_result_trans a b c :
  same_result a b -> same_result b c -> same_result a c.
Proof. unfold same_result. congruence. Qed.
Lemma same_slots_refl rw : same_slots rw rw.
Proof. repeat split. Qed.
Lemma same_slots_trans a b c :
  same_slots a b -> same_slots b c -> same_slots a c.
Proof. unfold same_slots. intuition congruence. Qed.

Lemma lift_same_result {A} (m : M A) : preserves same_result (lift m).
Proof. intros [r w]. unfold lift, same_result. simpl. destruct (m w). reflexivity. Qed.

Lemma lift_same_slots {A} (m : M A) : preserves same_slots (lift m).
Proof.
  intros [r w]. unfold lift, same_slots. simpl. destruct (m w).
  repeat split.
Qed.

Lemma set_loginRefreshed_same_slots b :
  preserves same_slots (update (set_loginRefreshed b)).
Proof. intros [r w]. repeat split. Qed.

Lemma list_gateways_with_relogin_same_slots env email password s :
  preserves same_slots (list_gateways_with_relogin env email password s).
Proof.
  unfold list_gateways_with_relogin.
  repeat first [ preserve_step same_slots_refl same_slots_trans
               | apply lift_same_slots
               | apply set_loginRefreshed_same_slots ].
Qed.

Lemma acquire_gateways_same_slots env email password :
  preserves same_slots (acquire_gateways env email password).
Proof.
  unfold acquire_gateways.
  repeat first [ preserve_step same_slots_refl same_slots_trans
               | apply lift_same_slots
               | apply set_loginRefreshed_same_slots
               | apply list_gateways_with_relogin_same_slots ].
Qed.

Lemma daily_gateway_try_same_result env s sd ed tz g :
  preserves same_result (daily_gateway_try env s sd ed tz g).
Proof.
  unfold daily_gateway_try, call_with_extra.
  repeat first [ preserve_step same_result_refl same_result_trans
               | apply lift_same_result ].
Qed.

(** A slot returned by the [try] block names its gateway and has no
    error. *)
Lemma daily_gateway_try_slot {env s sd ed tz g rw slot rw'} :
  daily_gateway_try env s sd ed tz g rw = (Return slot, rw') ->
  gr_gwid slot = gwid g /\ gr_error slot = None.
Proof.
  unfold daily_gateway_try, call_with_extra. unfold_monad.
  repeat match goal with
         | |- context [match ?x with _ => _ end] => destruct x
         end;
    intros [= <- _]; split; reflexivity.
Qed.

(** One turn of the loop never throws: the slot it pushes is the one
    of the [try] block, or the error of that block. *)
Lemma daily_gateway_step env s sd ed tz g r w :
  daily_gateway env s sd ed tz g (r, w) =
    match daily_gateway_try env s sd ed tz g (r, w) with
    | (Return slot, (_, w')) => (Return tt, (push_gateway slot r, w'))
    | (Throw e, (_, w')) =>
        (Return tt,
         (push_gateway (mkGatewayResult (gwid g) 0 0 (Some (message e)))
            (set_success false r), w'))
    end.
Proof.
  unfold daily_gateway, gateway_failed. unfold_monad.
  pose proof (daily_gateway_try_same_result env s sd ed tz g (r, w)) as H.
  unfold same_result in H.
  destruct (daily_gateway_try env s sd ed tz g (r, w)) as [[slot | e] [r' w']];
    simpl in H; subst r'; reflexivity.
Qed.

(** The loop of [runDailyFetch] never throws and pushes one slot per
    gateway, in order. *)
Lemma daily_loop env s sd ed tz (gws : list Gateway) :
  forall r w,
  exists slots w',
    for_each (daily_gateway env s sd ed tz) gws (r, w) =
      (Return tt,
       (mkCronResult (success r && forallb no_error slots)
          (gateways r ++ slots) (error r) (loginRefreshed r), w'))
    /\ map gr_gwid slots = map gwid gws.
Proof.
  induction gws as [| g gws IH]; intros r w.
  - exists [], w. simpl. unfold ret.
    rewrite andb_true_r, app_nil_r. destruct r. split; reflexivity.
  - cbn [for_each]. unfold bind at 1. rewrite daily_gateway_step.
    destruct (daily_gateway_try env s sd ed tz g (r, w))
      as [[slot | e] [r' w1]] eqn:Etry.
    + destruct (daily_gateway_try_slot Etry) as [Hg He].
      destruct (IH (push_gateway slot r) w1) as [slots [w' [Hrun Hmap]]].
      exists (slot :: slots), w'. rewrite Hrun. simpl.
      unfold no_error at 2. rewrite He, Hg, Hmap. simpl.
      rewrite <- app_assoc. split; reflexivity.
    + destruct (IH (push_gateway
                      (mkGatewayResult (gwid g) 0 0 (Some (message e)))
                      (set_success false r)) w1)
        as [slots [w' [Hrun Hmap]]].
      exists (mkGatewayResult (gwid g) 0 0 (Some (message e)) :: slots), w'.
      rewrite Hrun. simpl. rewrite Hmap, andb_false_r.
      rewrite <- app_assoc. split; reflexivity.
Qed.

(** What [runDailyFetch] returns once the gateways are listed and the
    date range is known. *)
Lemma runDailyFetch_after_listing {env email password tz w s g gws r1 w1
    range w2} :
  acquire_gateways env email password (initial_result, w)
    = (Return (s, g :: gws), (r1, w1)) ->
  getYesterdayDateRange env tz w1 = (Return range, w2) ->
  runDailyFetch env email password tz w =
    (Return (fst (snd (for_each
                         (daily_gateway env s (fst range) (snd range) tz)
                         (g :: gws) (r1, w2)))),
     snd (snd (for_each (daily_gateway env s (fst range) (snd range) tz)
                 (g :: gws) (r1, w2)))).
Proof.
  intros Hacq Hrange. unfold runDailyFetch. rewrite run_job_returns.
  match goal with
  | |- context [fst (?body (initial_result, w))] =>
      assert (Hbody : body (initial_result, w) =
                for_each (daily_gateway env s (fst range) (snd range) tz)
                  (g :: gws) (r1, w2))
  end.
  { unfold bind at 1. rewrite Hacq. cbn [snd fst].
    unfold bind at 1. unfold lift at 1. cbn [snd fst].
    rewrite Hrange. reflexivity. }
  rewrite Hbody.
  destruct (daily_loop env s (fst range) (snd range) tz (g :: gws) r1 w2)
    as [slots [w' [Hrun _]]].
  rewrite Hrun. reflexivity.
Qed.

Lemma acquire_gateways_result {env email password w o r1 w1} :
  acquire_gateways env email password (initial_result, w) = (o, (r1, w1)) ->
  success r1 = true /\ gateways r1 = [] /\ error r1 = None.
Proof.
  intros H.
  pose proof (acquire_gateways_same_slots env email password
                (initial_result, w)) as Hs.
  rewrite H in Hs. exact Hs.
Qed.

(** The [try] block of the loop of [runDailyFetch], by the outcome of
    the request for the readings: with a reading in hand it throws at
    the call of [getTimezoneOffsetMs], before any insert. *)
Lemma daily_gateway_try_outcome env s sd ed tz g r w :
  daily_gateway_try env s sd ed tz g (r, w) =
    match getEnergyData env s (gwid g) sd ed "15min" tz w with
    | (Return [], w1) => (Return (mkGatewayResult (gwid g) 0 0 None), (r, w1))
    | (Return (_ :: _), w1) =>
        (Throw (Error (not_a_function env "getTimezoneOffsetMs")), (r, w1))
    | (Throw e, w1) => (Throw e, (r, w1))
    end.
Proof.
  unfold daily_gateway_try, imported_getTimezoneOffsetMs, lift.
  unfold_monad. cbn [fst snd].
  destruct (getEnergyData env s (gwid g) sd ed "15min" tz w)
    as [[[| x rs] | e] w1]; reflexivity.
Qed.

(** One turn of the loop pushes the slot of its gateway and clears
    [success] when the slot has an error. *)
Lemma daily_gateway_pushes env s sd ed tz g r w :
  daily_gateway env s sd ed tz g (r, w) =
    let ow := getEnergyData env s (gwid g) sd ed "15min" tz w in
    (Return tt,
     (push_gateway (daily_slot env g (fst ow))
        (if no_error (daily_slot env g (fst ow)) then r
         else set_success false r),
      snd ow)).
Proof.
  rewrite daily_gateway_step, daily_gateway_try_outcome.
  destruct (getEnergyData env s (gwid g) sd ed "15min" tz w)
    as [[[| x rs] | e] w1]; reflexivity.
Qed.

Lemma daily_loop_slots env s sd ed tz (gws : list Gateway) :
  forall r w,
    for_each (daily_gateway env s sd ed tz) gws (r, w) =
      (Return tt,
       (mkCronResult
          (success r && forallb no_error (fst (daily_slots env s sd ed tz gws w)))
          (gateways r ++ fst (daily_slots env s sd ed tz gws w))
          (error r) (loginRefreshed r),
        snd (daily_slots env s sd ed tz gws w))).
Proof.
  induction gws as [| g gws IH]; intros r w.
  - simpl. unfold ret. rewrite andb_true_r, app_nil_r. destruct r.
    reflexivity.
  - cbn [for_each daily_slots]. unfold bind at 1.
    rewrite daily_gateway_pushes. cbv beta iota zeta. rewrite IH.
    cbn [fst snd forallb].
    destruct (no_error
                (daily_slot env g
                   (fst (getEnergyData env s (gwid g) sd ed "15min" tz w))));
      unfold push_gateway, set_success; cbn [success gateways error
                                              loginRefreshed];
      rewrite <- app_assoc; cbn [app andb];
      [| rewrite andb_false_r]; reflexivity.
Qed.

Lemma daily_slots_gwids env s sd ed tz (gws : list Gateway) :
  forall w, map gr_gwid (fst (daily_slots env s sd ed tz gws w)) = map gwid gws.
Proof.
  induction gws as [| g gws IH]; intros w; [reflexivity |].
  cbn [daily_slots fst map]. rewrite IH. f_equal.
  unfold daily_slot.
  destruct (fst (getEnergyData env s (gwid g) sd ed "15min" tz w))
    as [[| x rs] | e]; reflexivity.
Qed.



(** ** The requests a computation sends *)

Lemma quiet_refl w : quiet w w.
Proof. exists []. split; reflexivity. Qed.

Lemma quiet_trans a b c : quiet a b -> quiet b c -> quiet a c.
Proof.
  intros [x [Hx Px]] [y [Hy Py]]. exists (y ++ x)%list.
  rewrite Hy, Hx, app_assoc, forallb_app, Px, Py. split; reflexivity.
Qed.

Lemma sent_one_then_quiet req a b c :
  sent_one req a b -> quiet b c -> sent_one req a c.
Proof.
  intros [x [Hx Px]] [y [Hy Py]]. exists (y ++ x)%list.
  rewrite Hy, Hx, app_assoc, forallb_app, Px, Py. split; reflexivity.
Qed.


(** Requests for the user record do not count as logins, listings or
    fetches of readings. *)
Lemma count_sent_quiet (p : Request -> bool) extra l :
  (forall r, is_user r = true -> p r = false) ->
  forallb is_user extra = true ->
  count_sent p (extra ++ l) = count_sent p l.
Proof.
  intros Hp. unfold count_sent. induction extra as [| r extra IH]; simpl.
  - reflexivity.
  - intros H. apply andb_true_iff in H. destruct H as [Hr He].
    rewrite (Hp r Hr). apply IH. exact He.
Qed.

Lemma is_user_not_login r : is_user r = true -> is_login r = false.
Proof. destruct r; simpl; congruence. Qed.
Lemma is_user_not_listing r : is_user r = true -> is_listing r = false.
Proof. destruct r; simpl; congruence. Qed.
Lemma is_user_not_energy r : is_user r = true -> is_energy r = false.
Proof. destruct r; simpl; congruence. Qed.

Lemma quiet_counts w w' :
  quiet w w' ->
  count_sent is_login (sent w') = count_sent is_login (sent w)
  /\ count_sent is_listing (sent w') = count_sent is_listing (sent w)
  /\ count_sent is_energy (sent w') = count_sent is_energy (sent w).
Proof.
  intros [extra [-> He]].
  rewrite !count_sent_quiet;
    auto using is_user_not_login, is_user_not_listing, is_user_not_energy.
Qed.

Lemma sent_one_counts req w w' :
  sent_one req w w' ->
  forall p, (forall r, is_user r = true -> p r = false) ->
  count_sent p (sent w') =
    ((if p req then 1 else 0) + count_sent p (sent w))%nat.
Proof.
  intros [extra [-> He]] p Hp.
  rewrite (count_sent_quiet p _ _ Hp He).
  unfold count_sent. simpl. destruct (p req); reflexivity.
Qed.

Create HintDb quiet.

Ltac quiet_tac :=
  repeat first [ preserve_step quiet_refl quiet_trans
               | solve [auto with quiet] ].

Lemma text_quiet r : preserves quiet (text r).
Proof. unfold text. quiet_tac. Qed.

Lemma quiet_same_sent w w' : sent w' = sent w -> quiet w w'.
Proof. intros H. exists []. split; [exact H | reflexivity]. Qed.

Lemma Date_now_quiet env : preserves quiet (Date_now env).
Proof. intros w. apply quiet_same_sent. reflexivity. Qed.

Lemma d1_round_trip_quiet env : preserves quiet (d1_round_trip env).
Proof.
  intros w. unfold d1_round_trip.
  destruct (d1_failure env (statements w)); apply quiet_same_sent;
    reflexivity.
Qed.

Lemma read_quiet k v : preserves quiet (read k v).
Proof. unfold read. quiet_tac. Qed.

Lemma Object_keys_quiet v : preserves quiet (Object_keys v).
Proof. unfold Object_keys. quiet_tac. Qed.

Lemma fetch_user_quiet env sid auk : preserves quiet (fetch env (ReqUser sid auk)).
Proof.
  intros w. exists [ReqUser sid auk]. unfold fetch.
  destruct (net env (fetches w)); split; reflexivity.
Qed.

#[local] Hint Resolve text_quiet Date_now_quiet d1_round_trip_quiet read_quiet
  Object_keys_quiet fetch_user_quiet : quiet.

Lemma user_key_candidate_quiet data : preserves quiet (user_key_candidate data).
Proof. unfold user_key_candidate. quiet_tac. Qed.
#[local] Hint Resolve user_key_candidate_quiet : quiet.

Lemma getUserKey_quiet env sid : preserves quiet (getUserKey env sid).
Proof. unfold getUserKey. quiet_tac. Qed.
#[local] Hint Resolve getUserKey_quiet : quiet.

Lemma validateSession_quiet env s : preserves quiet (validateSession env s).
Proof. unfold validateSession. quiet_tac. Qed.

Lemma getStoredSession_quiet env : preserves quiet (getStoredSession env).
Proof. unfold getStoredSession. quiet_tac. intros w. apply quiet_refl. Qed.

Lemma storeSession_quiet env s : preserves quiet (storeSession env s).
Proof.
  unfold storeSession. quiet_tac. intros w. apply quiet_same_sent. reflexivity.
Qed.

Lemma getTimezoneOffsetMs_quiet env tz d :
  preserves quiet (getTimezoneOffsetMs env tz d).
Proof.
  unfold getTimezoneOffsetMs. quiet_tac.
Qed.

Lemma imported_getTimezoneOffsetMs_quiet env tz d :
  preserves quiet (imported_getTimezoneOffsetMs env tz d).
Proof. unfold imported_getTimezoneOffsetMs. quiet_tac. Qed.
#[local] Hint Resolve imported_getTimezoneOffsetMs_quiet : quiet.

Lemma getYesterdayDateRange_quiet env tz :
  preserves quiet (getYesterdayDateRange env tz).
Proof. unfold getYesterdayDateRange. quiet_tac. Qed.

Lemma insertEnergyReadings_quiet env gw readings :
  preserves quiet (insertEnergyReadings env gw readings).
Proof.
  unfold insertEnergyReadings, batch. quiet_tac.
  intros w.
  match goal with
  | |- context [run_batch ?g ?rs ?t] => destruct (run_batch g rs t)
  end.
  apply quiet_same_sent. reflexivity.
Qed.

Lemma parseEnergyResponse_quiet data : preserves quiet (parseEnergyResponse data).
Proof. unfold parseEnergyResponse. quiet_tac. Qed.

Lemma map_M_quiet {A B} (f : A -> M B) xs :
  (forall x, preserves quiet (f x)) -> preserves quiet (map_M f xs).
Proof. intros Hf. induction xs as [| x xs IH]; simpl; quiet_tac. Qed.

Lemma gateway_of_listed_quiet gw : preserves quiet (gateway_of_listed gw).
Proof. unfold gateway_of_listed. quiet_tac. Qed.

#[local] Hint Resolve validateSession_quiet getStoredSession_quiet
  storeSession_quiet getTimezoneOffsetMs_quiet getYesterdayDateRange_quiet
  insertEnergyReadings_quiet parseEnergyResponse_quiet
  gateway_of_listed_quiet : quiet.

(** A computation that starts with [fetch req] and is quiet afterwards
    sends [req] once. *)
Lemma fetch_then_quiet env req {A} (k : Response -> M A) :
  (forall r, preserves quiet (k r)) ->
  preserves (sent_one req) (bind (fetch env req) k).
Proof.
  intros Hk w. unfold bind, fetch.
  destruct (net env (fetches w)) as [msg | r]; simpl.
  - exists []. split; reflexivity.
  - match goal with
    | |- sent_one _ _ (snd (k r ?w1)) =>
        apply (sent_one_then_quiet req w w1); [| apply Hk]
    end.
    exists []. split; reflexivity.
Qed.

Lemma login_sends_one env email password :
  preserves (sent_one (ReqLogin email password)) (login env email password).
Proof.
  unfold login. apply fetch_then_quiet. intros r. quiet_tac.
Qed.

Lemma getGateways_sends_one env s :
  preserves (sent_one (ReqLocations s)) (getGateways env s).
Proof.
  unfold getGateways. apply fetch_then_quiet. intros r. quiet_tac.
  apply map_M_quiet. auto with quiet.
Qed.

Lemma getEnergyData_sends_one env s gw sd ed fq tz :
  preserves (sent_one (ReqEnergy s gw sd ed fq tz))
    (getEnergyData env s gw sd ed fq tz).
Proof.
  unfold getEnergyData. apply fetch_then_quiet. intros r. quiet_tac.
Qed.

Lemma steady_refl rw : steady rw rw.
Proof. repeat split. Qed.

Lemma steady_trans a b c : steady a b -> steady b c -> steady a c.
Proof. unfold steady. intuition congruence. Qed.

Lemma lift_quiet_steady {A} (m : M A) :
  preserves quiet m -> preserves steady (lift m).
Proof.
  intros H [r w]. unfold lift, steady. simpl. specialize (H w).
  destruct (m w) as [o w']. simpl in *.
  destruct (quiet_counts _ _ H) as [Hl [Hg _]]. repeat split; assumption.
Qed.

Lemma update_steady f :
  (forall r, loginRefreshed (f r) = loginRefreshed r) ->
  preserves steady (update f).
Proof. intros H [r w]. unfold update, steady. simpl. rewrite H. repeat split. Qed.

(** The world in which one turn of the loop ends is the one in which
    its [try] block ends. *)
Lemma daily_gateway_world env s sd ed tz g rw :
  snd (snd (daily_gateway env s sd ed tz g rw))
  = snd (snd (daily_gateway_try env s sd ed tz g rw)).
Proof.
  destruct rw as [r w]. rewrite daily_gateway_step.
  destruct (daily_gateway_try env s sd ed tz g (r, w)) as [[slot | e] [r' w']];
    reflexivity.
Qed.

Lemma daily_gateway_loginRefreshed env s sd ed tz g rw :
  loginRefreshed (fst (snd (daily_gateway env s sd ed tz g rw)))
  = loginRefreshed (fst rw).
Proof.
  destruct rw as [r w]. rewrite daily_gateway_step.
  destruct (daily_gateway_try env s sd ed tz g (r, w)) as [[slot | e] [r' w']];
    reflexivity.
Qed.

(** The [try] block of one turn sends the request for the readings of
    its gateway, once, and nothing else but that. *)
Lemma daily_gateway_try_sends_one env s sd ed tz g :
  preserves (on_world (sent_one (energy_request s sd ed tz g)))
    (daily_gateway_try env s sd ed tz g).
Proof.
  intros [r w]. unfold daily_gateway_try, on_world, call_with_extra.
  unfold bind at 1. unfold lift at 1. cbn [snd fst].
  pose proof (getEnergyData_sends_one env s (gwid g) sd ed "15min" tz w) as H1.
  destruct (getEnergyData env s (gwid g) sd ed "15min" tz w)
    as [[readings | e] w1]; cbn [snd] in *; [| exact H1].
  eapply sent_one_then_quiet; [exact H1 |].
  match goal with
  | |- quiet w1 (snd (snd (?k (r, w1)))) =>
      assert (Hk : preserves (on_world quiet) k)
  end.
  { repeat first [ preserve_step (fun rw : CronResult * World =>
                                    quiet_refl (snd rw))
                     (fun a b c : CronResult * World =>
                        quiet_trans (snd a) (snd b) (snd c))
                 | apply preserves_lift; auto with quiet ]. }
  exact (Hk (r, w1)).
Qed.

Lemma daily_gateway_sends_one env s sd ed tz g rw :
  sent_one (energy_request s sd ed tz g) (snd rw)
    (snd (snd (daily_gateway env s sd ed tz g rw))).
Proof.
  rewrite daily_gateway_world.
  apply (daily_gateway_try_sends_one env s sd ed tz g rw).
Qed.

Lemma daily_gateway_steady env s sd ed tz g :
  preserves steady (daily_gateway env s sd ed tz g).
Proof.
  intros rw. unfold steady.
  pose proof (daily_gateway_sends_one env s sd ed tz g rw) as H.
  rewrite (sent_one_counts _ _ _ H is_login is_user_not_login).
  rewrite (sent_one_counts _ _ _ H is_listing is_user_not_listing).
  rewrite daily_gateway_loginRefreshed. repeat split.
Qed.

Lemma daily_gateway_returns env s sd ed tz g rw :
  fst (daily_gateway env s sd ed tz g rw) = Return tt.
Proof.
  destruct rw as [r w]. rewrite daily_gateway_step.
  destruct (daily_gateway_try env s sd ed tz g (r, w)) as [[slot | e] [r' w']];
    reflexivity.
Qed.

Lemma filter_energy_user extra :
  forallb is_user extra = true -> filter is_energy extra = [].
Proof.
  induction extra as [| r extra IH]; simpl; [reflexivity |].
  intros H. apply andb_true_iff in H. destruct H as [Hr He].
  rewrite (is_user_not_energy r Hr). apply IH. exact He.
Qed.

Lemma sent_one_filter_energy req w w' :
  sent_one req w w' -> is_energy req = true ->
  filter is_energy (sent w') = req :: filter is_energy (sent w).
Proof.
  intros [extra [-> He]] Hreq.
  rewrite filter_app, (filter_energy_user _ He). simpl. rewrite Hreq.
  reflexivity.
Qed.

(** In the loop the readings of every gateway are requested exactly
    once, in the order of the list, whatever the requests answer. *)
Lemma daily_loop_requests env s sd ed tz (gws : list Gateway) :
  forall rw,
    filter is_energy
      (sent (snd (snd (for_each (daily_gateway env s sd ed tz) gws rw))))
    = (rev (map (energy_request s sd ed tz) gws)
         ++ filter is_energy (sent (snd rw)))%list.
Proof.
  induction gws as [| g gws IH]; intros rw.
  - reflexivity.
  - cbn [for_each]. unfold bind.
    pose proof (daily_gateway_returns env s sd ed tz g rw) as Hret.
    pose proof (daily_gateway_sends_one env s sd ed tz g rw) as Hone.
    destruct (daily_gateway env s sd ed tz g rw) as [o rw1].
    simpl in Hret. subst o. cbn [snd] in Hone.
    rewrite IH.
    rewrite (sent_one_filter_energy _ _ _ Hone eq_refl).
    simpl. rewrite <- app_assoc. reflexivity.
Qed.

(** ** Listing the gateways, with one re-login *)

Lemma list_gateways_first_try env email password s r w o w1 :
  getGateways env s w = (o, w1) ->
  (forall e, o = Throw e -> is_auth e = false) ->
  list_gateways_with_relogin env email password s (r, w) =
    (match o with
     | Return gws => Return (s, gws)
     | Throw e => Throw e
     end, (r, w1)).
Proof.
  intros H Hna. unfold list_gateways_with_relogin, lift. unfold_monad.
  cbn [snd fst]. rewrite H. destruct o as [gws | e]; [reflexivity |].
  rewrite (Hna e eq_refl). reflexivity.
Qed.

Lemma list_gateways_relogin env email password s r w e w1 :
  getGateways env s w = (Throw e, w1) ->
  is_auth e = true ->
  list_gateways_with_relogin env email password s (r, w) =
    match login env email password w1 with
    | (Throw e1, w2) => (Throw e1, (r, w2))
    | (Return s', w2) =>
        match storeSession env s' w2 with
        | (Throw e2, w3) => (Throw e2, (r, w3))
        | (Return _, w3) =>
            match getGateways env s' w3 with
            | (Throw e3, w4) => (Throw e3, (set_loginRefreshed true r, w4))
            | (Return gws, w4) =>
                (Return (s', gws), (set_loginRefreshed true r, w4))
            end
        end
    end.
Proof.
  intros H Ha. unfold list_gateways_with_relogin, lift. unfold_monad.
  cbn [snd fst]. rewrite H, Ha. cbn [snd fst].
  destruct (login env email password w1) as [[s' | e1] w2]; [| reflexivity].
  cbn [snd fst].
  destruct (storeSession env s' w2) as [[[] | e2] w3]; [| reflexivity].
  cbn [snd fst].
  destruct (getGateways env s' w3) as [[gws | e3] w4]; reflexivity.
Qed.

Lemma acquire_gateways_with_session env email password w auth w1 :
  getValidSession env email password w = (Return auth, w1) ->
  acquire_gateways env email password (initial_result, w) =
    list_gateways_with_relogin env email password (session auth)
      (set_loginRefreshed (fresh auth) initial_result, w1).
Proof.
  intros H. unfold acquire_gateways, lift. unfold_monad. cbn [snd fst].
  rewrite H. reflexivity.
Qed.

Lemma runDailyFetch_acquire_fails env email password tz w e r1 w1 :
  acquire_gateways env email password (initial_result, w)
    = (Throw e, (r1, w1)) ->
  runDailyFetch env email password tz w =
    (Return (mkCronResult false [] (Some (message e)) (loginRefreshed r1)),
     w1).
Proof.
  intros H. destruct (acquire_gateways_result H) as [Hs [Hg He]].
  unfold runDailyFetch. rewrite run_job_returns.
  match goal with
  | |- context [fst (?body (initial_result, w))] =>
      assert (Hbody : body (initial_result, w) = (Throw e, (r1, w1)))
        by (unfold bind at 1; rewrite H; reflexivity);
      rewrite Hbody
  end.
  cbn [fst snd job_result]. unfold set_error, set_success. simpl.
  rewrite Hg. reflexivity.
Qed.

Lemma storeSession_returns env s w w' :
  storeSession env s w = (Return tt, w') ->
  session_row w' = Some s /\ sent w' = sent w.
Proof.
  unfold storeSession, d1_round_trip. unfold_monad.
  destruct (d1_failure env (statements w)); [discriminate |].
  intros [= <-]. split; reflexivity.
Qed.

(** Once the gateways are listed, the rest of [runDailyFetch] sends no
    login and no listing, and leaves [loginRefreshed] alone. *)
Lemma runDailyFetch_rest_steady env email password tz w s gws r1 w1 :
  acquire_gateways env email password (initial_result, w)
    = (Return (s, gws), (r1, w1)) ->
  exists r w',
    runDailyFetch env email password tz w = (Return r, w')
    /\ steady (r1, w1) (r, w').
Proof.
  intros H. unfold runDailyFetch. rewrite run_job_returns.
  match goal with
  | |- context [fst (bind ?m ?k (initial_result, w))] =>
      assert (Hk : preserves steady (k (s, gws)));
      [| assert (Hb : bind m k (initial_result, w) = k (s, gws) (r1, w1))
           by (unfold bind at 1; rewrite H; reflexivity);
         rewrite Hb; specialize (Hk (r1, w1));
         destruct (k (s, gws) (r1, w1)) as [o [r' w']] ]
  end.
  { cbn [snd fst]. destruct gws as [| g gws].
    - repeat first [ preserve_step steady_refl steady_trans
                   | apply update_steady; reflexivity ].
    - apply (preserves_bind _ steady_trans).
      + apply lift_quiet_steady. apply getYesterdayDateRange_quiet.
      + intros range.
        apply (preserves_for_each steady _ _ steady_refl steady_trans).
        intros x. apply daily_gateway_steady. }
  do 2 eexists. split; [reflexivity |].
  cbn [fst snd]. destruct Hk as [H1 [H2 H3]]. cbn [fst snd] in *.
  destruct o; repeat split; assumption.
Qed.

Lemma map_M_same_store {A B} (f : A -> M B) xs :
  (forall x, preserves same_store (f x)) -> preserves same_store (map_M f xs).
Proof. intros Hf. induction xs as [| x xs IH]; simpl; same_store_tac. Qed.

Lemma getGateways_same_store env s : preserves same_store (getGateways env s).
Proof.
  unfold getGateways. same_store_tac.
  apply map_M_same_store. intros x. unfold gateway_of_listed. same_store_tac.
Qed.

(** The counts of logins and listings after a computation that sent
    one request [req]. *)
Lemma sent_one_login_listing req w w' :
  sent_one req w w' ->
  count_sent is_login (sent w')
    = ((if is_login req then 1 else 0) + count_sent is_login (sent w))%nat
  /\ count_sent is_listing (sent w')
     = ((if is_listing req then 1 else 0) + count_sent is_listing (sent w))%nat.
Proof.
  intros H. split.
  - apply (sent_one_counts _ _ _ H is_login is_user_not_login).
  - apply (sent_one_counts _ _ _ H is_listing is_user_not_listing).
Qed.

Lemma getGateways_counts env s w o w' :
  getGateways env s w = (o, w') ->
  count_sent is_login (sent w') = count_sent is_login (sent w)
  /\ count_sent is_listing (sent w') = S (count_sent is_listing (sent w))
  /\ session_row w' = session_row w.
Proof.
  intros H.
  pose proof (getGateways_sends_one env s w) as H1.
  pose proof (getGateways_same_store env s w) as [H2 _].
  rewrite H in H1, H2. cbn [snd] in H1, H2.
  destruct (sent_one_login_listing _ _ _ H1) as [Ha Hb].
  repeat split; assumption.
Qed.

Lemma login_counts env email password w o w' :
  login env email password w = (o, w') ->
  count_sent is_login (sent w') = S (count_sent is_login (sent w))
  /\ count_sent is_listing (sent w') = count_sent is_listing (sent w)
  /\ session_row w' = session_row w.
Proof.
  intros H.
  pose proof (login_sends_one env email password w) as H1.
  pose proof (login_same_store env email password w) as [H2 _].
  rewrite H in H1, H2. cbn [snd] in H1, H2.
  destruct (sent_one_login_listing _ _ _ H1) as [Ha Hb].
  repeat split; assumption.
Qed.

Lemma storeSession_sent env s w o w' :
  storeSession env s w = (o, w') -> sent w' = sent w.
Proof.
  unfold storeSession, d1_round_trip. unfold_monad.
  destruct (d1_failure env (statements w)); intros [= _ <-]; reflexivity.
Qed.

(** C5: in [runDailyFetch], an [AuthError] of the gateway listing is
    answered by one forced login, whose session is stored and which
    sets [loginRefreshed], and by one more listing.  If the login, the
    storing or the second listing throws, the job fails with that
    error in its [error] field, and nothing is tried again.  An error
    of the listing that is not an [AuthError] fails the job at once; a
    listing that succeeds is not repeated; and in the loop the
    readings of each gateway are requested exactly once. *)
Theorem runDailyFetch_relogin_once
    (env : Env) (email password tz : string) (w : World)
    (auth : AuthResult) (w1 : World) :
  getValidSession env email password w = (Return auth, w1) ->
  (forall e w2,
      getGateways env (session auth) w1 = (Throw e, w2) ->
      is_auth e = false ->
      runDailyFetch env email password tz w =
        (Return (mkCronResult false [] (Some (message e)) (fresh auth)), w2)
      /\ count_sent is_login (sent w2) = count_sent is_login (sent w1)
      /\ count_sent is_listing (sent w2) = S (count_sent is_listing (sent w1)))
  /\ (forall e w2,
         getGateways env (session auth) w1 = (Throw e, w2) ->
         is_auth e = true ->
         (forall e1 w3,
             login env email password w2 = (Throw e1, w3) ->
             runDailyFetch env email password tz w =
               (Return (mkCronResult false [] (Some (message e1))
                          (fresh auth)), w3)
             /\ session_row w3 = session_row w1
             /\ count_sent is_login (sent w3)
                = S (count_sent is_login (sent w1))
             /\ count_sent is_listing (sent w3)
                = S (count_sent is_listing (sent w1)))
         /\ (forall s' w3 e2 w4,
                login env email password w2 = (Return s', w3) ->
                storeSession env s' w3 = (Throw e2, w4) ->
                runDailyFetch env email password tz w =
                  (Return (mkCronResult false [] (Some (message e2))
                             (fresh auth)), w4)
                /\ session_row w4 = session_row w1)
         /\ (forall s' w3 w4,
                login env email password w2 = (Return s', w3) ->
                storeSession env s' w3 = (Return tt, w4) ->
                session_row w4 = Some s'
                /\ (forall e3 w5,
                       getGateways env s' w4 = (Throw e3, w5) ->
                       runDailyFetch env email password tz w =
                         (Return (mkCronResult false [] (Some (message e3))
                                    true), w5)
                       /\ session_row w5 = Some s'
                       /\ count_sent is_login (sent w5)
                          = S (count_sent is_login (sent w1))
                       /\ count_sent is_listing (sent w5)
                          = S (S (count_sent is_listing (sent w1))))
                /\ (forall gws w5,
                       getGateways env s' w4 = (Return gws, w5) ->
                       exists r w',
                         runDailyFetch env email password tz w = (Return r, w')
                         /\ loginRefreshed r = true
                         /\ count_sent is_login (sent w')
                            = S (count_sent is_login (sent w1))
                         /\ count_sent is_listing (sent w')
                            = S (S (count_sent is_listing (sent w1))))))
  /\ (forall gws w2,
         getGateways env (session auth) w1 = (Return gws, w2) ->
         exists r w',
           runDailyFetch env email password tz w = (Return r, w')
           /\ loginRefreshed r = fresh auth
           /\ count_sent is_login (sent w') = count_sent is_login (sent w1)
           /\ count_sent is_listing (sent w')
              = S (count_sent is_listing (sent w1)))
  /\ (forall s sd ed gws rw,
         filter is_energy
           (sent (snd (snd (for_each (daily_gateway env s sd ed tz) gws rw))))
         = (rev (map (energy_request s sd ed tz) gws)
              ++ filter is_energy (sent (snd rw)))%list).
Proof.
  intros Hauth.
  pose proof (acquire_gateways_with_session _ _ _ _ _ _ Hauth) as Hacq.
  split; [| split; [| split]].
  - intros e w2 Hlist Hna.
    rewrite (list_gateways_first_try env email password _ _ _ _ _ Hlist)
      in Hacq by (intros e' [= <-]; exact Hna).
    rewrite (runDailyFetch_acquire_fails _ _ _ tz _ _ _ _ Hacq).
    destruct (getGateways_counts _ _ _ _ _ Hlist) as [Ha [Hb _]].
    repeat split; assumption.
  - intros e w2 Hlist Ha.
    rewrite (list_gateways_relogin env email password _ _ _ _ _ Hlist Ha)
      in Hacq.
    destruct (getGateways_counts _ _ _ _ _ Hlist) as [Hl1 [Hg1 Hs1]].
    split; [| split].
    + intros e1 w3 Hlogin. rewrite Hlogin in Hacq.
      rewrite (runDailyFetch_acquire_fails _ _ _ tz _ _ _ _ Hacq).
      destruct (login_counts _ _ _ _ _ _ Hlogin) as [Hl2 [Hg2 Hs2]].
      repeat split; congruence.
    + intros s' w3 e2 w4 Hlogin Hstore. rewrite Hlogin, Hstore in Hacq.
      rewrite (runDailyFetch_acquire_fails _ _ _ tz _ _ _ _ Hacq).
      destruct (login_counts _ _ _ _ _ _ Hlogin) as [_ [_ Hs2]].
      apply storeSession_throw_keeps_session in Hstore.
      split; [reflexivity | congruence].
    + intros s' w3 w4 Hlogin Hstore. rewrite Hlogin, Hstore in Hacq.
      destruct (login_counts _ _ _ _ _ _ Hlogin) as [Hl2 [Hg2 _]].
      pose proof (storeSession_sent _ _ _ _ _ Hstore) as Hsent.
      destruct (storeSession_returns _ _ _ _ Hstore) as [Hrow _].
      split; [exact Hrow |]. split.
      * intros e3 w5 Hlist2. rewrite Hlist2 in Hacq.
        rewrite (runDailyFetch_acquire_fails _ _ _ tz _ _ _ _ Hacq).
        destruct (getGateways_counts _ _ _ _ _ Hlist2) as [Hl3 [Hg3 Hs3]].
        rewrite Hsent in Hl3, Hg3.
        repeat split; congruence.
      * intros gws w5 Hlist2. rewrite Hlist2 in Hacq.
        destruct (runDailyFetch_rest_steady _ _ _ tz _ _ _ _ _ Hacq)
          as [r [w' [Hrun [Hc1 [Hc2 Hc3]]]]].
        destruct (getGateways_counts _ _ _ _ _ Hlist2) as [Hl3 [Hg3 _]].
        rewrite Hsent in Hl3, Hg3. cbn [fst snd] in Hc1, Hc2, Hc3.
        exists r, w'. repeat split; try assumption; congruence.
  - intros gws w2 Hlist.
    rewrite (list_gateways_first_try env email password _ _ _ _ _ Hlist)
      in Hacq by discriminate.
    destruct (runDailyFetch_rest_steady _ _ _ tz _ _ _ _ _ Hacq)
      as [r [w' [Hrun [Hc1 [Hc2 Hc3]]]]].
    destruct (getGateways_counts _ _ _ _ _ Hlist) as [Hl [Hg _]].
    cbn [fst snd] in Hc1, Hc2, Hc3.
    exists r, w'. repeat split; try assumption; congruence.
  - intros s sd ed gws rw. apply daily_loop_requests.
Qed.

(** A listing refused with 401, then one forced login and one more
    listing: two logins in all (the first by [getValidSession]) and
    two listings. *)
Lemma runDailyFetch_relogin_once_witness :
  exists r w',
    runDailyFetch Sample.relogin_env "me@example.com" "pw"
      "America/Los_Angeles" Sample.empty_world = (Return r, w')
    /\ loginRefreshed r = true
    /\ count_sent is_login (sent w') = 2%nat
    /\ count_sent is_listing (sent w') = 2%nat.
Proof.
  edestruct (runDailyFetch_relogin_once Sample.relogin_env "me@example.com"
               "pw" "America/Los_Angeles" Sample.empty_world)
    as [_ [HB _]]; [run_lhs |].
  edestruct HB as [_ [_ HB3]]; [run_lhs | reflexivity |].
  edestruct HB3 as [_ [_ HB5]]; [run_lhs | run_lhs |].
  edestruct HB5 as [r [w' [Hrun [Hlr [Hc1 Hc2]]]]]; [run_lhs |].
  exists r, w'. split; [exact Hrun |]. split; [exact Hlr |].
  split; [exact Hc1 | exact Hc2].
Defined.

(** ** Stored readings are never replaced *)

Lemma grows_refl w : grows w w.
Proof. exists []. rewrite app_nil_r. reflexivity. Qed.

Lemma grows_trans a b c : grows a b -> grows b c -> grows a c.
Proof.
  intros [x Hx] [y Hy]. exists (x ++ y)%list.
  rewrite Hy, Hx, app_assoc. reflexivity.
Qed.

Lemma same_store_grows {A} (m : M A) :
  preserves same_store m -> preserves grows m.
Proof.
  intros H w. destruct (H w) as [_ He]. exists [].
  rewrite He, app_nil_r. reflexivity.
Qed.

Lemma insert_or_ignore_grows gw r table :
  exists added, fst (insert_or_ignore gw r table) = (table ++ added)%list.
Proof.
  unfold insert_or_ignore.
  destruct (nullish gw || nullish (timestamp r));
    [exists []; simpl; rewrite app_nil_r; reflexivity |].
  destruct (existsb (same_key gw (timestamp r)) table);
    [exists []; simpl; rewrite app_nil_r; reflexivity |].
  eexists. reflexivity.
Qed.

(** [INSERT OR IGNORE] leaves a row with the same key as it is. *)
Lemma insert_or_ignore_keeps_existing gw r table :
  existsb (same_key gw (timestamp r)) table = true ->
  insert_or_ignore gw r table = (table, 0).
Proof.
  intros H. unfold insert_or_ignore. rewrite H.
  destruct (nullish gw || nullish (timestamp r)); reflexivity.
Qed.

Lemma run_batch_grows gw readings :
  forall table,
  exists added, fst (run_batch gw readings table) = (table ++ added)%list.
Proof.
  induction readings as [| r rest IH]; intros table; simpl.
  - exists []. rewrite app_nil_r. reflexivity.
  - destruct (insert_or_ignore_grows gw r table) as [a1 H1].
    destruct (insert_or_ignore gw r table) as [t1 c]. simpl in H1. subst t1.
    destruct (IH (table ++ a1)%list) as [a2 H2].
    destruct (run_batch gw rest (table ++ a1)%list) as [t2 cs].
    simpl in *. subst t2. exists (a1 ++ a2)%list. rewrite app_assoc.
    reflexivity.
Qed.

Create HintDb grows.

Ltac grows_tac :=
  repeat first [ solve [auto with grows]
               | solve [apply same_store_grows; auto with same_store]
               | preserve_step grows_refl grows_trans ].

Lemma insertEnergyReadings_grows env gw readings :
  preserves grows (insertEnergyReadings env gw readings).
Proof.
  unfold insertEnergyReadings, batch. grows_tac.
  intros w.
  match goal with
  | |- context [run_batch ?g ?rs ?t] =>
      destruct (run_batch_grows g rs t) as [added H];
      destruct (run_batch g rs t) as [t' cs]
  end.
  simpl in *. exists added. exact H.
Qed.

Lemma storeSession_grows env s : preserves grows (storeSession env s).
Proof.
  unfold storeSession. grows_tac. intros w. exists []. simpl.
  rewrite app_nil_r. reflexivity.
Qed.

#[local] Hint Resolve insertEnergyReadings_grows storeSession_grows : grows.

Lemma getValidSession_grows env email password :
  preserves grows (getValidSession env email password).
Proof.
  unfold getValidSession, fresh_login, toISOString_check, isSessionExpired.
  grows_tac.
Qed.

Lemma getTimezoneOffsetMs_same_store env tz d :
  preserves same_store (getTimezoneOffsetMs env tz d).
Proof. unfold getTimezoneOffsetMs. same_store_tac. Qed.

Lemma imported_getTimezoneOffsetMs_same_store env tz d :
  preserves same_store (imported_getTimezoneOffsetMs env tz d).
Proof. unfold imported_getTimezoneOffsetMs. same_store_tac. Qed.
#[local] Hint Resolve imported_getTimezoneOffsetMs_same_store : same_store.

Lemma getYesterdayDateRange_same_store env tz :
  preserves same_store (getYesterdayDateRange env tz).
Proof. unfold getYesterdayDateRange. same_store_tac. Qed.

Lemma parseEnergyResponse_same_store data :
  preserves same_store (parseEnergyResponse data).
Proof. unfold parseEnergyResponse. same_store_tac. Qed.
#[local] Hint Resolve parseEnergyResponse_same_store : same_store.

Lemma getEnergyData_same_store env s gw sd ed fq tz :
  preserves same_store (getEnergyData env s gw sd ed fq tz).
Proof. unfold getEnergyData. same_store_tac. Qed.

#[local] Hint Resolve getGateways_same_store getTimezoneOffsetMs_same_store
  getYesterdayDateRange_same_store getEnergyData_same_store : same_store.
#[local] Hint Resolve getValidSession_grows : grows.

Ltac job_grows_tac :=
  repeat first
    [ apply preserves_update; exact grows_refl
    | apply preserves_lift; solve [grows_tac]
    | preserve_step (fun rw : CronResult * World => grows_refl (snd rw))
        (fun a b c : CronResult * World =>
           grows_trans (snd a) (snd b) (snd c)) ].

Lemma acquire_gateways_grows env email password :
  preserves (on_world grows) (acquire_gateways env email password).
Proof.
  unfold acquire_gateways, list_gateways_with_relogin. job_grows_tac.
Qed.

Lemma backfill_gateway_grows env s sd ed tz override g :
  preserves (on_world grows) (backfill_gateway env s sd ed tz override g).
Proof.
  unfold backfill_gateway, backfill_gateway_try, gateway_failed,
    call_with_extra.
  job_grows_tac.
Qed.

Lemma run_job_grows body :
  preserves (on_world grows) body -> preserves grows (run_job body).
Proof.
  intros H w. rewrite run_job_returns. cbn [snd].
  exact (H (initial_result, w)).
Qed.

Lemma backfillData_grows env email password sd ed tz override :
  preserves grows (backfillData env email password sd ed tz override).
Proof.
  unfold backfillData. apply run_job_grows.
  apply (preserves_bind _ (fun a b c : CronResult * World =>
                             grows_trans (snd a) (snd b) (snd c)));
    [apply acquire_gateways_grows |].
  intros sg. destruct (snd sg); [job_grows_tac |].
  apply (preserves_for_each (on_world grows) _ _
           (fun rw => grows_refl (snd rw))
           (fun a b c => grows_trans (snd a) (snd b) (snd c))).
  intros x. apply backfill_gateway_grows.
Qed.

(** The daily job leaves the table alone. *)

Lemma same_table_refl w : same_table w w.
Proof. reflexivity. Qed.

Lemma same_table_trans a b c :
  same_table a b -> same_table b c -> same_table a c.
Proof. unfold same_table. congruence. Qed.

Lemma same_store_same_table {A} (m : M A) :
  preserves same_store m -> preserves same_table m.
Proof. intros H w. destruct (H w) as [_ He]. exact He. Qed.

Lemma storeSession_same_table env s : preserves same_table (storeSession env s).
Proof.
  unfold storeSession.
  repeat first [ solve [apply same_store_same_table; auto with same_store]
               | preserve_step same_table_refl same_table_trans ].
  intros w. reflexivity.
Qed.

Create HintDb same_table.
#[local] Hint Resolve storeSession_same_table : same_table.

Ltac same_table_tac :=
  repeat first [ solve [auto with same_table]
               | solve [apply same_store_same_table; auto with same_store]
               | preserve_step same_table_refl same_table_trans ].

Lemma getValidSession_same_table env email password :
  preserves same_table (getValidSession env email password).
Proof.
  unfold getValidSession, fresh_login, toISOString_check, isSessionExpired.
  same_table_tac.
Qed.
#[local] Hint Resolve getValidSession_same_table : same_table.

Lemma acquire_gateways_same_table env email password :
  preserves (on_world same_table) (acquire_gateways env email password).
Proof.
  unfold acquire_gateways, list_gateways_with_relogin.
  repeat first
    [ apply preserves_update; exact same_table_refl
    | apply preserves_lift; solve [same_table_tac]
    | preserve_step (fun rw : CronResult * World => same_table_refl (snd rw))
        (fun a b c : CronResult * World =>
           same_table_trans (snd a) (snd b) (snd c)) ].
Qed.

Lemma daily_gateway_same_table env s sd ed tz g :
  preserves (on_world same_table) (daily_gateway env s sd ed tz g).
Proof.
  intros [r w]. rewrite daily_gateway_pushes. unfold on_world. cbn [snd].
  exact (same_store_same_table _
           (getEnergyData_same_store env s (gwid g) sd ed "15min" tz) w).
Qed.

Lemma runDailyFetch_same_table env email password tz :
  preserves same_table (runDailyFetch env email password tz).
Proof.
  unfold runDailyFetch. intros w. rewrite run_job_returns. cbn [snd].
  match goal with
  | |- same_table w (snd (snd (?body (initial_result, w)))) =>
      assert (Hbody : preserves (on_world same_table) body);
      [| exact (Hbody (initial_result, w))]
  end.
  apply (preserves_bind _ (fun a b c : CronResult * World =>
                             same_table_trans (snd a) (snd b) (snd c)));
    [apply acquire_gateways_same_table |].
  intros sg. destruct (snd sg).
  - repeat first
      [ apply preserves_update; exact same_table_refl
      | preserve_step (fun rw : CronResult * World => same_table_refl (snd rw))
          (fun a b c : CronResult * World =>
             same_table_trans (snd a) (snd b) (snd c)) ].
  - apply (preserves_bind _ (fun a b c : CronResult * World =>
                               same_table_trans (snd a) (snd b) (snd c)));
      [apply preserves_lift; same_table_tac |].
    intros range.
    apply (preserves_for_each (on_world same_table) _ _
             (fun rw => same_table_refl (snd rw))
             (fun a b c => same_table_trans (snd a) (snd b) (snd c))).
    intros x. apply daily_gateway_same_table.
Qed.

(** C1 does not hold of the code.  cron.ts calls
    [getTimezoneOffsetMs] before it splits the readings, and db.ts
    does not export that function: with a reading in hand the [try]
    block of a gateway throws a [TypeError] and neither partition is
    inserted, so that no run of [runDailyFetch] changes the table at
    all.  Nor has [insertEnergyReadings] a replace mode: it has no
    parameter for the mode and only the statement [INSERT OR IGNORE],
    so that a call with the flag [true], as cron.ts writes it for
    today's readings, leaves every stored row as it is.  In the sample
    run the boundary is midnight of 2 January in Los Angeles; the
    store has 3 for that instant, the vendor now reports 7, and after
    the run the store still has 3, the slot of the gateway holding the
    error; the direct call for today's reading counts it as
    skipped. *)
Theorem runDailyFetch_keeps_stale_today_row :
  (forall env email password tz w,
      energy_readings (snd (runDailyFetch env email password tz w))
      = energy_readings w)
  /\ (forall env gw readings w,
         exists added,
           energy_readings
             (snd (call_with_extra (insertEnergyReadings env gw readings)
                     true w))
           = (energy_readings w ++ added)%list)
  /\ (let env := Sample.refetch_env in
      let run := runDailyFetch env "me@example.com" "pw"
                   "America/Los_Angeles" Sample.stale_world in
      let today := [Sample.power_reading Sample.midnight_today 7] in
      let direct := call_with_extra
                      (insertEnergyReadings env (VStr "GW1") today) true
                      Sample.stale_world in
      fst run = Return (mkCronResult false
                          [mkGatewayResult (VStr "GW1") 0 0
                             (Some "getTimezoneOffsetMs is not a function")]
                          None true)
      /\ energy_readings (snd run) = energy_readings Sample.stale_world
      /\ In (mkRow (VStr "GW1")
               (Sample.power_reading Sample.midnight_today 3))
            (energy_readings (snd run))
      /\ ~ In (mkRow (VStr "GW1")
                 (Sample.power_reading Sample.midnight_today 7))
              (energy_readings (snd run))
      /\ fst direct = Return (mkInsertResult 0 1)
      /\ energy_readings (snd direct) = energy_readings Sample.stale_world).
Proof.
  split; [intros; apply runDailyFetch_same_table |].
  split; [intros; apply insertEnergyReadings_grows |].
  vm_compute. repeat split.
  - right. left. reflexivity.
  - intros [H | [H | []]]; discriminate H.
Qed.

(** C2 does not hold of the code, for the same reason: the [override]
    flag of [backfillData] reaches a function that does not take it.
    A backfill with [override = true] is the same computation as one
    with [override = false]; no backfill changes a row stored before
    it; and in the sample run over 2025-01-01 to 2025-02-01 with
    [override = true] both stored rows keep their old values. *)
Theorem backfillData_override_is_ignored :
  (forall env email password sd ed tz w,
      backfillData env email password sd ed tz true w
      = backfillData env email password sd ed tz false w)
  /\ (forall env email password sd ed tz override w,
         exists added,
           energy_readings
             (snd (backfillData env email password sd ed tz override w))
           = (energy_readings w ++ added)%list)
  /\ (let run := backfillData Sample.refetch_env "me@example.com" "pw"
                   "2025-01-01" "2025-02-01" "America/Los_Angeles" true
                   Sample.stale_world in
      fst run = Return (mkCronResult true
                          [mkGatewayResult (VStr "GW1") 0 2 None]
                          None true)
      /\ energy_readings (snd run) = energy_readings Sample.stale_world
      /\ ~ In (mkRow (VStr "GW1")
                 (Sample.power_reading (Sample.midnight_today - 900000) 2))
              (energy_readings (snd run))
      /\ ~ In (mkRow (VStr "GW1")
                 (Sample.power_reading Sample.midnight_today 7))
              (energy_readings (snd run))).
Proof.
  split; [reflexivity |].
  split; [intros; apply backfillData_grows |].
  vm_compute. repeat split.
  - intros [H | [H | []]]; discriminate H.
  - intros [H | [H | []]]; discriminate H.
Qed.

(** * Further properties of the code *)

(** ** Comparison of values *)

Lemma value_eqb_eq (a : value) : forall b, value_eqb a b = true <-> a = b.
Proof.
  induction a as [| | x | x | x | items IH | entries IH]
    using value_nested_ind;
    intros b; destruct b as [| | y | y | y | items' | entries'];
    simpl; try (split; discriminate); try (split; reflexivity).
  - rewrite Bool.eqb_true_iff. split; [intros -> | intros [= ->]]; reflexivity.
  - rewrite Z.eqb_eq. split; [intros -> | intros [= ->]]; reflexivity.
  - rewrite String.eqb_eq. split; [intros -> | intros [= ->]]; reflexivity.
  - revert items'. induction IH as [| x items Hx _ IHl]; intros items'.
    + destruct items'; split; try reflexivity; discriminate.
    + destruct items' as [| y items']; [split; discriminate |].
      rewrite andb_true_iff, Hx. split.
      * intros [-> H]. apply IHl in H. injection H as ->. reflexivity.
      * intros [= -> ->]. split; [reflexivity |]. apply IHl. reflexivity.
  - revert entries'. induction IH as [| [k x] entries Hx _ IHl];
      intros entries'.
    + destruct entries'; split; try reflexivity; discriminate.
    + destruct entries' as [| [k' y] entries']; [split; discriminate |].
      rewrite !andb_true_iff, String.eqb_eq. simpl in Hx. rewrite Hx. split.
      * intros [[-> ->] H]. apply IHl in H. injection H as ->. reflexivity.
      * intros [= -> -> ->]. repeat split. apply IHl. reflexivity.
Qed.

Lemma value_eqb_refl (a : value) : value_eqb a a = true.
Proof. apply value_eqb_eq. reflexivity. Qed.

Lemma same_key_spec gw ts row :
  same_key gw ts row = true <-> row_key row = (gw, ts).
Proof.
  unfold same_key, row_key. rewrite andb_true_iff, !value_eqb_eq.
  split; [intros [-> ->]; reflexivity | intros [= -> ->]; split; reflexivity].
Qed.

Lemma key_stored_spec gw ts table :
  existsb (same_key gw ts) table = true <-> In (gw, ts) (map row_key table).
Proof.
  rewrite existsb_exists, in_map_iff. split.
  - intros [row [Hin Hk]]. exists row. split; [| exact Hin].
    apply same_key_spec. exact Hk.
  - intros [row [Hk Hin]]. exists row. split; [exact Hin |].
    apply same_key_spec. exact Hk.
Qed.

(** ** Inserting readings *)

Lemma count_inserted_cons c cs :
  count_inserted (c :: cs) = (if c >? 0 then 1 else 0) + count_inserted cs.
Proof.
  unfold count_inserted. simpl.
  assert (G : forall l a,
             fold_left (fun acc c => if c >? 0 then acc + 1 else acc) l a
             = a + fold_left (fun acc c => if c >? 0 then acc + 1 else acc) l 0).
  { induction l as [| x l IH]; intros a; simpl; [lia |].
    destruct (x >? 0).
    - rewrite (IH (a + 1)), (IH 1). lia.
    - apply IH. }
  rewrite G. destruct (c >? 0); lia.
Qed.

(** What one batch does to the table: one change count per reading,
    each 0 or 1, and as many new rows as there are 1s. *)
Lemma run_batch_counts gw readings :
  forall table,
    List.length (snd (run_batch gw readings table)) = List.length readings
    /\ 0 <= count_inserted (snd (run_batch gw readings table))
       <= Z.of_nat (List.length readings)
    /\ Z.of_nat (List.length (fst (run_batch gw readings table)))
       = Z.of_nat (List.length table)
         + count_inserted (snd (run_batch gw readings table)).
Proof.
  induction readings as [| r rest IH]; intros table.
  - simpl. unfold count_inserted. simpl. lia.
  - cbn [run_batch].
    assert (Hone : (insert_or_ignore gw r table = (table, 0))
                   \/ insert_or_ignore gw r table
                      = ((table ++ [mkRow gw r])%list, 1)).
    { unfold insert_or_ignore.
      destruct (nullish gw || nullish (timestamp r)); [left; reflexivity |].
      destruct (existsb (same_key gw (timestamp r)) table);
        [left | right]; reflexivity. }
    destruct Hone as [-> | ->].
    + destruct (IH table) as [H1 [H2 H3]].
      destruct (run_batch gw rest table) as [t2 cs]. cbn [fst snd] in *.
      rewrite count_inserted_cons. simpl List.length. cbn [Z.gtb Z.compare].
      repeat split; lia.
    + destruct (IH (table ++ [mkRow gw r])%list) as [H1 [H2 H3]].
      destruct (run_batch gw rest (table ++ [mkRow gw r])%list) as [t2 cs].
      cbn [fst snd] in *. rewrite count_inserted_cons.
      rewrite length_app in H3. simpl List.length in *.
      cbn [Z.gtb Z.compare]. repeat split; lia.
Qed.

(** What [insertEnergyReadings] is when D1 answers. *)
Lemma insertEnergyReadings_run env gw readings w :
  d1_failure env (statements w) = None ->
  readings <> [] ->
  insertEnergyReadings env gw readings w =
    (Return (mkInsertResult
               (count_inserted (snd (run_batch gw readings (energy_readings w))))
               (Z.of_nat (List.length readings)
                - count_inserted
                    (snd (run_batch gw readings (energy_readings w))))),
     mkWorld (fetches w) (S (statements w)) (ticks w) (session_row w)
       (fst (run_batch gw readings (energy_readings w))) (sent w)).
Proof.
  intros Hd Hne. unfold insertEnergyReadings, batch, d1_round_trip.
  unfold_monad. destruct readings as [| r rest]; [contradiction |].
  rewrite Hd. cbn [energy_readings fetches statements ticks session_row sent].
  destruct (run_batch gw (r :: rest) (energy_readings w)) as [t cs].
  reflexivity.
Qed.

Lemma insertEnergyReadings_returns env gw readings w res w' :
  insertEnergyReadings env gw readings w = (Return res, w') ->
  (readings = [] /\ res = mkInsertResult 0 0 /\ w' = w)
  \/ (readings <> [] /\ d1_failure env (statements w) = None).
Proof.
  destruct readings as [| r rest].
  - intros [= <- <-]. left. repeat split.
  - intros H. right. split; [discriminate |].
    unfold insertEnergyReadings, batch, d1_round_trip in H. unfold_monad.
    destruct (d1_failure env (statements w)); [discriminate | reflexivity].
Qed.

Lemma insertEnergyReadings_counts env gw readings w res w' :
  insertEnergyReadings env gw readings w = (Return res, w') ->
  inserted res + skipped res = Z.of_nat (List.length readings)
  /\ 0 <= inserted res <= Z.of_nat (List.length readings)
  /\ Z.of_nat (List.length (energy_readings w'))
     = Z.of_nat (List.length (energy_readings w)) + inserted res
  /\ session_row w' = session_row w.
Proof.
  intros H.
  destruct (insertEnergyReadings_returns _ _ _ _ _ _ H)
    as [[-> [-> ->]] | [Hne Hd]].
  - simpl. repeat split; lia.
  - rewrite (insertEnergyReadings_run env gw readings w Hd Hne) in H.
    injection H as <- <-.
    destruct (run_batch_counts gw readings (energy_readings w))
      as [_ [H2 H3]].
    cbn [inserted skipped energy_readings session_row].
    repeat split; lia.
Qed.

(** X1: when [insertEnergyReadings] returns, [inserted + skipped] is
    the number of readings passed, [inserted] is the number of rows
    the table has gained, and the stored session is untouched. *)
Theorem insertEnergyReadings_accounts_for_every_reading
    (env : Env) (gw : value) (readings : list EnergyReading)
    (w : World) (res : InsertResult) (w' : World) :
  insertEnergyReadings env gw readings w = (Return res, w') ->
  inserted res + skipped res = Z.of_nat (List.length readings)
  /\ 0 <= inserted res <= Z.of_nat (List.length readings)
  /\ Z.of_nat (List.length (energy_readings w'))
     = Z.of_nat (List.length (energy_readings w)) + inserted res
  /\ session_row w' = session_row w.
Proof. apply insertEnergyReadings_counts. Qed.

Lemma insert_or_ignore_cases gw r table :
  (would_skip gw table r = true /\ insert_or_ignore gw r table = (table, 0))
  \/ (would_skip gw table r = false
      /\ insert_or_ignore gw r table = ((table ++ [mkRow gw r])%list, 1)).
Proof.
  unfold would_skip, insert_or_ignore.
  destruct (nullish gw || nullish (timestamp r)); [left; split; reflexivity |].
  destruct (existsb (same_key gw (timestamp r)) table);
    [left | right]; split; reflexivity.
Qed.

Lemma would_skip_grows gw table added r :
  would_skip gw table r = true -> would_skip gw (table ++ added) r = true.
Proof.
  unfold would_skip. rewrite existsb_app.
  destruct (nullish gw || nullish (timestamp r)); [reflexivity |].
  simpl. intros ->. reflexivity.
Qed.

Lemma would_skip_after_insert gw table r :
  would_skip gw (table ++ [mkRow gw r]) r = true.
Proof.
  unfold would_skip. rewrite existsb_app. simpl. unfold same_key at 2.
  simpl. rewrite !value_eqb_refl. simpl.
  rewrite !orb_true_r. reflexivity.
Qed.

Lemma run_batch_cons gw r rest table :
  run_batch gw (r :: rest) table =
    (fst (run_batch gw rest (fst (insert_or_ignore gw r table))),
     snd (insert_or_ignore gw r table)
       :: snd (run_batch gw rest (fst (insert_or_ignore gw r table)))).
Proof.
  cbn [run_batch]. destruct (insert_or_ignore gw r table) as [t1 c].
  cbn [fst snd]. destruct (run_batch gw rest t1). reflexivity.
Qed.

(** After a batch every reading of it would be skipped. *)
Lemma run_batch_stores gw readings :
  forall table r,
    In r readings ->
    would_skip gw (fst (run_batch gw readings table)) r = true.
Proof.
  induction readings as [| x rest IH]; intros table r Hin; [contradiction |].
  rewrite run_batch_cons. cbn [fst].
  destruct Hin as [<- | Hin]; [| apply IH; exact Hin].
  destruct (run_batch_grows gw rest (fst (insert_or_ignore gw x table)))
    as [added ->].
  apply would_skip_grows.
  destruct (insert_or_ignore_cases gw x table) as [[Hs ->] | [Hs ->]];
    cbn [fst]; [exact Hs | apply would_skip_after_insert].
Qed.

(** A batch of readings that would all be skipped changes nothing. *)
Lemma run_batch_all_skipped gw readings table :
  (forall r, In r readings -> would_skip gw table r = true) ->
  fst (run_batch gw readings table) = table
  /\ count_inserted (snd (run_batch gw readings table)) = 0.
Proof.
  induction readings as [| x rest IH]; intros H.
  - split; reflexivity.
  - rewrite run_batch_cons. cbn [fst snd]. rewrite count_inserted_cons.
    destruct (insert_or_ignore_cases gw x table) as [[Hs ->] | [Hs _]].
    + cbn [fst snd].
      destruct IH as [H1 H2]; [intros r Hr; apply H; right; exact Hr |].
      rewrite H1, H2. split; reflexivity.
    + rewrite (H x (or_introl eq_refl)) in Hs. discriminate.
Qed.

Lemma insertEnergyReadings_accounts_for_every_reading_witness :
  exists res w',
    insertEnergyReadings (Sample.env_of []) (VStr "GW1") Sample.two_readings
      Sample.stale_world = (Return res, w')
    /\ inserted res + skipped res = 2
    /\ inserted res = 1.
Proof.
  do 2 eexists. split; [run_lhs |].
  split; [| reflexivity].
  refine (proj1 (insertEnergyReadings_accounts_for_every_reading
                   (Sample.env_of []) (VStr "GW1") Sample.two_readings
                   Sample.stale_world _ _ _)).
  run_lhs.
Defined.

(** X2: readings whose keys are all stored already change no row:
    [insertEnergyReadings] reports none inserted and all skipped, and
    the table is the one it was. *)
Theorem insertEnergyReadings_skips_stored_keys
    (env : Env) (gw : value) (readings : list EnergyReading)
    (w : World) (res : InsertResult) (w' : World) :
  (forall r, In r readings ->
             In (gw, timestamp r) (map row_key (energy_readings w))) ->
  insertEnergyReadings env gw readings w = (Return res, w') ->
  inserted res = 0
  /\ skipped res = Z.of_nat (List.length readings)
  /\ energy_readings w' = energy_readings w.
Proof.
  intros Hst H.
  destruct (insertEnergyReadings_returns _ _ _ _ _ _ H)
    as [[-> [-> ->]] | [Hne Hd]]; [repeat split |].
  rewrite (insertEnergyReadings_run env gw readings w Hd Hne) in H.
  injection H as <- <-.
  destruct (run_batch_all_skipped gw readings (energy_readings w))
    as [H1 H2].
  { intros r Hr. unfold would_skip.
    rewrite (proj2 (key_stored_spec gw (timestamp r) (energy_readings w))
               (Hst r Hr)).
    apply orb_true_r. }
  cbn [inserted skipped energy_readings]. rewrite H1, H2.
  repeat split. lia.
Qed.

Lemma insertEnergyReadings_skips_stored_keys_witness :
  exists res w',
    insertEnergyReadings (Sample.env_of []) (VStr "GW1")
      [Sample.power_reading Sample.midnight_today 7] Sample.stale_world
      = (Return res, w')
    /\ inserted res = 0 /\ skipped res = 1
    /\ energy_readings w' = energy_readings Sample.stale_world.
Proof.
  do 2 eexists. split; [run_lhs |].
  refine (insertEnergyReadings_skips_stored_keys
            (Sample.env_of []) (VStr "GW1")
            [Sample.power_reading Sample.midnight_today 7]
            Sample.stale_world _ _ _ _).
  - intros r [<- | []]. simpl. right. left. reflexivity.
  - run_lhs.
Defined.

(** X3: after [insertEnergyReadings] returned, every reading of the
    batch with a gateway and a timestamp that are not null has its key
    in the table; and inserting the same batch again inserts nothing,
    skips everything and leaves the table as it is. *)
Theorem insertEnergyReadings_twice
    (env : Env) (gw : value) (readings : list EnergyReading)
    (w : World) (res1 : InsertResult) (w1 : World) :
  readings <> [] ->
  insertEnergyReadings env gw readings w = (Return res1, w1) ->
  (forall r, In r readings ->
             nullish gw = false -> nullish (timestamp r) = false ->
             In (gw, timestamp r) (map row_key (energy_readings w1)))
  /\ (forall res2 w2,
         insertEnergyReadings env gw readings w1 = (Return res2, w2) ->
         inserted res2 = 0
         /\ skipped res2 = Z.of_nat (List.length readings)
         /\ energy_readings w2 = energy_readings w1).
Proof.
  intros Hne H.
  destruct (insertEnergyReadings_returns _ _ _ _ _ _ H)
    as [[-> _] | [_ Hd]]; [contradiction |].
  rewrite (insertEnergyReadings_run env gw readings w Hd Hne) in H.
  injection H as <- <-. cbn [energy_readings].
  pose proof (run_batch_stores gw readings (energy_readings w)) as Hst.
  split.
  - intros r Hr Hg Ht. specialize (Hst r Hr). unfold would_skip in Hst.
    rewrite Hg, Ht in Hst. simpl in Hst.
    apply key_stored_spec. exact Hst.
  - intros res2 w2 H2.
    destruct (insertEnergyReadings_returns _ _ _ _ _ _ H2)
      as [[-> _] | [_ Hd2]]; [contradiction |].
    rewrite (insertEnergyReadings_run env gw readings _ Hd2 Hne) in H2.
    injection H2 as <- <-. cbn [energy_readings inserted skipped].
    destruct (run_batch_all_skipped gw readings
                (fst (run_batch gw readings (energy_readings w))) Hst)
      as [H1 H0].
    rewrite H1, H0. repeat split. lia.
Qed.

Lemma insertEnergyReadings_twice_witness :
  exists res1 w1 res2 w2,
    insertEnergyReadings (Sample.env_of []) (VStr "GW1") Sample.two_readings
      Sample.stale_world = (Return res1, w1)
    /\ insertEnergyReadings (Sample.env_of []) (VStr "GW1")
         Sample.two_readings w1 = (Return res2, w2)
    /\ inserted res1 = 1 /\ inserted res2 = 0 /\ skipped res2 = 2.
Proof.
  eexists. eexists. eexists. eexists.
  split; [run_lhs |]. split; [run_lhs |].
  split; [reflexivity |].
  match goal with
  | |- inserted ?r2 = 0 /\ skipped ?r2 = 2 =>
      destruct (proj2 (insertEnergyReadings_twice
                         (Sample.env_of []) (VStr "GW1") Sample.two_readings
                         Sample.stale_world _ _
                         ltac:(discriminate) ltac:(run_lhs))
                  r2 _ ltac:(run_lhs)) as [Ha [Hb _]]
  end.
  split; [exact Ha | exact Hb].
Defined.

(** ** Sessions *)

Lemma getStoredSession_returns env w o w' :
  getStoredSession env w = (Return o, w') ->
  o = session_row w /\ session_row w' = session_row w
  /\ sent w' = sent w /\ ticks w' = ticks w.
Proof.
  unfold getStoredSession, d1_round_trip. unfold_monad.
  destruct (d1_failure env (statements w)); [discriminate |].
  intros [= <- <-]. repeat split.
Qed.

(** X5: what [storeSession] stored is what [getStoredSession] reads
    next, whatever session was stored before. *)
Theorem stored_session_round_trip
    (env : Env) (s : Session) (w w1 : World) (o : option Session)
    (w2 : World) :
  storeSession env s w = (Return tt, w1) ->
  getStoredSession env w1 = (Return o, w2) ->
  o = Some s /\ session_row w2 = Some s.
Proof.
  intros H1 H2.
  destruct (storeSession_returns _ _ _ _ H1) as [Hrow _].
  destruct (getStoredSession_returns _ _ _ _ H2) as [-> [Hrow2 _]].
  split; congruence.
Qed.

Lemma stored_session_round_trip_witness :
  exists w1 o w2,
    storeSession (Sample.env_of []) Sample.a_session
      (mkWorld 0 0 0 (Some (mkSession "old" "u0" 5)) [] []) = (Return tt, w1)
    /\ getStoredSession (Sample.env_of []) w1 = (Return o, w2)
    /\ o = Some Sample.a_session.
Proof.
  eexists. eexists. eexists.
  split; [run_lhs |]. split; [run_lhs |].
  refine (proj1 (stored_session_round_trip (Sample.env_of [])
                   Sample.a_session
                   (mkWorld 0 0 0 (Some (mkSession "old" "u0" 5)) [] [])
                   _ _ _ _ _)); run_lhs.
Defined.

Lemma fresh_login_returns env email password w auth w' :
  fresh_login env email password w = (Return auth, w') ->
  fresh auth = true
  /\ session_row w' = Some (session auth)
  /\ count_sent is_login (sent w') = S (count_sent is_login (sent w)).
Proof.
  unfold fresh_login. unfold_monad.
  destruct (login env email password w) as [[s | e] w1] eqn:El;
    [| discriminate].
  destruct (storeSession env s w1) as [[[] | e] w2] eqn:Es; [| discriminate].
  intros [= <- <-].
  destruct (login_counts _ _ _ _ _ _ El) as [Hl _].
  destruct (storeSession_returns _ _ _ _ Es) as [Hrow Hsent].
  rewrite Hsent. repeat split; assumption.
Qed.

(** X6: when [getValidSession] returns, the session it returns is the
    one in the store.  With [fresh = false] it is the session that was
    stored before, it was not expired at the reading of the clock, and
    no login was sent; with [fresh = true] exactly one login was
    sent. *)
Theorem getValidSession_returns_the_stored_session
    (env : Env) (email password : string) (w : World)
    (auth : AuthResult) (w' : World) :
  getValidSession env email password w = (Return auth, w') ->
  session_row w' = Some (session auth)
  /\ (fresh auth = false ->
      session_row w = Some (session auth)
      /\ expired_at (clock env (ticks w)) (session auth) = false
      /\ count_sent is_login (sent w') = count_sent is_login (sent w))
  /\ (fresh auth = true ->
      count_sent is_login (sent w') = S (count_sent is_login (sent w))).
Proof.
  unfold getValidSession. unfold_monad.
  destruct (getStoredSession env w) as [[o | e0] w0] eqn:E0; [| discriminate].
  destruct (getStoredSession_returns _ _ _ _ E0) as [-> [Hr0 [Hs0 Ht0]]].
  assert (Hfresh : forall w1,
             sent w1 = sent w ->
             fresh_login env email password w1 = (Return auth, w') ->
             session_row w' = Some (session auth)
             /\ (fresh auth = false ->
                 session_row w = Some (session auth)
                 /\ expired_at (clock env (ticks w)) (session auth) = false
                 /\ count_sent is_login (sent w')
                    = count_sent is_login (sent w))
             /\ (fresh auth = true ->
                 count_sent is_login (sent w')
                 = S (count_sent is_login (sent w)))).
  { intros w1 Hs1 H. destruct (fresh_login_returns _ _ _ _ _ _ H)
      as [Hf [Hrow Hc]].
    rewrite Hs1 in Hc. split; [exact Hrow |].
    split; [rewrite Hf; discriminate | intros _; exact Hc]. }
  destruct (session_row w) as [st |] eqn:Est.
  - unfold toISOString_check, isSessionExpired, Date_now. unfold_monad.
    destruct (Z.abs (createdAt st) <=? 8640000000000000); [| discriminate].
    rewrite Ht0.
    destruct (expired_at (clock env (ticks w)) st) eqn:Hexp; cbn [negb].
    + apply Hfresh. exact Hs0.
    + match goal with
      | |- context [validateSession env st ?w1] =>
          pose proof (validateSession_quiet env st w1) as Hq;
          pose proof (validateSession_same_store env st w1) as [Hv _];
          destruct (validateSession env st w1) as [[[|] | e1] w2]
      end; cbn [snd] in Hq, Hv; cbn [sent session_row] in Hq, Hv.
      * intros [= <- <-]. cbn [session fresh].
        destruct (quiet_counts _ _ Hq) as [Hl _]. cbn [sent] in Hl.
        rewrite Hs0 in Hl.
        split; [congruence |].
        split; [intros _; repeat split; assumption | discriminate].
      * intros H. destruct (fresh_login_returns _ _ _ _ _ _ H)
          as [Hf [Hrow Hc]].
        destruct (quiet_counts _ _ Hq) as [Hl _]. cbn [sent] in Hl.
        rewrite Hs0 in Hl.
        split; [exact Hrow |].
        split; [rewrite Hf; discriminate | intros _; congruence].
      * discriminate.
  - apply Hfresh. exact Hs0.
Qed.

Lemma getValidSession_returns_the_stored_session_witness :
  exists auth w',
    getValidSession (Sample.env_of [Sample.login_redirect; Sample.user_info])
      "me@example.com" "pw" Sample.empty_world = (Return auth, w')
    /\ session_row w' = Some (session auth).
Proof.
  do 2 eexists. split; [run_lhs |].
  refine (proj1 (getValidSession_returns_the_stored_session
                   (Sample.env_of [Sample.login_redirect; Sample.user_info])
                   "me@example.com" "pw" Sample.empty_world _ _ _)).
  run_lhs.
Defined.

(** ** A login that succeeds *)

Lemma not_semicolon_split (s : string) :
  exists rest,
    s = Pattern.not_semicolon s ++ rest
    /\ (rest = "" \/ exists r, rest = String ";" r).
Proof.
  induction s as [| c s IH]; simpl.
  - exists "". split; [reflexivity | left; reflexivity].
  - destruct (Ascii.eqb c ";") eqn:E.
    + apply Ascii.eqb_eq in E. subst c. exists (String ";" s).
      split; [reflexivity | right; eexists; reflexivity].
    + destruct IH as [rest [H1 H2]]. exists rest. simpl.
      split; [rewrite <- H1; reflexivity | exact H2].
Qed.

Lemma not_semicolon_clean (s : string) :
  forall a b, Pattern.not_semicolon s <> a ++ String ";" b.
Proof.
  induction s as [| c s IH]; intros a b; simpl.
  - destruct a; discriminate.
  - destruct (Ascii.eqb c ";") eqn:E.
    + destruct a; discriminate.
    + destruct a as [| x a]; simpl.
      * intros [= -> _]. rewrite Ascii.eqb_refl in E. discriminate.
      * intros [= _ H]. exact (IH a b H).
Qed.

Lemma match_sessionid_Some (c sid : string) :
  Pattern.match_sessionid c = Some sid ->
  (exists pre rest,
      c = pre ++ "sessionid=" ++ sid ++ rest
      /\ (rest = "" \/ exists r, rest = String ";" r))
  /\ sid <> ""
  /\ (forall a b, sid <> a ++ String ";" b).
Proof.
  induction c as [| x c IH].
  - simpl. discriminate.
  - cbn [Pattern.match_sessionid].
    assert (Hrec : Pattern.match_sessionid c = Some sid ->
                   (exists pre rest,
                       String x c = pre ++ "sessionid=" ++ sid ++ rest
                       /\ (rest = "" \/ exists r, rest = String ";" r))
                   /\ sid <> ""
                   /\ (forall a b, sid <> a ++ String ";" b)).
    { intros H. destruct (IH H) as [[pre [rest [Hc Hr]]] [Hne Hcl]].
      split; [| split; assumption].
      exists (String x pre), rest. split; [| exact Hr].
      simpl. rewrite Hc. reflexivity. }
    destruct (Pattern.strip_prefix "sessionid=" (String x c)) as [tl |] eqn:Hp;
      [| exact Hrec].
    destruct (Pattern.not_semicolon tl) as [| y cap] eqn:Hc; [exact Hrec |].
    intros [= <-]. apply strip_prefix_Some in Hp.
    destruct (not_semicolon_split tl) as [rest [Hs Hr]].
    split; [| split].
    + exists "", rest. split; [| exact Hr].
      rewrite Hp, <- Hc, <- Hs. reflexivity.
    + discriminate.
    + rewrite <- Hc. apply not_semicolon_clean.
Qed.

Lemma same_ticks_refl w : same_ticks w w.
Proof. reflexivity. Qed.
Lemma same_ticks_trans a b c :
  same_ticks a b -> same_ticks b c -> same_ticks a c.
Proof. unfold same_ticks. congruence. Qed.

Lemma getUserKey_same_ticks env sid : preserves same_ticks (getUserKey env sid).
Proof.
  unfold getUserKey, user_key_candidate, text, read.
  repeat first
    [ preserve_step same_ticks_refl same_ticks_trans
    | match goal with
      | |- preserves same_ticks (fetch _ _) =>
          let w := fresh "w" in
          intros w; unfold fetch; destruct (net env (fetches w)); reflexivity
      end ].
Qed.

(** X7: a session returned by [login] has as [sessionId] the text
    that follows [sessionid=] in the [Set-Cookie] header of a 302
    answer, up to the next semicolon or the end, and that text is not
    empty; its [createdAt] is the reading of the clock; and [login]
    stored nothing. *)
Theorem login_returns_the_cookie_session
    (env : Env) (email password : string) (w : World)
    (s : Session) (w' : World) :
  login env email password w = (Return s, w') ->
  exists r c,
    net env (fetches w) = Responded r
    /\ status r = 302
    /\ set_cookie r = Some c
    /\ (exists pre rest,
           c = pre ++ "sessionid=" ++ sessionId s ++ rest
           /\ (rest = "" \/ exists r', rest = String ";" r'))
    /\ sessionId s <> ""
    /\ (forall a b, sessionId s <> a ++ String ";" b)
    /\ createdAt s = clock env (ticks w)
    /\ session_row w' = session_row w.
Proof.
  intros H.
  pose proof (login_same_store env email password w) as [Hrow _].
  rewrite H in Hrow. cbn [snd] in Hrow.
  unfold login, fetch, text in H. unfold_monad.
  destruct (net env (fetches w)) as [msg | r]; [discriminate |].
  destruct (status r =? 302) eqn:Est; cbn [negb] in H;
    [| destruct (body r); discriminate].
  apply Z.eqb_eq in Est.
  destruct (set_cookie r) as [c |] eqn:Ec; [| discriminate].
  destruct (String.eqb c ""); [discriminate |].
  destruct (Pattern.match_sessionid c) as [sid |] eqn:Em; [| discriminate].
  match type of H with
  | context [getUserKey env sid ?w1] =>
      pose proof (getUserKey_same_ticks env sid w1) as Ht;
      destruct (getUserKey env sid w1) as [[uk | e] w2]; [| discriminate]
  end.
  unfold Date_now in H. injection H as <- _.
  cbn [snd] in Ht. unfold same_ticks in Ht. cbn [ticks] in Ht.
  destruct (match_sessionid_Some c sid Em) as [Hocc [Hne Hcl]].
  exists r, c. cbn [sessionId createdAt].
  repeat split; try assumption. rewrite Ht. reflexivity.
Qed.

Lemma login_returns_the_cookie_session_witness :
  exists s w',
    login (Sample.env_of [Sample.login_redirect; Sample.user_info])
      "me@example.com" "pw" Sample.empty_world = (Return s, w')
    /\ sessionId s = "abc123" /\ sessionId s <> "".
Proof.
  do 2 eexists. split; [run_lhs |]. split; [reflexivity |].
  destruct (login_returns_the_cookie_session
              (Sample.env_of [Sample.login_redirect; Sample.user_info])
              "me@example.com" "pw" Sample.empty_world _ _
              ltac:(run_lhs))
    as [r [c [_ [_ [_ [_ [Hne _]]]]]]].
  exact Hne.
Defined.

(** ** The user key *)

Lemma or_chain_truthy data ks acc :
  truthy acc = true ->
  fold_left (fun a k => or_else a (field k data)) ks acc = acc.
Proof.
  revert acc. induction ks as [| k ks IH]; intros acc H; simpl;
    [reflexivity |].
  unfold or_else at 2. rewrite H. apply IH. exact H.
Qed.

Lemma or_chain_first data before k after acc :
  truthy acc = false ->
  (forall k', In k' before -> truthy (field k' data) = false) ->
  truthy (field k data) = true ->
  fold_left (fun a k => or_else a (field k data)) (before ++ k :: after) acc
  = field k data.
Proof.
  revert acc. induction before as [| b before IH]; intros acc Hacc Hb Hk;
    simpl.
  - unfold or_else at 2. rewrite Hacc. apply or_chain_truthy. exact Hk.
  - unfold or_else at 2. rewrite Hacc. apply IH.
    + apply Hb. left. reflexivity.
    + intros k' Hin. apply Hb. right. exact Hin.
    + exact Hk.
Qed.

Lemma user_key_candidate_fold data w :
  nullish data = false ->
  user_key_candidate data w =
    (Return (fold_left (fun a k => or_else a (field k data))
               user_key_fields VUndef), w).
Proof.
  intros H. rewrite (user_key_candidate_value _ _ H). reflexivity.
Qed.



(** ** Which failures are [AuthError]s *)

Lemma no_auth_ret {A} (a : A) : no_auth_error (ret a).
Proof. intros w e w'. discriminate. Qed.

Lemma no_auth_throw {A} msg : no_auth_error (@throw World A (Error msg)).
Proof. intros w e w' [= <- _]. reflexivity. Qed.

Lemma no_auth_bind {A B} (m : M A) (k : A -> M B) :
  no_auth_error m -> (forall a, no_auth_error (k a)) ->
  no_auth_error (bind m k).
Proof.
  intros Hm Hk w e w'. unfold bind.
  destruct (m w) as [[a | e1] w1] eqn:E.
  - apply Hk.
  - intros [= <- _]. exact (Hm _ _ _ E).
Qed.

Lemma no_auth_text r : no_auth_error (text r).
Proof.
  unfold text. destruct (body r); [apply no_auth_throw | apply no_auth_ret].
Qed.

Lemma no_auth_read k v : no_auth_error (read k v).
Proof.
  unfold read. destruct (nullish v); [apply no_auth_throw | apply no_auth_ret].
Qed.

Lemma no_auth_Object_keys v : no_auth_error (Object_keys v).
Proof.
  unfold Object_keys.
  destruct (nullish v); [apply no_auth_throw | apply no_auth_ret].
Qed.

Lemma no_auth_map_M {A B} (f : A -> M B) xs :
  (forall x, no_auth_error (f x)) -> no_auth_error (map_M f xs).
Proof.
  intros Hf. induction xs as [| x xs IH]; simpl; [apply no_auth_ret |].
  apply no_auth_bind; [apply Hf |]. intros y.
  apply no_auth_bind; [exact IH |]. intros ys. apply no_auth_ret.
Qed.

Ltac no_auth_tac :=
  repeat first
    [ apply no_auth_ret | apply no_auth_throw | apply no_auth_text
    | apply no_auth_read | apply no_auth_Object_keys
    | apply no_auth_bind; [| intros ?]
    | apply no_auth_map_M; intros ?
    | match goal with
      | |- no_auth_error (if ?c then _ else _) => destruct c
      | |- no_auth_error (match ?x with _ => _ end) => destruct x
      end ].

Lemma no_auth_parseEnergyResponse data :
  no_auth_error (parseEnergyResponse data).
Proof. unfold parseEnergyResponse. no_auth_tac. Qed.

(** What a request that starts with [fetch] and throws an [AuthError]
    only on 401 and 403 does. *)
Lemma auth_error_only_on_401_403 env req {A} (k : Response -> M A) :
  (forall r, (status r =? 401) || (status r =? 403) = false ->
             no_auth_error (k r)) ->
  forall w e w',
    bind (fetch env req) k w = (Throw e, w') ->
    is_auth e = true ->
    exists r, net env (fetches w) = Responded r
              /\ (status r = 401 \/ status r = 403).
Proof.
  intros Hk w e w' H Ha. unfold bind, fetch in H.
  destruct (net env (fetches w)) as [msg | r].
  - injection H as <- _. discriminate.
  - exists r. split; [reflexivity |].
    destruct ((status r =? 401) || (status r =? 403)) eqn:E.
    + apply orb_true_iff in E. destruct E as [E | E];
        apply Z.eqb_eq in E; [left | right]; exact E.
    + rewrite (Hk r E _ _ _ H) in Ha. discriminate.
Qed.

(** X9: [getGateways] and [getEnergyData] throw an [AuthError] on a
    401 or 403 whose body can be read, and on nothing else: a network
    failure, another status, a body that is not JSON or has no
    gateways all give an error that is not an [AuthError]. *)
Theorem AuthError_means_401_or_403
    (env : Env) (s : Session) (gw : value) (sd ed fq tz : string)
    (w : World) :
  (forall e w',
      getGateways env s w = (Throw e, w') -> is_auth e = true ->
      exists r, net env (fetches w) = Responded r
                /\ (status r = 401 \/ status r = 403))
  /\ (forall e w',
         getEnergyData env s gw sd ed fq tz w = (Throw e, w') ->
         is_auth e = true ->
         exists r, net env (fetches w) = Responded r
                   /\ (status r = 401 \/ status r = 403))
  /\ (forall r t p,
         net env (fetches w) = Responded r ->
         status r = 401 \/ status r = 403 ->
         body r = BodyText t p ->
         fst (getGateways env s w) = Throw (AuthError "Session expired")
         /\ fst (getEnergyData env s gw sd ed fq tz w)
            = Throw (AuthError "Session expired")).
Proof.
  split; [| split].
  - intros e w'. unfold getGateways. apply auth_error_only_on_401_403.
    intros r Hr. rewrite Hr. no_auth_tac.
  - intros e w'. unfold getEnergyData. apply auth_error_only_on_401_403.
    intros r Hr. rewrite Hr. no_auth_tac;
      try apply no_auth_parseEnergyResponse.
  - intros r t p Hnet Hst Hb.
    assert (Hok : ok r = false)
      by (unfold ok; destruct Hst as [-> | ->]; reflexivity).
    assert (H4 : (status r =? 401) || (status r =? 403) = true)
      by (destruct Hst as [-> | ->]; reflexivity).
    unfold getGateways, getEnergyData, fetch, text. unfold_monad.
    rewrite Hnet, Hok, Hb, H4. split; reflexivity.
Qed.

Lemma AuthError_means_401_or_403_witness :
  fst (getGateways (Sample.env_of [Sample.html_response 403 None])
         Sample.a_session Sample.empty_world)
  = Throw (AuthError "Session expired").
Proof.
  refine (proj1 (proj2 (proj2 (AuthError_means_401_or_403
            (Sample.env_of [Sample.html_response 403 None])
            Sample.a_session (VStr "GW1") "2025-01-01" "2025-01-02" "15min"
            "America/Los_Angeles" Sample.empty_world))
            (mkResponse 403 None (BodyText "<html></html>" None))
            "<html></html>" None eq_refl (or_intror eq_refl) eq_refl)).
Defined.

(** ** The listed gateways *)

Lemma map_M_listed items w :
  Forall (fun x => nullish x = false) items ->
  map_M gateway_of_listed items w = (Return (map listed_gateway items), w).
Proof.
  induction 1 as [| x items Hx _ IH]; simpl; [reflexivity |].
  unfold_monad. unfold gateway_of_listed at 1. unfold_monad.
  rewrite (read_not_nullish _ _ _ Hx), IH. reflexivity.
Qed.

Lemma map_M_listed_null items w :
  Exists (fun x => nullish x = true) items ->
  exists e, map_M gateway_of_listed items w = (Throw e, w)
            /\ is_auth e = false.
Proof.
  induction items as [| x items IH]; intros H; [inversion H |].
  simpl. unfold_monad. unfold gateway_of_listed at 1. unfold_monad.
  destruct (nullish x) eqn:Hx.
  - destruct (read_nullish "gwid" x w Hx) as [e [-> Ha]]. eauto.
  - rewrite (read_not_nullish _ _ _ Hx).
    destruct IH as [e [-> Ha]]; [| eauto].
    inversion H as [? ? Hh | ? ? Ht]; subst; [congruence | exact Ht].
Qed.

(** X10: when the body has a top-level [gateways] array,
    [getGateways] returns one gateway per element, in order, with the
    description (or else the gwid) as name, and does not search the
    rest of the body; an empty array gives the empty list; a [null]
    element makes it throw an error that is not an [AuthError]. *)
Theorem getGateways_maps_the_gateways_array
    (env : Env) (s : Session) (w : World) (r : Response) (t : string)
    (data : value) (items : list value) :
  net env (fetches w) = Responded r ->
  ok r = true ->
  body r = BodyText t (Some data) ->
  field "gateways" data = VArr items ->
  (Forall (fun x => nullish x = false) items ->
   getGateways env s w =
     (Return (map listed_gateway items), snd (fetch env (ReqLocations s) w)))
  /\ (Exists (fun x => nullish x = true) items ->
      exists e w',
        getGateways env s w = (Throw e, w') /\ is_auth e = false).
Proof.
  intros Hnet Hok Hb Hg.
  pose proof (field_array_not_nullish _ _ _ Hg) as Hn.
  assert (Hrun : getGateways env s w =
                 map_M gateway_of_listed items
                   (snd (fetch env (ReqLocations s) w))).
  { unfold getGateways, fetch, text, Object_keys. unfold_monad.
    rewrite Hnet, Hok. cbn [negb]. rewrite Hb. cbn [snd fst]. rewrite Hn.
    rewrite (read_not_nullish _ _ _ Hn), Hg. reflexivity. }
  rewrite Hrun. split.
  - intros Hall. apply map_M_listed. exact Hall.
  - intros Hex.
    destruct (map_M_listed_null items (snd (fetch env (ReqLocations s) w)) Hex)
      as [e [He Ha]].
    eauto.
Qed.

Lemma getGateways_maps_the_gateways_array_witness :
  exists w',
    getGateways
      (Sample.env_of [Sample.json_response 200 Sample.listed_and_nested])
      Sample.a_session Sample.empty_world =
      (Return [mkGateway (VStr "GW1") (VStr "Heat pump") VUndef;
               mkGateway (VStr "GW2") (VStr "GW2") VUndef], w').
Proof.
  eexists.
  refine (proj1 (getGateways_maps_the_gateways_array
            (Sample.env_of [Sample.json_response 200 Sample.listed_and_nested])
            Sample.a_session Sample.empty_world
            (mkResponse 200 None
               (BodyText (Sample.stringify Sample.listed_and_nested)
                  (Some Sample.listed_and_nested)))
            (Sample.stringify Sample.listed_and_nested)
            Sample.listed_and_nested
            [VObj [("gwid", VStr "GW1"); ("description", VStr "Heat pump")];
             VObj [("gwid", VStr "GW2")]]
            eq_refl eq_refl eq_refl eq_refl) _).
  repeat constructor.
Defined.

(** ** Jobs without gateways *)

(** X11: when the listing gives an empty list, both jobs end at once
    with [success = false], the error [No gateways found] and no
    result slot. *)
Theorem jobs_fail_without_gateways
    (env : Env) (email password sd ed tz : string) (override : bool)
    (w : World) (s : Session) (r1 : CronResult) (w1 : World) :
  acquire_gateways env email password (initial_result, w)
    = (Return (s, []), (r1, w1)) ->
  runDailyFetch env email password tz w =
    (Return (mkCronResult false [] (Some "No gateways found")
               (loginRefreshed r1)), w1)
  /\ backfillData env email password sd ed tz override w =
     (Return (mkCronResult false [] (Some "No gateways found")
                (loginRefreshed r1)), w1).
Proof.
  intros H. destruct (acquire_gateways_result H) as [Hs [Hg He]].
  unfold runDailyFetch, backfillData. rewrite !run_job_returns.
  split.
  - match goal with
    | |- context [fst (?body (initial_result, w))] =>
        assert (Hbody : body (initial_result, w) =
                  (Return tt,
                   (set_success false (set_error "No gateways found" r1),
                    w1)))
          by (unfold bind at 1; rewrite H; reflexivity);
        rewrite Hbody
    end.
    cbn [fst snd job_result]. unfold set_success, set_error. simpl.
    rewrite Hg. reflexivity.
  - match goal with
    | |- context [fst (?body (initial_result, w))] =>
        assert (Hbody : body (initial_result, w) =
                  (Return tt,
                   (set_success false (set_error "No gateways found" r1),
                    w1)))
          by (unfold bind at 1; rewrite H; reflexivity);
        rewrite Hbody
    end.
    cbn [fst snd job_result]. unfold set_success, set_error. simpl.
    rewrite Hg. reflexivity.
Qed.

Lemma jobs_fail_without_gateways_witness :
  exists w1,
    runDailyFetch Sample.no_gateways_env "me@example.com" "pw"
      "America/Los_Angeles" Sample.empty_world =
      (Return (mkCronResult false [] (Some "No gateways found") true), w1).
Proof.
  eexists.
  refine (proj1 (jobs_fail_without_gateways Sample.no_gateways_env
                   "me@example.com" "pw" "2025-01-01" "2025-02-01"
                   "America/Los_Angeles" false Sample.empty_world
                   _ (mkCronResult true [] None true) _ _)).
  run_lhs.
Defined.

(** ** Backfill *)

(** The [try] block of [backfillData], step by step. *)
Lemma backfill_gateway_try_run env s sd ed tz override g r w :
  backfill_gateway_try env s sd ed tz override g (r, w) =
    match getEnergyData env s (gwid g) sd ed "15min" tz w with
    | (Throw e, w1) => (Throw e, (r, w1))
    | (Return readings, w1) =>
        if (0 <? List.length readings)%nat then
          match insertEnergyReadings env (gwid g) readings w1 with
          | (Throw e, w2) => (Throw e, (r, w2))
          | (Return res, w2) =>
              (Return (mkGatewayResult (gwid g) (inserted res) (skipped res)
                         None), (r, w2))
          end
        else (Return (mkGatewayResult (gwid g) 0 0 None), (r, w1))
    end.
Proof.
  unfold backfill_gateway_try, call_with_extra, lift. unfold_monad.
  cbn [snd fst].
  destruct (getEnergyData env s (gwid g) sd ed "15min" tz w)
    as [[readings | e] w1]; [| reflexivity].
  cbn [snd fst].
  destruct (0 <? List.length readings)%nat; [| reflexivity].
  cbn [snd fst].
  destruct (insertEnergyReadings env (gwid g) readings w1)
    as [[res | e] w2]; reflexivity.
Qed.

(** One turn of the loop of [backfillData]: the slot pushed, and the
    world it ends in. *)
Lemma backfill_gateway_step env s sd ed tz override g r w :
  backfill_gateway env s sd ed tz override g (r, w) =
    match backfill_gateway_try env s sd ed tz override g (r, w) with
    | (Return slot, (_, w')) => (Return tt, (push_gateway slot r, w'))
    | (Throw e, (_, w')) =>
        (Return tt,
         (push_gateway (mkGatewayResult (gwid g) 0 0 (Some (message e)))
            (set_success false r), w'))
    end.
Proof.
  unfold backfill_gateway, gateway_failed. unfold_monad.
  rewrite backfill_gateway_try_run.
  destruct (getEnergyData env s (gwid g) sd ed "15min" tz w)
    as [[readings | e] w1]; [| reflexivity].
  destruct (0 <? List.length readings)%nat; [| reflexivity].
  destruct (insertEnergyReadings env (gwid g) readings w1)
    as [[res | e] w2]; reflexivity.
Qed.

Lemma backfill_gateway_try_slot env s sd ed tz override g rw slot rw' :
  backfill_gateway_try env s sd ed tz override g rw = (Return slot, rw') ->
  gr_gwid slot = gwid g /\ gr_error slot = None.
Proof.
  destruct rw as [r w]. rewrite backfill_gateway_try_run.
  destruct (getEnergyData env s (gwid g) sd ed "15min" tz w)
    as [[readings | e] w1]; [| discriminate].
  destruct (0 <? List.length readings)%nat;
    [| intros [= <- _]; split; reflexivity].
  destruct (insertEnergyReadings env (gwid g) readings w1)
    as [[res | e] w2]; [| discriminate].
  intros [= <- _]. split; reflexivity.
Qed.

Lemma backfill_gateway_sends_one env s sd ed tz override g rw :
  sent_one (energy_request s sd ed tz g) (snd rw)
    (snd (snd (backfill_gateway env s sd ed tz override g rw))).
Proof.
  destruct rw as [r w]. rewrite backfill_gateway_step.
  rewrite backfill_gateway_try_run.
  pose proof (getEnergyData_sends_one env s (gwid g) sd ed "15min" tz w) as H1.
  destruct (getEnergyData env s (gwid g) sd ed "15min" tz w)
    as [[readings | e] w1]; cbn [snd] in *; [| exact H1].
  destruct (0 <? List.length readings)%nat; [| exact H1].
  pose proof (insertEnergyReadings_quiet env (gwid g) readings w1) as H2.
  destruct (insertEnergyReadings env (gwid g) readings w1)
    as [[res | e] w2]; cbn [snd] in *;
    exact (sent_one_then_quiet _ _ _ _ H1 H2).
Qed.

Lemma backfill_loop env s sd ed tz override (gws : list Gateway) :
  forall r w,
  exists slots w',
    for_each (backfill_gateway env s sd ed tz override) gws (r, w) =
      (Return tt,
       (mkCronResult (success r && forallb no_error slots)
          (gateways r ++ slots) (error r) (loginRefreshed r), w'))
    /\ map gr_gwid slots = map gwid gws
    /\ filter is_energy (sent w')
       = (rev (map (energy_request s sd ed tz) gws)
            ++ filter is_energy (sent w))%list.
Proof.
  induction gws as [| g gws IH]; intros r w.
  - exists [], w. simpl. unfold ret.
    rewrite andb_true_r, app_nil_r. destruct r. repeat split.
  - cbn [for_each]. unfold bind at 1.
    pose proof (backfill_gateway_sends_one env s sd ed tz override g (r, w))
      as Hone.
    rewrite backfill_gateway_step in *.
    destruct (backfill_gateway_try env s sd ed tz override g (r, w))
      as [[slot | e] [r' w1]] eqn:Etry; cbn [snd] in Hone.
    + destruct (backfill_gateway_try_slot _ _ _ _ _ _ _ _ _ _ Etry)
        as [Hg He].
      destruct (IH (push_gateway slot r) w1)
        as [slots [w' [Hrun [Hmap Hreq]]]].
      exists (slot :: slots), w'. rewrite Hrun. simpl.
      unfold no_error at 2. rewrite He, Hg, Hmap, Hreq. simpl.
      rewrite (sent_one_filter_energy _ _ _ Hone eq_refl).
      rewrite <- !app_assoc. repeat split.
    + destruct (IH (push_gateway
                      (mkGatewayResult (gwid g) 0 0 (Some (message e)))
                      (set_success false r)) w1)
        as [slots [w' [Hrun [Hmap Hreq]]]].
      exists (mkGatewayResult (gwid g) 0 0 (Some (message e)) :: slots), w'.
      rewrite Hrun. simpl. rewrite Hmap, Hreq, andb_false_r.
      rewrite (sent_one_filter_energy _ _ _ Hone eq_refl).
      rewrite <- !app_assoc. repeat split.
Qed.



(** X14: when the [try] block of [backfillData] for a gateway returns,
    its slot accounts for every fetched reading: [inserted + skipped]
    is their number, whatever their timestamps. *)
Theorem backfill_slot_accounts_for_every_reading
    (env : Env) (s : Session) (sd ed tz : string) (override : bool)
    (g : Gateway) (r : CronResult) (w : World)
    (readings : list EnergyReading) (w1 : World) (slot : GatewayResult)
    (rw' : CronResult * World) :
  getEnergyData env s (gwid g) sd ed "15min" tz w = (Return readings, w1) ->
  backfill_gateway_try env s sd ed tz override g (r, w) = (Return slot, rw') ->
  gr_inserted slot + gr_skipped slot = Z.of_nat (List.length readings)
  /\ 0 <= gr_inserted slot.
Proof.
  intros Hfetch Htry. rewrite backfill_gateway_try_run, Hfetch in Htry.
  destruct (0 <? List.length readings)%nat eqn:Elen.
  - destruct (insertEnergyReadings env (gwid g) readings w1)
      as [[res | e] w2] eqn:E; [| discriminate Htry].
    injection Htry as <- _. cbn [gr_inserted gr_skipped].
    destruct (insertEnergyReadings_counts _ _ _ _ _ _ E) as [Ha [Hb _]].
    split; lia.
  - injection Htry as <- _. cbn [gr_inserted gr_skipped].
    apply Nat.ltb_ge in Elen.
    destruct readings; [split; [reflexivity | lia] | simpl in Elen; lia].
Qed.

Lemma backfill_slot_accounts_for_every_reading_witness :
  let env := Sample.env_of [Sample.power_response
                              [(Sample.midnight_today - 900000, 2);
                               (Sample.midnight_today, 7)]] in
  exists slot rw',
    backfill_gateway_try env Sample.a_session "2025-01-01" "2025-02-01"
      "America/Los_Angeles" true (mkGateway (VStr "GW1") (VStr "GW1") VUndef)
      (initial_result, Sample.stale_world) = (Return slot, rw')
    /\ gr_inserted slot + gr_skipped slot = 2.
Proof.
  intros env. do 2 eexists. split; [run_lhs |].
  refine (proj1 (backfill_slot_accounts_for_every_reading env
                   Sample.a_session "2025-01-01" "2025-02-01"
                   "America/Los_Angeles" true
                   (mkGateway (VStr "GW1") (VStr "GW1") VUndef)
                   initial_result Sample.stale_world
                   [Sample.power_reading (Sample.midnight_today - 900000) 2;
                    Sample.power_reading Sample.midnight_today 7]
                   _ _ _ _ _));
    run_lhs.
Defined.

(** ** The offset of a time zone *)

Lemma digit_of_digit_char n :
  (n < 10)%nat -> Pattern.digit (digit_char n) = Some (Z.of_nat n).
Proof.
  intros H.
  do 10 (destruct n as [| n]; [reflexivity |]). lia.
Qed.

Lemma digit_range c n : Pattern.digit c = Some n -> 0 <= n <= 9.
Proof.
  unfold Pattern.digit.
  destruct ((48 <=? Z.of_nat (nat_of_ascii c))
            && (Z.of_nat (nat_of_ascii c) <=? 57)) eqn:E; [| discriminate].
  intros [= <-]. apply andb_true_iff in E. destruct E as [E1 E2].
  apply Z.leb_le in E1, E2. lia.
Qed.

Lemma gmt_offset_here_range s sg h m :
  Pattern.gmt_offset_here s = Some (sg, h, m) ->
  0 <= h <= 99 /\ 0 <= m <= 99.
Proof.
  unfold Pattern.gmt_offset_here.
  destruct (Pattern.strip_prefix "GMT" s) as [tl |]; [| discriminate].
  destruct tl as [| c0 [| h1 [| h2 [| col [| m1 [| m2 tl]]]]]];
    try discriminate.
  destruct ((Ascii.eqb c0 "+" || Ascii.eqb c0 "-") && Ascii.eqb col ":");
    [| discriminate].
  destruct (Pattern.digit h1) as [a |] eqn:Ea; [| discriminate].
  destruct (Pattern.digit h2) as [b |] eqn:Eb; [| discriminate].
  destruct (Pattern.digit m1) as [c |] eqn:Ec; [| discriminate].
  destruct (Pattern.digit m2) as [d |] eqn:Ed; [| discriminate].
  intros H.
  assert (Hh : h = 10 * a + b) by congruence.
  assert (Hm : m = 10 * c + d) by congruence.
  apply digit_range in Ea, Eb, Ec, Ed. lia.
Qed.

Lemma match_gmt_offset_range s sg h m :
  Pattern.match_gmt_offset s = Some (sg, h, m) ->
  0 <= h <= 99 /\ 0 <= m <= 99.
Proof.
  induction s as [| c s IH]; cbn [Pattern.match_gmt_offset].
  - destruct (Pattern.gmt_offset_here "") as [[[sg' h'] m'] |] eqn:E;
      [| discriminate].
    intros [= -> -> ->]. exact (gmt_offset_here_range _ _ _ _ E).
  - destruct (Pattern.gmt_offset_here (String c s)) as [[[sg' h'] m'] |] eqn:E;
      [| exact IH].
    intros [= -> -> ->]. exact (gmt_offset_here_range _ _ _ _ E).
Qed.

Lemma match_gmt_offset_skip pre s :
  no_G pre = true ->
  Pattern.match_gmt_offset (pre ++ s) = Pattern.match_gmt_offset s.
Proof.
  induction pre as [| c pre IH]; intros H; [reflexivity |].
  simpl in H. apply andb_true_iff in H. destruct H as [Hc Hpre].
  change (String c pre ++ s) with (String c (pre ++ s)).
  cbn [Pattern.match_gmt_offset].
  assert (Hhere : Pattern.gmt_offset_here (String c (pre ++ s)) = None).
  { unfold Pattern.gmt_offset_here. cbn [Pattern.strip_prefix].
    rewrite Ascii.eqb_sym. apply negb_true_iff in Hc. rewrite Hc.
    reflexivity. }
  rewrite Hhere. apply IH. exact Hpre.
Qed.

Lemma match_gmt_offset_text sg a b c d rest :
  sg = "+"%char \/ sg = "-"%char ->
  (a < 10)%nat -> (b < 10)%nat -> (c < 10)%nat -> (d < 10)%nat ->
  Pattern.match_gmt_offset (gmt_text sg a b c d ++ rest)
  = Some (sg, 10 * Z.of_nat a + Z.of_nat b, 10 * Z.of_nat c + Z.of_nat d).
Proof.
  intros Hsg Ha Hb Hc Hd.
  assert (Hhere : Pattern.gmt_offset_here (gmt_text sg a b c d ++ rest)
                  = Some (sg, 10 * Z.of_nat a + Z.of_nat b,
                          10 * Z.of_nat c + Z.of_nat d)).
  { unfold gmt_text, Pattern.gmt_offset_here.
    cbn [append Pattern.strip_prefix Ascii.eqb Bool.eqb].
    rewrite !digit_of_digit_char by assumption.
    destruct Hsg as [-> | ->]; reflexivity. }
  unfold gmt_text in *. cbn [append] in *.
  cbn [Pattern.match_gmt_offset]. rewrite Hhere. reflexivity.
Qed.

(** X15: [getTimezoneOffsetMs] throws only when the formatter does.
    Its result is a whole number of minutes, between minus and plus
    99 h 99 min; it is 0 when the formatted text has no [GMT+hh:mm] or
    [GMT-hh:mm]; and for a text such as [02/01/2025, GMT-08:00], whose
    part before [GMT] has no letter G, it is hh hours and mm minutes
    with the sign of the text. *)
Theorem getTimezoneOffsetMs_reads_the_offset
    (env : Env) (tz d : string) (w : World) (text : string) :
  format_offset env tz d = Some text ->
  exists off,
    getTimezoneOffsetMs env tz d w = (Return off, w)
    /\ Z.abs off <= 99 * 3600000 + 99 * 60000
    /\ off mod 60000 = 0
    /\ (Pattern.match_gmt_offset text = None -> off = 0)
    /\ (forall pre sg a b c d rest,
           text = pre ++ gmt_text sg a b c d ++ rest ->
           no_G pre = true ->
           sg = "+"%char \/ sg = "-"%char ->
           (a < 10)%nat -> (b < 10)%nat -> (c < 10)%nat -> (d < 10)%nat ->
           off = (if Ascii.eqb sg "+" then 1 else -1)
                 * ((10 * Z.of_nat a + Z.of_nat b) * 3600000
                    + (10 * Z.of_nat c + Z.of_nat d) * 60000)).
Proof.
  intros Hf. unfold getTimezoneOffsetMs. rewrite Hf.
  destruct (Pattern.match_gmt_offset text) as [[[sg h] m] |] eqn:Em.
  - eexists. split; [reflexivity |].
    destruct (match_gmt_offset_range _ _ _ _ Em) as [Hh Hm].
    split; [destruct (Ascii.eqb sg "+"); lia |].
    split.
    + replace ((if Ascii.eqb sg "+" then 1 else -1)
               * (h * 3600000 + m * 60000))
        with (((if Ascii.eqb sg "+" then 1 else -1) * (h * 60 + m)) * 60000)
        by lia.
      apply Z_mod_mult.
    + split; [discriminate |].
      intros pre sg' a b c d' rest -> Hpre Hsg Ha Hb Hc Hd.
      rewrite (match_gmt_offset_skip pre _ Hpre) in Em.
      rewrite (match_gmt_offset_text sg' a b c d' rest Hsg Ha Hb Hc Hd) in Em.
      injection Em as <- <- <-. reflexivity.
  - exists 0. split; [reflexivity |].
    split; [simpl; lia |]. split; [reflexivity |].
    split; [reflexivity |].
    intros pre sg' a b c d' rest -> Hpre Hsg Ha Hb Hc Hd.
    rewrite (match_gmt_offset_skip pre _ Hpre) in Em.
    rewrite (match_gmt_offset_text sg' a b c d' rest Hsg Ha Hb Hc Hd) in Em.
    discriminate.
Qed.

Lemma getTimezoneOffsetMs_reads_the_offset_witness :
  exists off,
    getTimezoneOffsetMs (Sample.env_of []) "America/Los_Angeles" "2025-01-02"
      Sample.empty_world = (Return off, Sample.empty_world)
    /\ off = -28800000.
Proof.
  destruct (getTimezoneOffsetMs_reads_the_offset (Sample.env_of [])
              "America/Los_Angeles" "2025-01-02" Sample.empty_world
              "02/01/2025, GMT-08:00" eq_refl)
    as [off [Hrun [_ [_ [_ Hval]]]]].
  exists off. split; [exact Hrun |].
  apply (Hval "02/01/2025, " "-"%char 0 8 0 0 "")%nat;
    [reflexivity | reflexivity | right; reflexivity | lia | lia | lia | lia].
Defined.

(** ** The HTTP surface *)

Section RouterProperties.

Variable env : Env.
Variable getDailyTotals : string -> string -> string -> M (list value).
Variable getHourlyTotals : string -> string -> M (list value).
Variable getRawReadings :
  string -> string -> option string -> string -> M (list value).
Variable getKnownGateways : M (list string).

Lemma cors_in_json data status :
  incl Worker.corsHeaders (Worker.headers (Worker.jsonResponse data status)).
Proof. intros h Hh. right. exact Hh. Qed.

(** A handler built from a computation that may throw, a response for
    its value and the 500 response for its error. *)
Lemma guarded_query_responds {A} (q : M A) (f : A -> Worker.Payload) w :
  exists resp w',
    try_catch (x <- q;; ret (Worker.jsonResponse (f x) 200))
      (fun e => ret (Worker.errorResponse (message e) 500)) w
    = (Return resp, w')
    /\ incl Worker.corsHeaders (Worker.headers resp)
    /\ (Worker.code resp = 200 \/ Worker.code resp = 500).
Proof.
  unfold_monad. destruct (q w) as [[x | e] w1]; do 2 eexists;
    (split; [reflexivity |]); (split; [apply cors_in_json |]);
    [left | right]; reflexivity.
Qed.

Lemma handleApiRoute_responds path params w :
  exists resp w',
    Worker.handleApiRoute getDailyTotals getHourlyTotals getRawReadings
      getKnownGateways path params w = (Return resp, w')
    /\ incl Worker.corsHeaders (Worker.headers resp).
Proof.
  unfold Worker.handleApiRoute.
  repeat match goal with
         | |- context [if ?c then _ else _] => destruct c
         | |- context [match Worker.present ?x with _ => _ end] =>
             destruct (Worker.present x)
         end;
    try (do 2 eexists; split; [reflexivity | apply cors_in_json]);
    match goal with
    | |- context [try_catch
                    (bind ?q (fun x => ret (Worker.jsonResponse (@?f x) 200)))
                    _ _] =>
        destruct (guarded_query_responds q f w) as [resp [w' [H [Hc _]]]];
        eauto
    end.
Qed.

(** X16: [handleRequest] never throws, whatever the queries and the
    jobs do, and every response it gives carries the three CORS
    headers. *)
Theorem handleRequest_always_responds_with_cors
    (request : Worker.HttpRequest) (b : Worker.Bindings) (w : World) :
  exists resp w',
    Worker.handleRequest env getDailyTotals getHourlyTotals getRawReadings
      getKnownGateways request b w = (Return resp, w')
    /\ incl Worker.corsHeaders (Worker.headers resp).
Proof.
  unfold Worker.handleRequest.
  destruct (String.eqb (Worker.method request) "OPTIONS").
  { do 2 eexists. split; [reflexivity | apply incl_refl]. }
  destruct (String.prefix "/api/" (Worker.pathname request)).
  { apply handleApiRoute_responds. }
  destruct (String.eqb (Worker.pathname request) "/__scheduled"
            || String.eqb (Worker.pathname request) "/cron").
  { unfold Worker.handleManualCron.
    destruct (Worker.present (Worker.GEOSTAR_EMAIL b)) as [email |];
      [| do 2 eexists; split; [reflexivity | apply cors_in_json]].
    destruct (Worker.present (Worker.GEOSTAR_PASSWORD b)) as [password |];
      [| do 2 eexists; split; [reflexivity | apply cors_in_json]].
    destruct (guarded_query_responds
                (runDailyFetch env email password
                   (Worker.or_default (Worker.TIMEZONE b)
                      Worker.default_timezone))
                Worker.JobPayload w) as [resp [w' [H [Hc _]]]].
    eauto. }
  destruct (String.eqb (Worker.pathname request) "/backfill").
  { destruct (Worker.present
                (Worker.get "start" (Worker.searchParams request)))
      as [start |];
      [| do 2 eexists; split; [reflexivity | apply cors_in_json]].
    destruct (Worker.present (Worker.get "end" (Worker.searchParams request)))
      as [end_ |];
      [| do 2 eexists; split; [reflexivity | apply cors_in_json]].
    unfold Worker.handleBackfill.
    destruct (Worker.present (Worker.GEOSTAR_EMAIL b)) as [email |];
      [| do 2 eexists; split; [reflexivity | apply cors_in_json]].
    destruct (Worker.present (Worker.GEOSTAR_PASSWORD b)) as [password |];
      [| do 2 eexists; split; [reflexivity | apply cors_in_json]].
    destruct (guarded_query_responds
                (backfillData env email password start end_
                   (Worker.or_default (Worker.TIMEZONE b)
                      Worker.default_timezone) false)
                Worker.JobPayload w) as [resp [w' [H [Hc _]]]].
    eauto. }
  destruct (String.eqb (Worker.pathname request) "/");
    do 2 eexists; (split; [reflexivity | apply cors_in_json]).
Qed.

End RouterProperties.

Lemma runDailyFetch_total env email password tz w :
  exists r w', runDailyFetch env email password tz w = (Return r, w').
Proof. unfold runDailyFetch. rewrite run_job_returns. eauto. Qed.

Lemma backfillData_total env email password sd ed tz override w :
  exists r w',
    backfillData env email password sd ed tz override w = (Return r, w').
Proof. unfold backfillData. rewrite run_job_returns. eauto. Qed.

Section RouterCases.

Variable env : Env.
Variable getDailyTotals : string -> string -> string -> M (list value).
Variable getHourlyTotals : string -> string -> M (list value).
Variable getRawReadings :
  string -> string -> option string -> string -> M (list value).
Variable getKnownGateways : M (list string).

(** X17: the requests that the router turns down leave the world as
    it is: an OPTIONS request on any path (answered 200 without a
    body), a backfill without [start] or [end] (400), a job endpoint
    when a secret is missing (500), and a path that is not routed
    (404, also under [/api/]). *)
Theorem handleRequest_turns_down_without_effect
    (request : Worker.HttpRequest) (b : Worker.Bindings) (w : World) :
  (Worker.method request = "OPTIONS" ->
   Worker.handleRequest env getDailyTotals getHourlyTotals getRawReadings
     getKnownGateways request b w
   = (Return (Worker.mkHttpResponse 200 Worker.corsHeaders Worker.NoBody), w))
  /\ (Worker.method request <> "OPTIONS" ->
      (Worker.pathname request = "/backfill" ->
       Worker.present (Worker.get "start" (Worker.searchParams request)) = None
       \/ Worker.present (Worker.get "end" (Worker.searchParams request))
          = None ->
       Worker.handleRequest env getDailyTotals getHourlyTotals getRawReadings
         getKnownGateways request b w
       = (Return (Worker.errorResponse
                    "Missing start or end parameter (YYYY-MM-DD)" 400), w))
      /\ (Worker.pathname request = "/cron"
          \/ Worker.pathname request = "/__scheduled" ->
          Worker.present (Worker.GEOSTAR_EMAIL b) = None
          \/ Worker.present (Worker.GEOSTAR_PASSWORD b) = None ->
          Worker.handleRequest env getDailyTotals getHourlyTotals
            getRawReadings getKnownGateways request b w
          = (Return (Worker.errorResponse
                       "Missing GEOSTAR_EMAIL or GEOSTAR_PASSWORD secrets"
                       500), w))
      /\ (String.prefix "/api/" (Worker.pathname request) = false ->
          ~ In (Worker.pathname request)
              ["/__scheduled"; "/cron"; "/backfill"; "/"] ->
          Worker.handleRequest env getDailyTotals getHourlyTotals
            getRawReadings getKnownGateways request b w
          = (Return (Worker.errorResponse "Not found" 404), w))
      /\ (String.prefix "/api/" (Worker.pathname request) = true ->
          ~ In (Worker.pathname request)
              ["/api/energy/daily"; "/api/energy/hourly"; "/api/energy/raw";
               "/api/gateways"] ->
          Worker.handleRequest env getDailyTotals getHourlyTotals
            getRawReadings getKnownGateways request b w
          = (Return (Worker.errorResponse "API endpoint not found" 404), w))).
Proof.
  unfold Worker.handleRequest. split.
  - intros ->. reflexivity.
  - intros Hm. apply String.eqb_neq in Hm. rewrite Hm.
    split; [| split; [| split]].
    + intros -> Hmiss. change (String.prefix "/api/" "/backfill") with false.
      cbn [String.eqb Ascii.eqb Bool.eqb orb].
      destruct Hmiss as [-> | H2]; [reflexivity |].
      rewrite H2.
      destruct (Worker.present
                  (Worker.get "start" (Worker.searchParams request)));
        reflexivity.
    + intros Hp Hmiss.
      assert (Hpre : String.prefix "/api/" (Worker.pathname request) = false)
        by (destruct Hp as [-> | ->]; reflexivity).
      assert (Hor : String.eqb (Worker.pathname request) "/__scheduled"
                    || String.eqb (Worker.pathname request) "/cron" = true)
        by (destruct Hp as [-> | ->]; reflexivity).
      rewrite Hpre, Hor. unfold Worker.handleManualCron.
      destruct Hmiss as [-> | H2]; [reflexivity |].
      rewrite H2. destruct (Worker.present (Worker.GEOSTAR_EMAIL b));
        reflexivity.
    + intros Hpre Hnot. rewrite Hpre.
      assert (H1 : String.eqb (Worker.pathname request) "/__scheduled" = false)
        by (apply String.eqb_neq; intros E; apply Hnot; rewrite E;
            simpl; tauto).
      assert (H2 : String.eqb (Worker.pathname request) "/cron" = false)
        by (apply String.eqb_neq; intros E; apply Hnot; rewrite E;
            simpl; tauto).
      assert (H3 : String.eqb (Worker.pathname request) "/backfill" = false)
        by (apply String.eqb_neq; intros E; apply Hnot; rewrite E;
            simpl; tauto).
      assert (H4 : String.eqb (Worker.pathname request) "/" = false)
        by (apply String.eqb_neq; intros E; apply Hnot; rewrite E;
            simpl; tauto).
      rewrite H1, H2, H3, H4. reflexivity.
    + intros Hpre Hnot. rewrite Hpre. unfold Worker.handleApiRoute.
      assert (H1 : String.eqb (Worker.pathname request) "/api/energy/daily"
                   = false)
        by (apply String.eqb_neq; intros E; apply Hnot; rewrite E;
            simpl; tauto).
      assert (H2 : String.eqb (Worker.pathname request) "/api/energy/hourly"
                   = false)
        by (apply String.eqb_neq; intros E; apply Hnot; rewrite E;
            simpl; tauto).
      assert (H3 : String.eqb (Worker.pathname request) "/api/energy/raw"
                   = false)
        by (apply String.eqb_neq; intros E; apply Hnot; rewrite E;
            simpl; tauto).
      assert (H4 : String.eqb (Worker.pathname request) "/api/gateways"
                   = false)
        by (apply String.eqb_neq; intros E; apply Hnot; rewrite E;
            simpl; tauto).
      rewrite H1, H2, H3, H4. reflexivity.
Qed.

(** X18: with both secrets set, the job endpoints answer 200 with the
    result of the job as body, also when the job failed: [/cron] and
    [/__scheduled] run the daily fetch, and [/backfill] runs the
    backfill for the [start] and [end] of the query, without
    [override]; the time zone is the [TIMEZONE] variable, or
    [America/Los_Angeles] when it is not set. *)
Theorem job_endpoints_answer_in_band
    (request : Worker.HttpRequest) (b : Worker.Bindings) (w : World)
    (email password : string) :
  Worker.method request <> "OPTIONS" ->
  Worker.present (Worker.GEOSTAR_EMAIL b) = Some email ->
  Worker.present (Worker.GEOSTAR_PASSWORD b) = Some password ->
  (Worker.pathname request = "/cron"
   \/ Worker.pathname request = "/__scheduled" ->
   exists result w',
     runDailyFetch env email password
       (Worker.or_default (Worker.TIMEZONE b) "America/Los_Angeles") w
     = (Return result, w')
     /\ Worker.handleRequest env getDailyTotals getHourlyTotals
          getRawReadings getKnownGateways request b w
        = (Return (Worker.jsonResponse (Worker.JobPayload result) 200), w'))
  /\ (forall sd ed,
         Worker.pathname request = "/backfill" ->
         Worker.present (Worker.get "start" (Worker.searchParams request))
         = Some sd ->
         Worker.present (Worker.get "end" (Worker.searchParams request))
         = Some ed ->
         exists result w',
           backfillData env email password sd ed
             (Worker.or_default (Worker.TIMEZONE b) "America/Los_Angeles")
             false w
           = (Return result, w')
           /\ Worker.handleRequest env getDailyTotals getHourlyTotals
                getRawReadings getKnownGateways request b w
              = (Return (Worker.jsonResponse (Worker.JobPayload result) 200),
                 w')).
Proof.
  intros Hm He Hp. apply String.eqb_neq in Hm.
  unfold Worker.handleRequest. rewrite Hm. split.
  - intros Hpath.
    assert (Hpre : String.prefix "/api/" (Worker.pathname request) = false)
      by (destruct Hpath as [-> | ->]; reflexivity).
    assert (Hor : String.eqb (Worker.pathname request) "/__scheduled"
                  || String.eqb (Worker.pathname request) "/cron" = true)
      by (destruct Hpath as [-> | ->]; reflexivity).
    rewrite Hpre, Hor. unfold Worker.handleManualCron. rewrite He, Hp.
    destruct (runDailyFetch_total env email password
                (Worker.or_default (Worker.TIMEZONE b) "America/Los_Angeles")
                w) as [result [w' Hrun]].
    exists result, w'. split; [exact Hrun |].
    unfold_monad. unfold Worker.default_timezone. rewrite Hrun. reflexivity.
  - intros sd ed -> Hs Hd.
    change (String.prefix "/api/" "/backfill") with false.
    cbn [String.eqb Ascii.eqb Bool.eqb orb].
    rewrite Hs, Hd. unfold Worker.handleBackfill. rewrite He, Hp.
    destruct (backfillData_total env email password sd ed
                (Worker.or_default (Worker.TIMEZONE b) "America/Los_Angeles")
                false w) as [result [w' Hrun]].
    exists result, w'. split; [exact Hrun |].
    unfold_monad. unfold Worker.default_timezone. rewrite Hrun. reflexivity.
Qed.

(** X19: [/api/energy/daily] answers 400 without querying when
    [start] or [end] is missing or empty; otherwise it queries the
    daily totals for [start] and [end] in the zone
    [America/Los_Angeles], whatever the [TIMEZONE] variable and the
    other parameters of the query say, and answers 200 with the rows,
    or 500 with the message of the error when the query throws. *)
Theorem api_daily_validates_and_reports
    (request : Worker.HttpRequest) (b : Worker.Bindings) (w : World) :
  Worker.method request <> "OPTIONS" ->
  Worker.pathname request = "/api/energy/daily" ->
  (Worker.present (Worker.get "start" (Worker.searchParams request)) = None
   \/ Worker.present (Worker.get "end" (Worker.searchParams request)) = None ->
   Worker.handleRequest env getDailyTotals getHourlyTotals getRawReadings
     getKnownGateways request b w
   = (Return (Worker.errorResponse "Missing start or end parameter" 400), w))
  /\ (forall sd ed,
         Worker.present (Worker.get "start" (Worker.searchParams request))
         = Some sd ->
         Worker.present (Worker.get "end" (Worker.searchParams request))
         = Some ed ->
         (forall data w',
             getDailyTotals sd ed "America/Los_Angeles" w = (Return data, w') ->
             Worker.handleRequest env getDailyTotals getHourlyTotals
               getRawReadings getKnownGateways request b w
             = (Return (Worker.jsonResponse (Worker.DataPayload data) 200),
                w'))
         /\ (forall e w',
                getDailyTotals sd ed "America/Los_Angeles" w = (Throw e, w') ->
                Worker.handleRequest env getDailyTotals getHourlyTotals
                  getRawReadings getKnownGateways request b w
                = (Return (Worker.errorResponse (message e) 500), w'))).
Proof.
  intros Hm Hpath. apply String.eqb_neq in Hm.
  unfold Worker.handleRequest, Worker.handleApiRoute. rewrite Hm, Hpath.
  change (String.prefix "/api/" "/api/energy/daily") with true.
  cbn [String.eqb Ascii.eqb Bool.eqb]. split.
  - intros [-> | H2]; [reflexivity |]. rewrite H2.
    destruct (Worker.present
                (Worker.get "start" (Worker.searchParams request)));
      reflexivity.
  - intros sd ed -> ->. unfold_monad. unfold Worker.default_timezone.
    split; intros ? ? ->; reflexivity.
Qed.

(** X20: [/api/energy/raw] passes the [gateway] parameter on as a
    filter only when it is not empty, and answers 200 with the rows
    together with their number. *)
Theorem api_raw_counts_rows
    (request : Worker.HttpRequest) (b : Worker.Bindings) (w : World)
    (sd ed : string) (data : list value) (w' : World) :
  Worker.method request <> "OPTIONS" ->
  Worker.pathname request = "/api/energy/raw" ->
  Worker.present (Worker.get "start" (Worker.searchParams request)) = Some sd ->
  Worker.present (Worker.get "end" (Worker.searchParams request)) = Some ed ->
  getRawReadings sd ed
    (Worker.present (Worker.get "gateway" (Worker.searchParams request)))
    "America/Los_Angeles" w = (Return data, w') ->
  Worker.handleRequest env getDailyTotals getHourlyTotals getRawReadings
    getKnownGateways request b w
  = (Return (Worker.jsonResponse
               (Worker.DataCountPayload data (List.length data)) 200), w')
  /\ (Worker.get "gateway" (Worker.searchParams request) = Some "" ->
      Worker.present (Worker.get "gateway" (Worker.searchParams request))
      = None).
Proof.
  intros Hm Hpath Hs Hd Hq. apply String.eqb_neq in Hm.
  unfold Worker.handleRequest, Worker.handleApiRoute. rewrite Hm, Hpath.
  change (String.prefix "/api/" "/api/energy/raw") with true.
  cbn [String.eqb Ascii.eqb Bool.eqb]. rewrite Hs, Hd.
  unfold_monad. unfold Worker.default_timezone. rewrite Hq.
  split; [reflexivity | intros ->; reflexivity].
Qed.

(** X21: the scheduled trigger never throws: it does nothing at all
    when a secret is missing, and otherwise runs the daily fetch and
    discards its result. *)
Theorem handleScheduled_never_throws (b : Worker.Bindings) (w : World) :
  (exists w', Worker.handleScheduled env b w = (Return tt, w'))
  /\ (Worker.present (Worker.GEOSTAR_EMAIL b) = None
      \/ Worker.present (Worker.GEOSTAR_PASSWORD b) = None ->
      Worker.handleScheduled env b w = (Return tt, w))
  /\ (forall email password,
         Worker.present (Worker.GEOSTAR_EMAIL b) = Some email ->
         Worker.present (Worker.GEOSTAR_PASSWORD b) = Some password ->
         snd (Worker.handleScheduled env b w)
         = snd (runDailyFetch env email password
                  (Worker.or_default (Worker.TIMEZONE b)
                     "America/Los_Angeles") w)).
Proof.
  unfold Worker.handleScheduled. split; [| split].
  - destruct (Worker.present (Worker.GEOSTAR_EMAIL b)) as [email |];
      [| exists w; reflexivity].
    destruct (Worker.present (Worker.GEOSTAR_PASSWORD b)) as [password |];
      [| exists w; reflexivity].
    unfold_monad.
    match goal with
    | |- context [runDailyFetch ?e ?a ?p ?z w] =>
        destruct (runDailyFetch e a p z w) as [[r | err] w1]
    end; eauto.
  - intros [-> | H2]; [reflexivity |]. rewrite H2.
    destruct (Worker.present (Worker.GEOSTAR_EMAIL b)); reflexivity.
  - intros email password -> ->. unfold_monad.
    unfold Worker.default_timezone.
    destruct (runDailyFetch env email password
                (Worker.or_default (Worker.TIMEZONE b) "America/Los_Angeles")
                w) as [[r | err] w1]; reflexivity.
Qed.

End RouterCases.

Lemma handleRequest_turns_down_without_effect_witness :
  let request :=
    Worker.mkRequest "GET" "/backfill" [("start", "2025-01-01"); ("end", "")] in
  Worker.method request <> "OPTIONS"
  /\ Worker.present (Worker.get "end" (Worker.searchParams request)) = None
  /\ Worker.handleRequest Sample.refetch_env Sample.no_rows3 Sample.no_rows2
       Sample.no_rows4 Sample.no_ids request Sample.bindings Sample.stale_world
     = (Return (Worker.errorResponse
                  "Missing start or end parameter (YYYY-MM-DD)" 400),
        Sample.stale_world).
Proof.
  intros request.
  assert (Hm : Worker.method request <> "OPTIONS") by discriminate.
  split; [exact Hm |]. split; [reflexivity |].
  apply (proj1 (proj2 (handleRequest_turns_down_without_effect
                         Sample.refetch_env Sample.no_rows3 Sample.no_rows2
                         Sample.no_rows4 Sample.no_ids request Sample.bindings
                         Sample.stale_world) Hm)).
  - reflexivity.
  - right. reflexivity.
Defined.

Lemma job_endpoints_answer_in_band_witness :
  let request := Worker.mkRequest "GET" "/cron" [] in
  Worker.method request <> "OPTIONS"
  /\ Worker.present (Worker.GEOSTAR_EMAIL Sample.bindings)
     = Some "me@example.com"
  /\ Worker.present (Worker.GEOSTAR_PASSWORD Sample.bindings) = Some "pw"
  /\ exists result w',
      runDailyFetch Sample.refetch_env "me@example.com" "pw"
        "America/Los_Angeles" Sample.stale_world
      = (Return result, w')
      /\ Worker.handleRequest Sample.refetch_env Sample.no_rows3
           Sample.no_rows2 Sample.no_rows4 Sample.no_ids request
           Sample.bindings Sample.stale_world
         = (Return (Worker.jsonResponse (Worker.JobPayload result) 200), w').
Proof.
  intros request.
  assert (Hm : Worker.method request <> "OPTIONS") by discriminate.
  split; [exact Hm |]. split; [reflexivity |]. split; [reflexivity |].
  apply (proj1 (job_endpoints_answer_in_band
                  Sample.refetch_env Sample.no_rows3 Sample.no_rows2
                  Sample.no_rows4 Sample.no_ids request Sample.bindings
                  Sample.stale_world "me@example.com" "pw"
                  Hm eq_refl eq_refl)).
  left. reflexivity.
Defined.

Lemma api_daily_validates_and_reports_witness :
  let request :=
    Worker.mkRequest "GET" "/api/energy/daily"
      [("start", "2025-01-01"); ("end", "2025-01-31")] in
  Worker.method request <> "OPTIONS"
  /\ Worker.handleRequest Sample.refetch_env Sample.failing_query
       Sample.no_rows2 Sample.no_rows4 Sample.no_ids request Sample.bindings
       Sample.stale_world
     = (Return (Worker.errorResponse
                  "D1_ERROR: no such table: energy_readings" 500),
        Sample.stale_world).
Proof.
  intros request.
  assert (Hm : Worker.method request <> "OPTIONS") by discriminate.
  split; [exact Hm |].
  apply (proj2 (proj2 (api_daily_validates_and_reports
                         Sample.refetch_env Sample.failing_query
                         Sample.no_rows2 Sample.no_rows4 Sample.no_ids request
                         Sample.bindings Sample.stale_world Hm eq_refl)
                  "2025-01-01" "2025-01-31" eq_refl eq_refl)
           (Error "D1_ERROR: no such table: energy_readings")
           Sample.stale_world).
  reflexivity.
Defined.

Lemma api_raw_counts_rows_witness :
  let request :=
    Worker.mkRequest "GET" "/api/energy/raw"
      [("start", "2025-01-01"); ("end", "2025-01-31"); ("gateway", "")] in
  Worker.method request <> "OPTIONS"
  /\ Worker.handleRequest Sample.refetch_env Sample.no_rows3 Sample.no_rows2
       Sample.no_rows4 Sample.no_ids request Sample.bindings
       Sample.stale_world
     = (Return (Worker.jsonResponse (Worker.DataCountPayload [] 0) 200),
        Sample.stale_world)
  /\ Worker.present (Worker.get "gateway" (Worker.searchParams request))
     = None.
Proof.
  intros request.
  assert (Hm : Worker.method request <> "OPTIONS") by discriminate.
  split; [exact Hm |].
  destruct (api_raw_counts_rows
              Sample.refetch_env Sample.no_rows3 Sample.no_rows2
              Sample.no_rows4 Sample.no_ids request Sample.bindings
              Sample.stale_world "2025-01-01" "2025-01-31" []
              Sample.stale_world Hm eq_refl eq_refl eq_refl eq_refl)
    as [Hresp Hgw].
  split; [exact Hresp | apply Hgw; reflexivity].
Defined.

Lemma handleScheduled_never_throws_witness :
  Worker.present (Worker.GEOSTAR_EMAIL Sample.no_secrets) = None
  /\ Worker.handleScheduled Sample.refetch_env Sample.no_secrets
       Sample.stale_world
     = (Return tt, Sample.stale_world).
Proof.
  split; [reflexivity |].
  apply (proj1 (proj2 (handleScheduled_never_throws
                         Sample.refetch_env Sample.no_secrets
                         Sample.stale_world))).
  left. reflexivity.
Defined.
